(** * The Object built-in of the ECMA object model

    A shallow embedding of [src/libecmabuiltins/ecma-builtin-object-object.c]:
    the table of the Object object's built-in property names, the
    initialisation of the Object object, the dispatcher of its built-in
    routines and the lazy instantiation of its built-in properties.

    Engine state is threaded explicitly through a small state-and-failure
    monad.  The fatal exits of the engine ([JERRY_ASSERT],
    [JERRY_UNREACHABLE], [JERRY_UNIMPLEMENTED]) are results of their own.

    A second part embeds [fopen], [fread] and [fwrite] of
    [jerry-libc/target/darwin/jerry-libc-target.c] over a kernel that is a
    parameter of the development. *)

From Stdlib Require Import ZArith String Ascii List Bool Lia PrimFloat.
From stdpp Require Import base decidable option list strings.

Local Open Scope Z_scope.

(** ** Data model

    The types of [ecma-globals.h] are not part of this file's source; they
    are modelled from the specification of the data model, with the names
    that the source uses for them. *)

(** Modelled from the spec: [ecma_magic_string_id_t], the identifiers of the
    magic (interned) strings.  The constructors are the enumerators that the
    Object built-in names, ["toString"] as an enumerator it does not name,
    and [ECMA_MAGIC_STRING__OTHER] for every remaining enumerator.  The
    numeric values of the enumerators are left open: see
    [magic_string_id_value] below. *)
Inductive ecma_magic_string_id_t : Set :=
| ECMA_MAGIC_STRING_PROTOTYPE
| ECMA_MAGIC_STRING_LENGTH
| ECMA_MAGIC_STRING_GET_PROTOTYPE_OF_UL
| ECMA_MAGIC_STRING_GET_OWN_PROPERTY_DESCRIPTOR_UL
| ECMA_MAGIC_STRING_GET_OWN_PROPERTY_NAMES_UL
| ECMA_MAGIC_STRING_CREATE
| ECMA_MAGIC_STRING_DEFINE_PROPERTY_UL
| ECMA_MAGIC_STRING_DEFINE_PROPERTIES_UL
| ECMA_MAGIC_STRING_SEAL
| ECMA_MAGIC_STRING_FREEZE
| ECMA_MAGIC_STRING_PREVENT_EXTENSIONS_UL
| ECMA_MAGIC_STRING_IS_SEALED_UL
| ECMA_MAGIC_STRING_IS_FROZEN_UL
| ECMA_MAGIC_STRING_IS_EXTENSIBLE
| ECMA_MAGIC_STRING_KEYS
| ECMA_MAGIC_STRING_TO_STRING_UL
| ECMA_MAGIC_STRING__OTHER (k : nat).

#[global] Instance ecma_magic_string_id_eq_dec : EqDecision ecma_magic_string_id_t.
Proof. solve_decision. Defined.

(** Modelled from the spec: [ecma_string_t], either an interned magic
    string or an owned heap string. *)
Inductive ecma_string_t : Set :=
| ECMA_STRING_CONTAINER_MAGIC_STRING (id : ecma_magic_string_id_t)
| ECMA_STRING_CONTAINER_HEAP (chars : string).

#[global] Instance ecma_string_eq_dec : EqDecision ecma_string_t.
Proof. solve_decision. Defined.

(** Modelled from the spec: the simple values, Undefined, Null, Boolean and
    the internal Empty. *)
Inductive ecma_simple_value_t : Set :=
| ECMA_SIMPLE_VALUE_EMPTY
| ECMA_SIMPLE_VALUE_UNDEFINED
| ECMA_SIMPLE_VALUE_NULL
| ECMA_SIMPLE_VALUE_FALSE
| ECMA_SIMPLE_VALUE_TRUE.

(** Objects live in the heap and are referred to by address. *)
Definition ecma_object_ptr := nat.

(** The boxed cell of a Number belongs to the one value that owns it, so a
    Number value is represented by the content of its cell. *)
Definition ecma_number_t := float.

(** Modelled from the spec: [ecma_value_t], the tagged value. *)
Inductive ecma_value_t : Set :=
| ECMA_TYPE_SIMPLE (v : ecma_simple_value_t)
| ECMA_TYPE_NUMBER (num : ecma_number_t)
| ECMA_TYPE_STRING (str : ecma_string_t)
| ECMA_TYPE_OBJECT (obj_p : ecma_object_ptr).

(** Modelled from the spec: [ecma_completion_value_t], a value with the kind
    of completion that carries it. *)
Inductive ecma_completion_type_t : Set :=
| ECMA_COMPLETION_TYPE_NORMAL
| ECMA_COMPLETION_TYPE_THROW
| ECMA_COMPLETION_TYPE_RETURN
| ECMA_COMPLETION_TYPE_EXIT.

Record ecma_completion_value_t : Set := mk_completion
  { completion_type : ecma_completion_type_t;
    completion_value : ecma_value_t }.

(** Modelled from the spec: the attributes of a property. *)
Inductive ecma_property_writable_value_t : Set :=
| ECMA_PROPERTY_NOT_WRITABLE
| ECMA_PROPERTY_WRITABLE.

Inductive ecma_property_enumerable_value_t : Set :=
| ECMA_PROPERTY_NOT_ENUMERABLE
| ECMA_PROPERTY_ENUMERABLE.

Inductive ecma_property_configurable_value_t : Set :=
| ECMA_PROPERTY_NOT_CONFIGURABLE
| ECMA_PROPERTY_CONFIGURABLE.

(** Modelled from the spec: the identifiers of the internal properties that
    hold the class tag, the built-in identity, the routine of a built-in
    function and the instantiation mask. *)
Inductive ecma_internal_property_id_t : Set :=
| ECMA_INTERNAL_PROPERTY_CLASS
| ECMA_INTERNAL_PROPERTY_BUILT_IN_ID
| ECMA_INTERNAL_PROPERTY_BUILT_IN_ROUTINE_ID
| ECMA_INTERNAL_PROPERTY_NON_INSTANTIATED_BUILT_IN_MASK_0_31.

#[global] Instance ecma_internal_property_id_eq_dec :
  EqDecision ecma_internal_property_id_t.
Proof. solve_decision. Defined.

(** Modelled from the spec: class tags, built-in identities and object
    types, as far as this file names them. *)
Inductive ecma_object_class_t : Set :=
| ECMA_OBJECT_CLASS_OBJECT
| ECMA_OBJECT_CLASS_FUNCTION.

Inductive ecma_builtin_id_t : Set :=
| ECMA_BUILTIN_ID_GLOBAL
| ECMA_BUILTIN_ID_OBJECT.

Inductive ecma_object_type_t : Set :=
| ECMA_OBJECT_TYPE_GENERAL
| ECMA_OBJECT_TYPE_FUNCTION.

(** Modelled from the spec: the raw payload of an internal property.  The C
    slot is one untyped 32-bit word; the numeric codes of the class and
    built-in enumerations are not fixed by this file, so the payload keeps
    the enumerator. *)
Inductive ecma_internal_value_t : Set :=
| INTERNAL_UINT32 (w : Z)
| INTERNAL_CLASS (c : ecma_object_class_t)
| INTERNAL_BUILT_IN_ID (b : ecma_builtin_id_t)
| INTERNAL_ROUTINE_ID (b : ecma_builtin_id_t) (r : ecma_magic_string_id_t).

(** Modelled from the spec: [ecma_property_t], a named data property, a
    named accessor property or an internal property. *)
Inductive ecma_property_t : Set :=
| ECMA_PROPERTY_NAMEDDATA
    (name : ecma_string_t) (value : ecma_value_t)
    (writable : ecma_property_writable_value_t)
    (enumerable : ecma_property_enumerable_value_t)
    (configurable : ecma_property_configurable_value_t)
| ECMA_PROPERTY_NAMEDACCESSOR
    (name : ecma_string_t) (get_p set_p : option ecma_object_ptr)
    (enumerable : ecma_property_enumerable_value_t)
    (configurable : ecma_property_configurable_value_t)
| ECMA_PROPERTY_INTERNAL
    (id : ecma_internal_property_id_t) (value : ecma_internal_value_t).

(** Modelled from the spec: [ecma_object_t]: prototype relation, extensible
    flag, type tag, built-in flag and the ordered collection of properties.
    The reference count and the metadata of the collector are left out. *)
Record ecma_object_t : Set := mk_object
  { prototype_object_p : option ecma_object_ptr;
    is_extensible : bool;
    object_type : ecma_object_type_t;
    is_builtin : bool;
    properties : list ecma_property_t }.

(** What identifies a property inside its object: a name or an internal
    identifier.  An [ecma_property_t*] is the owning object together with
    this key. *)
Inductive ecma_property_key_t : Set :=
| KEY_NAMED (name : ecma_string_t)
| KEY_INTERNAL (id : ecma_internal_property_id_t).

#[global] Instance ecma_property_key_eq_dec : EqDecision ecma_property_key_t.
Proof. solve_decision. Defined.

Definition ecma_property_ptr : Set := ecma_object_ptr * ecma_property_key_t.

Definition property_key (p : ecma_property_t) : ecma_property_key_t :=
  match p with
  | ECMA_PROPERTY_NAMEDDATA name _ _ _ _ => KEY_NAMED name
  | ECMA_PROPERTY_NAMEDACCESSOR name _ _ _ _ => KEY_NAMED name
  | ECMA_PROPERTY_INTERNAL id _ => KEY_INTERNAL id
  end.

(** The engine state this file touches: the object heap and the global
    [ecma_object_object_p]. *)
Record ecma_state : Set := mk_state
  { heap : list ecma_object_t;
    ecma_object_object_p : option ecma_object_ptr }.

(** ** Fatal exits and the engine monad *)

(** Modelled from the spec: the fatal conditions of the engine, a failed
    assertion, an unreachable branch and the "not implemented" marker.
    [ERR_UNIMPLEMENTED] remembers the function that raised it and the
    variables handed to [JERRY_UNIMPLEMENTED_REF_UNUSED_VARS]. *)
Inductive jerry_fatal_code_t : Set :=
| ERR_FAILED_ASSERTION
| ERR_UNREACHABLE
| ERR_UNIMPLEMENTED (func : string) (vars : list ecma_value_t).

(** A call returns a result and a new state, stops the engine with a fatal
    code, or has no defined behaviour in C (a read outside an array, a
    dereference of a dangling pointer). *)
Inductive outcome (A : Type) : Type :=
| Returned (a : A) (s : ecma_state)
| Fatal (code : jerry_fatal_code_t)
| Undefined_behaviour.

Arguments Returned {A} a s.
Arguments Fatal {A} code.
Arguments Undefined_behaviour {A}.

Definition M (A : Type) : Type := ecma_state -> outcome A.

Definition ret {A} (a : A) : M A := fun s => Returned a s.

Definition bind {A B} (m : M A) (k : A -> M B) : M B :=
  fun s =>
    match m s with
    | Returned a s' => k a s'
    | Fatal code => Fatal code
    | Undefined_behaviour => Undefined_behaviour
    end.

Declare Scope engine_scope.
Delimit Scope engine_scope with engine.
Notation "x <- c1 ;; c2" := (bind c1 (fun x => c2))
  (at level 100, c1 at next level, right associativity) : engine_scope.
Notation "c1 ;;; c2" := (bind c1 (fun _ => c2))
  (at level 100, right associativity) : engine_scope.
Local Open Scope engine_scope.

Definition get_state : M ecma_state := fun s => Returned s s.
Definition put_state (s : ecma_state) : M unit := fun _ => Returned tt s.
Definition fatal {A} (code : jerry_fatal_code_t) : M A := fun _ => Fatal code.
Definition undefined_behaviour {A} : M A := fun _ => Undefined_behaviour.

(** Modelled from the spec: the macros of [globals.h].  An invariant
    violation, an unreachable branch and an unimplemented algorithm are
    fatal: the engine stops. *)
Definition JERRY_ASSERT (x : bool) : M unit :=
  if x then ret tt else fatal ERR_FAILED_ASSERTION.

Definition JERRY_UNREACHABLE {A} : M A := fatal ERR_UNREACHABLE.

Definition JERRY_UNIMPLEMENTED {A} (func : string) : M A :=
  fatal (ERR_UNIMPLEMENTED func []).

Definition JERRY_UNIMPLEMENTED_REF_UNUSED_VARS {A}
    (func : string) (vars : list ecma_value_t) : M A :=
  fatal (ERR_UNIMPLEMENTED func vars).

(** ** Values *)

(** Modelled from the spec: the constructors of values and the number 1. *)
Definition ecma_make_simple_value (v : ecma_simple_value_t) : ecma_value_t :=
  ECMA_TYPE_SIMPLE v.

Definition ecma_make_number_value (num : ecma_number_t) : ecma_value_t :=
  ECMA_TYPE_NUMBER num.

Definition ecma_make_object_value (obj_p : ecma_object_ptr) : ecma_value_t :=
  ECMA_TYPE_OBJECT obj_p.

Definition ECMA_NUMBER_ONE : ecma_number_t := 1%float.

(** ** The routines of the Object object

    Every routine is a stub that raises the unimplemented marker. *)

Definition ecma_builtin_object_object_get_prototype_of
    (arg : ecma_value_t) : M ecma_completion_value_t :=
  JERRY_UNIMPLEMENTED_REF_UNUSED_VARS
    "ecma_builtin_object_object_get_prototype_of" [arg].

Definition ecma_builtin_object_object_get_own_property_names
    (arg : ecma_value_t) : M ecma_completion_value_t :=
  JERRY_UNIMPLEMENTED_REF_UNUSED_VARS
    "ecma_builtin_object_object_get_own_property_names" [arg].

Definition ecma_builtin_object_object_seal
    (arg : ecma_value_t) : M ecma_completion_value_t :=
  JERRY_UNIMPLEMENTED_REF_UNUSED_VARS "ecma_builtin_object_object_seal" [arg].

Definition ecma_builtin_object_object_freeze
    (arg : ecma_value_t) : M ecma_completion_value_t :=
  JERRY_UNIMPLEMENTED_REF_UNUSED_VARS "ecma_builtin_object_object_freeze" [arg].

Definition ecma_builtin_object_object_prevent_extensions
    (arg : ecma_value_t) : M ecma_completion_value_t :=
  JERRY_UNIMPLEMENTED_REF_UNUSED_VARS
    "ecma_builtin_object_object_prevent_extensions" [arg].

Definition ecma_builtin_object_object_is_sealed
    (arg : ecma_value_t) : M ecma_completion_value_t :=
  JERRY_UNIMPLEMENTED_REF_UNUSED_VARS
    "ecma_builtin_object_object_is_sealed" [arg].

Definition ecma_builtin_object_object_is_frozen
    (arg : ecma_value_t) : M ecma_completion_value_t :=
  JERRY_UNIMPLEMENTED_REF_UNUSED_VARS
    "ecma_builtin_object_object_is_frozen" [arg].

Definition ecma_builtin_object_object_is_extensible
    (arg : ecma_value_t) : M ecma_completion_value_t :=
  JERRY_UNIMPLEMENTED_REF_UNUSED_VARS
    "ecma_builtin_object_object_is_extensible" [arg].

Definition ecma_builtin_object_object_keys
    (arg : ecma_value_t) : M ecma_completion_value_t :=
  JERRY_UNIMPLEMENTED_REF_UNUSED_VARS "ecma_builtin_object_object_keys" [arg].

Definition ecma_builtin_object_object_get_own_property_descriptor
    (arg1 arg2 : ecma_value_t) : M ecma_completion_value_t :=
  JERRY_UNIMPLEMENTED_REF_UNUSED_VARS
    "ecma_builtin_object_object_get_own_property_descriptor" [arg1; arg2].

Definition ecma_builtin_object_object_create
    (arg1 arg2 : ecma_value_t) : M ecma_completion_value_t :=
  JERRY_UNIMPLEMENTED_REF_UNUSED_VARS
    "ecma_builtin_object_object_create" [arg1; arg2].

Definition ecma_builtin_object_object_define_properties
    (arg1 arg2 : ecma_value_t) : M ecma_completion_value_t :=
  JERRY_UNIMPLEMENTED_REF_UNUSED_VARS
    "ecma_builtin_object_object_define_properties" [arg1; arg2].

Definition ecma_builtin_object_object_define_property
    (arg1 arg2 arg3 : ecma_value_t) : M ecma_completion_value_t :=
  JERRY_UNIMPLEMENTED_REF_UNUSED_VARS
    "ecma_builtin_object_object_define_property" [arg1; arg2; arg3].

(** ** Dispatcher of the Object object's built-in routines *)

(** Read of a C array; a read past its end has no defined behaviour. *)
Definition array_read {A} (a : list A) (i : nat) : M A :=
  match a !! i with
  | Some x => ret x
  | None => undefined_behaviour
  end.

(** Number of a routine's parameters ([ecma_length_t]). *)
Definition ecma_builtin_object_get_routine_parameters_number
    (builtin_routine_id : ecma_magic_string_id_t) : M Z :=
  match builtin_routine_id with
  | ECMA_MAGIC_STRING_GET_PROTOTYPE_OF_UL
  | ECMA_MAGIC_STRING_GET_OWN_PROPERTY_NAMES_UL
  | ECMA_MAGIC_STRING_SEAL
  | ECMA_MAGIC_STRING_FREEZE
  | ECMA_MAGIC_STRING_PREVENT_EXTENSIONS_UL
  | ECMA_MAGIC_STRING_IS_SEALED_UL
  | ECMA_MAGIC_STRING_IS_FROZEN_UL
  | ECMA_MAGIC_STRING_IS_EXTENSIBLE
  | ECMA_MAGIC_STRING_KEYS => ret 1
  | ECMA_MAGIC_STRING_GET_OWN_PROPERTY_DESCRIPTOR_UL
  | ECMA_MAGIC_STRING_CREATE
  | ECMA_MAGIC_STRING_DEFINE_PROPERTIES_UL => ret 2
  | ECMA_MAGIC_STRING_DEFINE_PROPERTY_UL => ret 3
  | _ => JERRY_UNREACHABLE
  end.

Definition ecma_builtin_object_dispatch_routine
    (builtin_routine_id : ecma_magic_string_id_t)
    (arguments_list : list ecma_value_t)
    (arguments_number : Z) : M ecma_completion_value_t :=
  let value_undefined := ecma_make_simple_value ECMA_SIMPLE_VALUE_UNDEFINED in
  match builtin_routine_id with
  | ECMA_MAGIC_STRING_GET_PROTOTYPE_OF_UL =>
      arg <- (if arguments_number >=? 1
              then array_read arguments_list 0 else ret value_undefined);;
      ecma_builtin_object_object_get_prototype_of arg
  | ECMA_MAGIC_STRING_GET_OWN_PROPERTY_NAMES_UL =>
      arg <- (if arguments_number >=? 1
              then array_read arguments_list 0 else ret value_undefined);;
      ecma_builtin_object_object_get_own_property_names arg
  | ECMA_MAGIC_STRING_SEAL =>
      arg <- (if arguments_number >=? 1
              then array_read arguments_list 0 else ret value_undefined);;
      ecma_builtin_object_object_seal arg
  | ECMA_MAGIC_STRING_FREEZE =>
      arg <- (if arguments_number >=? 1
              then array_read arguments_list 0 else ret value_undefined);;
      ecma_builtin_object_object_freeze arg
  | ECMA_MAGIC_STRING_PREVENT_EXTENSIONS_UL =>
      arg <- (if arguments_number >=? 1
              then array_read arguments_list 0 else ret value_undefined);;
      ecma_builtin_object_object_prevent_extensions arg
  | ECMA_MAGIC_STRING_IS_SEALED_UL =>
      arg <- (if arguments_number >=? 1
              then array_read arguments_list 0 else ret value_undefined);;
      ecma_builtin_object_object_is_sealed arg
  | ECMA_MAGIC_STRING_IS_FROZEN_UL =>
      arg <- (if arguments_number >=? 1
              then array_read arguments_list 0 else ret value_undefined);;
      ecma_builtin_object_object_is_frozen arg
  | ECMA_MAGIC_STRING_IS_EXTENSIBLE =>
      arg <- (if arguments_number >=? 1
              then array_read arguments_list 0 else ret value_undefined);;
      ecma_builtin_object_object_is_extensible arg
  | ECMA_MAGIC_STRING_KEYS =>
      arg <- (if arguments_number >=? 1
              then array_read arguments_list 0 else ret value_undefined);;
      ecma_builtin_object_object_keys arg
  | ECMA_MAGIC_STRING_GET_OWN_PROPERTY_DESCRIPTOR_UL =>
      arg1 <- (if arguments_number >=? 1
               then array_read arguments_list 0 else ret value_undefined);;
      arg2 <- (if arguments_number >=? 2
               then array_read arguments_list 1 else ret value_undefined);;
      ecma_builtin_object_object_get_own_property_descriptor arg1 arg2
  | ECMA_MAGIC_STRING_CREATE =>
      arg1 <- (if arguments_number >=? 1
               then array_read arguments_list 0 else ret value_undefined);;
      arg2 <- (if arguments_number >=? 2
               then array_read arguments_list 1 else ret value_undefined);;
      ecma_builtin_object_object_create arg1 arg2
  | ECMA_MAGIC_STRING_DEFINE_PROPERTIES_UL =>
      arg1 <- (if arguments_number >=? 1
               then array_read arguments_list 0 else ret value_undefined);;
      arg2 <- (if arguments_number >=? 2
               then array_read arguments_list 1 else ret value_undefined);;
      ecma_builtin_object_object_define_properties arg1 arg2
  | ECMA_MAGIC_STRING_DEFINE_PROPERTY_UL =>
      arg1 <- (if arguments_number >=? 1
               then array_read arguments_list 0 else ret value_undefined);;
      arg2 <- (if arguments_number >=? 2
               then array_read arguments_list 1 else ret value_undefined);;
      arg3 <- (if arguments_number >=? 3
               then array_read arguments_list 2 else ret value_undefined);;
      ecma_builtin_object_object_define_property arg1 arg2 arg3
  | _ => JERRY_UNREACHABLE
  end.

(** *** Vocabulary for the dispatcher's properties *)

(** The thirteen routine identifiers of the Object object. *)
Definition ecma_builtin_object_routine_ids : list ecma_magic_string_id_t :=
  [ ECMA_MAGIC_STRING_GET_PROTOTYPE_OF_UL;
    ECMA_MAGIC_STRING_GET_OWN_PROPERTY_NAMES_UL;
    ECMA_MAGIC_STRING_SEAL;
    ECMA_MAGIC_STRING_FREEZE;
    ECMA_MAGIC_STRING_PREVENT_EXTENSIONS_UL;
    ECMA_MAGIC_STRING_IS_SEALED_UL;
    ECMA_MAGIC_STRING_IS_FROZEN_UL;
    ECMA_MAGIC_STRING_IS_EXTENSIBLE;
    ECMA_MAGIC_STRING_KEYS;
    ECMA_MAGIC_STRING_GET_OWN_PROPERTY_DESCRIPTOR_UL;
    ECMA_MAGIC_STRING_CREATE;
    ECMA_MAGIC_STRING_DEFINE_PROPERTIES_UL;
    ECMA_MAGIC_STRING_DEFINE_PROPERTY_UL ].

(** The C function that implements each routine. *)
Definition routine_handler_name (id : ecma_magic_string_id_t) : option string :=
  match id with
  | ECMA_MAGIC_STRING_GET_PROTOTYPE_OF_UL =>
      Some "ecma_builtin_object_object_get_prototype_of"%string
  | ECMA_MAGIC_STRING_GET_OWN_PROPERTY_NAMES_UL =>
      Some "ecma_builtin_object_object_get_own_property_names"%string
  | ECMA_MAGIC_STRING_SEAL => Some "ecma_builtin_object_object_seal"%string
  | ECMA_MAGIC_STRING_FREEZE => Some "ecma_builtin_object_object_freeze"%string
  | ECMA_MAGIC_STRING_PREVENT_EXTENSIONS_UL =>
      Some "ecma_builtin_object_object_prevent_extensions"%string
  | ECMA_MAGIC_STRING_IS_SEALED_UL =>
      Some "ecma_builtin_object_object_is_sealed"%string
  | ECMA_MAGIC_STRING_IS_FROZEN_UL =>
      Some "ecma_builtin_object_object_is_frozen"%string
  | ECMA_MAGIC_STRING_IS_EXTENSIBLE =>
      Some "ecma_builtin_object_object_is_extensible"%string
  | ECMA_MAGIC_STRING_KEYS => Some "ecma_builtin_object_object_keys"%string
  | ECMA_MAGIC_STRING_GET_OWN_PROPERTY_DESCRIPTOR_UL =>
      Some "ecma_builtin_object_object_get_own_property_descriptor"%string
  | ECMA_MAGIC_STRING_CREATE => Some "ecma_builtin_object_object_create"%string
  | ECMA_MAGIC_STRING_DEFINE_PROPERTIES_UL =>
      Some "ecma_builtin_object_object_define_properties"%string
  | ECMA_MAGIC_STRING_DEFINE_PROPERTY_UL =>
      Some "ecma_builtin_object_object_define_property"%string
  | _ => None
  end.

(** The argument a handler receives at position [k] when [arguments_list]
    was supplied: the supplied one, or Undefined past the end. *)
Definition supplied_or_undefined
    (arguments_list : list ecma_value_t) (k : nat) : ecma_value_t :=
  match arguments_list !! k with
  | Some v => v
  | None => ECMA_TYPE_SIMPLE ECMA_SIMPLE_VALUE_UNDEFINED
  end.

(** A computation that stops the engine with the unimplemented marker,
    whatever the state. *)
Definition signals_unimplemented {A} (m : M A) : Prop :=
  forall s, exists func vars, m s = Fatal (ERR_UNIMPLEMENTED func vars).

Definition never_returns {A} (m : M A) : Prop :=
  forall s a s', m s <> Returned a s'.

(** ** Property store

    The helpers of [ecma-helpers.h] that the Object built-in calls.  Their
    bodies are not part of this file's source; each is modelled from the
    specification of the property store. *)

Definition find_property
    (key : ecma_property_key_t) (props : list ecma_property_t)
  : option ecma_property_t :=
  List.find (fun p => bool_decide (property_key p = key)) props.

Definition with_properties
    (o : ecma_object_t) (props : list ecma_property_t) : ecma_object_t :=
  {| prototype_object_p := prototype_object_p o;
     is_extensible := is_extensible o;
     object_type := object_type o;
     is_builtin := is_builtin o;
     properties := props |}.

Definition with_heap (s : ecma_state) (h : list ecma_object_t) : ecma_state :=
  {| heap := h; ecma_object_object_p := ecma_object_object_p s |}.

(** Dereference of an object pointer. *)
Definition ecma_get_object (obj_p : ecma_object_ptr) : M ecma_object_t :=
  fun s =>
    match heap s !! obj_p with
    | Some o => Returned o s
    | None => Undefined_behaviour
    end.

(** Store through an object pointer. *)
Definition ecma_set_object (obj_p : ecma_object_ptr) (o : ecma_object_t) : M unit :=
  fun s =>
    match heap s !! obj_p with
    | Some _ => Returned tt (with_heap s (<[obj_p := o]> (heap s)))
    | None => Undefined_behaviour
    end.

(** Modelled from the spec: [ecma_create_object], the explicit constructor
    of objects: a new heap entity with the given prototype relation,
    extensible flag and class tag, no built-in identity and no property. *)
Definition ecma_create_object
    (prototype_object_p : option ecma_object_ptr) (is_extensible : bool)
    (type : ecma_object_type_t) : M ecma_object_ptr :=
  fun s =>
    Returned (length (heap s))
             (with_heap s (heap s ++ [mk_object prototype_object_p is_extensible
                                                type false []])).

(** Modelled from the spec: [ecma_set_object_is_builtin], which records the
    built-in identity flag of an object. *)
Definition ecma_set_object_is_builtin
    (obj_p : ecma_object_ptr) (is_builtin : bool) : M unit :=
  o <- ecma_get_object obj_p;;
  ecma_set_object obj_p
    {| prototype_object_p := prototype_object_p o;
       is_extensible := is_extensible o;
       object_type := object_type o;
       is_builtin := is_builtin;
       properties := properties o |}.

(** Modelled from the spec: [ecma_find_named_property], find a named
    property by exact name equality, "not found" ([None]) rather than a
    failure. *)
Definition ecma_find_named_property
    (obj_p : ecma_object_ptr) (name_p : ecma_string_t)
  : M (option ecma_property_ptr) :=
  o <- ecma_get_object obj_p;;
  ret (match find_property (KEY_NAMED name_p) (properties o) with
       | Some _ => Some (obj_p, KEY_NAMED name_p)
       | None => None
       end).

(** Modelled from the spec: [ecma_find_internal_property], the same search
    among the internal properties. *)
Definition ecma_find_internal_property
    (obj_p : ecma_object_ptr) (id : ecma_internal_property_id_t)
  : M (option ecma_property_ptr) :=
  o <- ecma_get_object obj_p;;
  ret (match find_property (KEY_INTERNAL id) (properties o) with
       | Some _ => Some (obj_p, KEY_INTERNAL id)
       | None => None
       end).

(** Modelled from the spec: [ecma_get_internal_property], the internal
    property that the object is known to have; its absence is an invariant
    violation, hence fatal. *)
Definition ecma_get_internal_property
    (obj_p : ecma_object_ptr) (id : ecma_internal_property_id_t)
  : M ecma_property_ptr :=
  prop_p <- ecma_find_internal_property obj_p id;;
  match prop_p with
  | Some p => ret p
  | None => fatal ERR_FAILED_ASSERTION
  end.

(** Modelled from the spec: [ecma_create_internal_property], create an
    internal property holding a raw payload (zero until the caller stores
    one); uniqueness per object is enforced at creation. *)
Definition ecma_create_internal_property
    (obj_p : ecma_object_ptr) (id : ecma_internal_property_id_t)
  : M ecma_property_ptr :=
  o <- ecma_get_object obj_p;;
  JERRY_ASSERT (bool_decide (find_property (KEY_INTERNAL id) (properties o) = None));;;
  ecma_set_object obj_p
    (with_properties o
       (ECMA_PROPERTY_INTERNAL id (INTERNAL_UINT32 0) :: properties o));;;
  ret (obj_p, KEY_INTERNAL id).

(** Modelled from the spec: [ecma_create_named_data_property], create a
    named data property with the specified writable / enumerable /
    configurable attributes and an initial Empty value; uniqueness of names
    per object is enforced at creation. *)
Definition ecma_create_named_data_property
    (obj_p : ecma_object_ptr) (name_p : ecma_string_t)
    (writable : ecma_property_writable_value_t)
    (enumerable : ecma_property_enumerable_value_t)
    (configurable : ecma_property_configurable_value_t)
  : M ecma_property_ptr :=
  o <- ecma_get_object obj_p;;
  JERRY_ASSERT (bool_decide (find_property (KEY_NAMED name_p) (properties o) = None));;;
  ecma_set_object obj_p
    (with_properties o
       (ECMA_PROPERTY_NAMEDDATA name_p (ECMA_TYPE_SIMPLE ECMA_SIMPLE_VALUE_EMPTY)
                                writable enumerable configurable
        :: properties o));;;
  ret (obj_p, KEY_NAMED name_p).

(** Read of [*prop_p]. *)
Definition ecma_property_read (prop_p : ecma_property_ptr) : M ecma_property_t :=
  o <- ecma_get_object (fst prop_p);;
  match find_property (snd prop_p) (properties o) with
  | Some p => ret p
  | None => undefined_behaviour
  end.

(** Store into [*prop_p]: the property with that key is replaced by its
    image under [f]. *)
Definition ecma_property_update
    (prop_p : ecma_property_ptr) (f : ecma_property_t -> ecma_property_t)
  : M unit :=
  o <- ecma_get_object (fst prop_p);;
  ecma_set_object (fst prop_p)
    (with_properties o
       (List.map (fun p => if bool_decide (property_key p = snd prop_p)
                           then f p else p)
                 (properties o))).

(** [prop_p->u.internal_property.value = v] *)
Definition set_internal_property_value
    (prop_p : ecma_property_ptr) (v : ecma_internal_value_t) : M unit :=
  ecma_property_update prop_p
    (fun p => match p with
              | ECMA_PROPERTY_INTERNAL id _ => ECMA_PROPERTY_INTERNAL id v
              | _ => p
              end).

(** [prop_p->u.internal_property.value] read as a [uint32_t] *)
Definition get_internal_property_uint32 (prop_p : ecma_property_ptr) : M Z :=
  p <- ecma_property_read prop_p;;
  match p with
  | ECMA_PROPERTY_INTERNAL _ (INTERNAL_UINT32 w) => ret w
  | _ => undefined_behaviour
  end.

(** [prop_p->u.named_data_property.value = v] *)
Definition set_named_data_property_value
    (prop_p : ecma_property_ptr) (v : ecma_value_t) : M unit :=
  ecma_property_update prop_p
    (fun p => match p with
              | ECMA_PROPERTY_NAMEDDATA name _ w e c =>
                  ECMA_PROPERTY_NAMEDDATA name v w e c
              | _ => p
              end).

(** Lifetime bookkeeping (reference counts, generations and the
    may-reference-younger flag) belongs to the collector and is not part of
    [ecma_state]; the three calls below leave the modelled state as it is. *)

(** Modelled from the spec: [ecma_copy_value], a shallow copy; the copy
    denotes the same Number, String or Object as the original. *)
Definition ecma_copy_value (value : ecma_value_t) (do_ref_if_object : bool)
  : M ecma_value_t :=
  ret value.

(** Modelled from the spec: [ecma_free_value], release of a value handle. *)
Definition ecma_free_value (value : ecma_value_t) (do_deref_if_object : bool)
  : M unit :=
  ret tt.

(** Modelled from the spec: the write barrier of the generational
    collector. *)
Definition ecma_gc_update_may_ref_younger_object_flag_by_value
    (obj_p : ecma_object_ptr) (value : ecma_value_t) : M unit :=
  ret tt.

(** Modelled from the spec: [ecma_is_string_magic], whether the string is an
    interned magic string, and then which one. *)
Definition ecma_is_string_magic (string_p : ecma_string_t)
  : option ecma_magic_string_id_t :=
  match string_p with
  | ECMA_STRING_CONTAINER_MAGIC_STRING id => Some id
  | ECMA_STRING_CONTAINER_HEAP _ => None
  end.

(** Modelled from the spec: [ecma_builtin_make_function_object_for_routine],
    the registration path of the dispatcher: a Function object that carries
    the built-in and the routine it stands for, so that a call of it reaches
    the dispatcher of that built-in with that routine identifier. *)
Definition ecma_builtin_make_function_object_for_routine
    (builtin_id : ecma_builtin_id_t) (routine_id : ecma_magic_string_id_t)
  : M ecma_object_ptr :=
  func_obj_p <- ecma_create_object None true ECMA_OBJECT_TYPE_FUNCTION;;
  routine_id_prop_p <- ecma_create_internal_property
                         func_obj_p ECMA_INTERNAL_PROPERTY_BUILT_IN_ROUTINE_ID;;
  set_internal_property_value routine_id_prop_p
    (INTERNAL_ROUTINE_ID builtin_id routine_id);;;
  ret func_obj_p.

(** ** 32-bit unsigned arithmetic *)

Definition uint32_modulus : Z := 2 ^ 32.
Definition to_uint32 (z : Z) : Z := z mod uint32_modulus.
Definition uint32_shl (a n : Z) : Z := to_uint32 (Z.shiftl a n).
Definition uint32_sub (a b : Z) : Z := to_uint32 (a - b).
Definition uint32_not (a : Z) : Z := to_uint32 (Z.lnot a).

(** Number of bits set among the 32 bits of a mask. *)
Definition popcount32 (w : Z) : nat :=
  length (List.filter (fun i => Z.testbit w (Z.of_nat i)) (seq 0 32)).

(** ** The Object object *)

(** List of the Object object's built-in property names. *)
Definition ecma_builtin_object_property_names : list ecma_magic_string_id_t :=
  [ ECMA_MAGIC_STRING_PROTOTYPE;
    ECMA_MAGIC_STRING_LENGTH;
    ECMA_MAGIC_STRING_GET_PROTOTYPE_OF_UL;
    ECMA_MAGIC_STRING_GET_OWN_PROPERTY_DESCRIPTOR_UL;
    ECMA_MAGIC_STRING_GET_OWN_PROPERTY_NAMES_UL;
    ECMA_MAGIC_STRING_CREATE;
    ECMA_MAGIC_STRING_DEFINE_PROPERTY_UL;
    ECMA_MAGIC_STRING_DEFINE_PROPERTIES_UL;
    ECMA_MAGIC_STRING_SEAL;
    ECMA_MAGIC_STRING_FREEZE;
    ECMA_MAGIC_STRING_PREVENT_EXTENSIONS_UL;
    ECMA_MAGIC_STRING_IS_SEALED_UL;
    ECMA_MAGIC_STRING_IS_FROZEN_UL;
    ECMA_MAGIC_STRING_IS_EXTENSIBLE;
    ECMA_MAGIC_STRING_KEYS ].

(** Number of the Object object's built-in properties
    ([sizeof] of the table over [sizeof] of one entry). *)
Definition ecma_builtin_object_property_number : Z :=
  Z.of_nat (length ecma_builtin_object_property_names).

(** Width of the instantiation mask, [sizeof (uint32_t) * JERRY_BITSINBYTE]. *)
Definition mask_bit_width : Z := 4 * 8.

(** The build-time check of [ecma_builtin_init_object_object]:
    [JERRY_STATIC_ASSERT (ecma_builtin_object_property_number
                          < sizeof (uint32_t) * JERRY_BITSINBYTE)]. *)
Definition static_assert_property_number_fits_mask : bool :=
  ecma_builtin_object_property_number <? mask_bit_width.

(** Check if the passed object is the Object object. *)
Definition ecma_builtin_is_object_object (object_p : ecma_object_ptr) : M bool :=
  s <- get_state;;
  ret (bool_decide (Some object_p = ecma_object_object_p s)).

(** Initialize the Object object. *)
Definition ecma_builtin_init_object_object : M unit :=
  s <- get_state;;
  JERRY_ASSERT (bool_decide (ecma_object_object_p s = None));;;
  object_obj_p <- ecma_create_object None true ECMA_OBJECT_TYPE_FUNCTION;;
  class_prop_p <- ecma_create_internal_property
                    object_obj_p ECMA_INTERNAL_PROPERTY_CLASS;;
  set_internal_property_value class_prop_p
    (INTERNAL_CLASS ECMA_OBJECT_CLASS_OBJECT);;;
  built_in_id_prop_p <- ecma_create_internal_property
                          object_obj_p ECMA_INTERNAL_PROPERTY_BUILT_IN_ID;;
  set_internal_property_value built_in_id_prop_p
    (INTERNAL_BUILT_IN_ID ECMA_BUILTIN_ID_OBJECT);;;
  mask_0_31_prop_p <- ecma_create_internal_property
                        object_obj_p
                        ECMA_INTERNAL_PROPERTY_NON_INSTANTIATED_BUILT_IN_MASK_0_31;;
  let builtin_mask :=
    uint32_sub (uint32_shl 1 ecma_builtin_object_property_number) 1 in
  set_internal_property_value mask_0_31_prop_p (INTERNAL_UINT32 builtin_mask);;;
  ecma_set_object_is_builtin object_obj_p true;;;
  s' <- get_state;;
  put_state {| heap := heap s'; ecma_object_object_p := Some object_obj_p |}.

(** The engine before any built-in is initialised. *)
Definition empty_engine_state : ecma_state :=
  {| heap := []; ecma_object_object_p := None |}.

(** The non-instantiated mask of the Object object in a state, when there is
    one. *)
Definition non_instantiated_mask (s : ecma_state) : option Z :=
  match ecma_object_object_p s with
  | Some obj_p =>
      match heap s !! obj_p with
      | Some o =>
          match find_property
                  (KEY_INTERNAL ECMA_INTERNAL_PROPERTY_NON_INSTANTIATED_BUILT_IN_MASK_0_31)
                  (properties o) with
          | Some (ECMA_PROPERTY_INTERNAL _ (INTERNAL_UINT32 w)) => Some w
          | _ => None
          end
      | None => None
      end
  | None => None
  end.

(** The properties of the Object object in a state. *)
Definition object_object_properties (s : ecma_state) : list ecma_property_t :=
  match ecma_object_object_p s with
  | Some obj_p =>
      match heap s !! obj_p with
      | Some o => properties o
      | None => []
      end
  | None => []
  end.

(** What a property pointer points to in a state. *)
Definition property_at (s : ecma_state) (prop_p : ecma_property_ptr)
  : option ecma_property_t :=
  match heap s !! fst prop_p with
  | Some o => find_property (snd prop_p) (properties o)
  | None => None
  end.

Section LazyInstantiation.

(** The numeric value of each enumerator of [ecma_magic_string_id_t].  The
    enumeration is declared in [ecma-globals.h], outside this file's source,
    so its numbering is a parameter of the development. *)
Variable magic_string_id_value : ecma_magic_string_id_t -> Z.

(** Modelled from the spec:
    [ecma_builtin_bin_search_for_magic_string_id_in_array], the binary
    search of the sorted table for the requested identifier: the index of
    the identifier, or -1 when it is absent.  [fuel] bounds the number of
    iterations of the loop; the width of the searched interval is
    enough. *)
Fixpoint bin_search_loop
    (fuel : nat) (ids : list ecma_magic_string_id_t)
    (key : ecma_magic_string_id_t) (min max : Z) : Z :=
  match fuel with
  | O => -1
  | S fuel' =>
      if min <=? max then
        let mid := Z.quot (min + max) 2 in
        match ids !! Z.to_nat mid with
        | Some x =>
            if magic_string_id_value x =? magic_string_id_value key then mid
            else if magic_string_id_value x >? magic_string_id_value key
                 then bin_search_loop fuel' ids key min (mid - 1)
                 else bin_search_loop fuel' ids key (mid + 1) max
        | None => -1
        end
      else -1
  end.

Definition ecma_builtin_bin_search_for_magic_string_id_in_array
    (ids : list ecma_magic_string_id_t) (array_length : Z)
    (key : ecma_magic_string_id_t) : Z :=
  bin_search_loop (Z.to_nat array_length) ids key 0 (array_length - 1).

(** If the property's name is one of built-in properties of the Object
    object that is not instantiated yet, instantiate the property and
    return pointer to the instantiated property; NULL otherwise. *)
Definition ecma_builtin_object_try_to_instantiate_property
    (obj_p : ecma_object_ptr) (prop_name_p : ecma_string_t)
  : M (option ecma_property_ptr) :=
  is_object_object <- ecma_builtin_is_object_object obj_p;;
  JERRY_ASSERT is_object_object;;;
  found_p <- ecma_find_named_property obj_p prop_name_p;;
  JERRY_ASSERT (bool_decide (found_p = None));;;
  match ecma_is_string_magic prop_name_p with
  | None => ret None
  | Some id =>
      let index :=
        ecma_builtin_bin_search_for_magic_string_id_in_array
          ecma_builtin_object_property_names
          ecma_builtin_object_property_number
          id in
      if index =? -1 then ret None
      else
        JERRY_ASSERT ((index >=? 0) && (index <? mask_bit_width));;;
        let bit := uint32_shl 1 index in
        mask_0_31_prop_p <- ecma_get_internal_property
                              obj_p
                              ECMA_INTERNAL_PROPERTY_NON_INSTANTIATED_BUILT_IN_MASK_0_31;;
        bit_mask <- get_internal_property_uint32 mask_0_31_prop_p;;
        if Z.land bit_mask bit =? 0 then ret None
        else
          let bit_mask := Z.land bit_mask (uint32_not bit) in
          set_internal_property_value mask_0_31_prop_p (INTERNAL_UINT32 bit_mask);;;
          let value := ecma_make_simple_value ECMA_SIMPLE_VALUE_EMPTY in
          let writable := ECMA_PROPERTY_WRITABLE in
          let enumerable := ECMA_PROPERTY_NOT_ENUMERABLE in
          let configurable := ECMA_PROPERTY_CONFIGURABLE in
          synthesized <-
            match id with
            | ECMA_MAGIC_STRING_GET_PROTOTYPE_OF_UL
            | ECMA_MAGIC_STRING_GET_OWN_PROPERTY_NAMES_UL
            | ECMA_MAGIC_STRING_SEAL
            | ECMA_MAGIC_STRING_FREEZE
            | ECMA_MAGIC_STRING_PREVENT_EXTENSIONS_UL
            | ECMA_MAGIC_STRING_IS_SEALED_UL
            | ECMA_MAGIC_STRING_IS_FROZEN_UL
            | ECMA_MAGIC_STRING_IS_EXTENSIBLE
            | ECMA_MAGIC_STRING_KEYS
            | ECMA_MAGIC_STRING_GET_OWN_PROPERTY_DESCRIPTOR_UL
            | ECMA_MAGIC_STRING_CREATE
            | ECMA_MAGIC_STRING_DEFINE_PROPERTY_UL
            | ECMA_MAGIC_STRING_DEFINE_PROPERTIES_UL =>
                func_obj_p <- ecma_builtin_make_function_object_for_routine
                                ECMA_BUILTIN_ID_OBJECT id;;
                ret (ecma_make_object_value func_obj_p,
                     writable, enumerable, configurable)
            | ECMA_MAGIC_STRING_PROTOTYPE =>
                JERRY_UNIMPLEMENTED (A := unit)
                  "ecma_builtin_object_try_to_instantiate_property";;;
                ret (value,
                     ECMA_PROPERTY_NOT_WRITABLE,
                     ECMA_PROPERTY_NOT_ENUMERABLE,
                     ECMA_PROPERTY_NOT_CONFIGURABLE)
            | ECMA_MAGIC_STRING_LENGTH =>
                (* the cell of [ecma_alloc_number], once
                   [ECMA_NUMBER_ONE] is stored in it *)
                let num := ECMA_NUMBER_ONE in
                ret (ecma_make_number_value num,
                     ECMA_PROPERTY_NOT_WRITABLE,
                     ECMA_PROPERTY_NOT_ENUMERABLE,
                     ECMA_PROPERTY_NOT_CONFIGURABLE)
            | _ => JERRY_UNREACHABLE
            end;;
          let '(value, writable, enumerable, configurable) := synthesized in
          prop_p <- ecma_create_named_data_property
                      obj_p prop_name_p writable enumerable configurable;;
          value_copy <- ecma_copy_value value false;;
          set_named_data_property_value prop_p value_copy;;;
          ecma_gc_update_may_ref_younger_object_flag_by_value obj_p value_copy;;;
          ecma_free_value value true;;;
          ret (Some prop_p)
  end.

(** Lazy instantiation of a sequence of names, one request after the
    other, on the Object object. *)
Fixpoint instantiate_all (obj_p : ecma_object_ptr) (names : list ecma_string_t)
  : M (list (option ecma_property_ptr)) :=
  match names with
  | [] => ret []
  | name :: rest =>
      prop_p <- ecma_builtin_object_try_to_instantiate_property obj_p name;;
      props <- instantiate_all obj_p rest;;
      ret (prop_p :: props)
  end.

End LazyInstantiation.

(** A numbering of the enumeration in which the Object object's table is
    ascending: the table's identifiers in table order, then the others. *)
Definition table_order_value (id : ecma_magic_string_id_t) : Z :=
  match id with
  | ECMA_MAGIC_STRING_PROTOTYPE => 0
  | ECMA_MAGIC_STRING_LENGTH => 1
  | ECMA_MAGIC_STRING_GET_PROTOTYPE_OF_UL => 2
  | ECMA_MAGIC_STRING_GET_OWN_PROPERTY_DESCRIPTOR_UL => 3
  | ECMA_MAGIC_STRING_GET_OWN_PROPERTY_NAMES_UL => 4
  | ECMA_MAGIC_STRING_CREATE => 5
  | ECMA_MAGIC_STRING_DEFINE_PROPERTY_UL => 6
  | ECMA_MAGIC_STRING_DEFINE_PROPERTIES_UL => 7
  | ECMA_MAGIC_STRING_SEAL => 8
  | ECMA_MAGIC_STRING_FREEZE => 9
  | ECMA_MAGIC_STRING_PREVENT_EXTENSIONS_UL => 10
  | ECMA_MAGIC_STRING_IS_SEALED_UL => 11
  | ECMA_MAGIC_STRING_IS_FROZEN_UL => 12
  | ECMA_MAGIC_STRING_IS_EXTENSIBLE => 13
  | ECMA_MAGIC_STRING_KEYS => 14
  | ECMA_MAGIC_STRING_TO_STRING_UL => 15
  | ECMA_MAGIC_STRING__OTHER k => 16 + Z.of_nat k
  end.

(** Whether a list of numbers is strictly ascending. *)
Fixpoint strictly_ascending (l : list Z) : bool :=
  match l with
  | [] => true
  | x :: rest =>
      match rest with
      | [] => true
      | y :: _ => (x <? y) && strictly_ascending rest
      end
  end.

(** ** Vocabulary for the lazy instantiation *)

(** The Function object that the registration path builds. *)
Definition function_object_for_routine
    (b : ecma_builtin_id_t) (r : ecma_magic_string_id_t) : ecma_object_t :=
  mk_object None true ECMA_OBJECT_TYPE_FUNCTION false
    [ECMA_PROPERTY_INTERNAL ECMA_INTERNAL_PROPERTY_BUILT_IN_ROUTINE_ID
                            (INTERNAL_ROUTINE_ID b r)].

(** The property list of the Object object once its mask holds [w]. *)
Definition with_mask (w : Z) (props : list ecma_property_t) : list ecma_property_t :=
  List.map
    (fun p =>
       if bool_decide
            (property_key p
             = KEY_INTERNAL ECMA_INTERNAL_PROPERTY_NON_INSTANTIATED_BUILT_IN_MASK_0_31)
       then match p with
            | ECMA_PROPERTY_INTERNAL id _ => ECMA_PROPERTY_INTERNAL id (INTERNAL_UINT32 w)
            | _ => p
            end
       else p)
    props.

(** The state in which the Object object [o], at [obj_p], has its mask set
    to [w] and has received the named data property [prop], the heap having
    grown by [fresh]. *)
Definition instantiated_state
    (s : ecma_state) (obj_p : ecma_object_ptr) (o : ecma_object_t)
    (w : Z) (prop : ecma_property_t) (fresh : list ecma_object_t) : ecma_state :=
  with_heap s
    (<[obj_p := with_properties o (prop :: with_mask w (properties o))]>
       (heap s ++ fresh)).

(** How the lazy instantiation synthesises a built-in property. *)
Inductive builtin_property_kind : Set :=
| KIND_ROUTINE
| KIND_LENGTH
| KIND_PROTOTYPE
| KIND_NONE.

Definition property_kind (id : ecma_magic_string_id_t) : builtin_property_kind :=
  match id with
  | ECMA_MAGIC_STRING_GET_PROTOTYPE_OF_UL
  | ECMA_MAGIC_STRING_GET_OWN_PROPERTY_NAMES_UL
  | ECMA_MAGIC_STRING_SEAL
  | ECMA_MAGIC_STRING_FREEZE
  | ECMA_MAGIC_STRING_PREVENT_EXTENSIONS_UL
  | ECMA_MAGIC_STRING_IS_SEALED_UL
  | ECMA_MAGIC_STRING_IS_FROZEN_UL
  | ECMA_MAGIC_STRING_IS_EXTENSIBLE
  | ECMA_MAGIC_STRING_KEYS
  | ECMA_MAGIC_STRING_GET_OWN_PROPERTY_DESCRIPTOR_UL
  | ECMA_MAGIC_STRING_CREATE
  | ECMA_MAGIC_STRING_DEFINE_PROPERTY_UL
  | ECMA_MAGIC_STRING_DEFINE_PROPERTIES_UL => KIND_ROUTINE
  | ECMA_MAGIC_STRING_LENGTH => KIND_LENGTH
  | ECMA_MAGIC_STRING_PROTOTYPE => KIND_PROTOTYPE
  | _ => KIND_NONE
  end.

(** The outcome of a lazy-instantiation request in closed form, as a
    function of what the request finds in the state.  It is a device of the
    proofs: [try_to_instantiate_outcome] shows that the code computes it. *)
Definition instantiation_outcome
    (magic_string_id_value : ecma_magic_string_id_t -> Z)
    (obj_p : ecma_object_ptr) (prop_name_p : ecma_string_t) (s : ecma_state)
  : outcome (option ecma_property_ptr) :=
  if bool_decide (Some obj_p = ecma_object_object_p s) then
    match heap s !! obj_p with
    | None => Undefined_behaviour
    | Some o =>
        match find_property (KEY_NAMED prop_name_p) (properties o) with
        | Some _ => Fatal ERR_FAILED_ASSERTION
        | None =>
            match ecma_is_string_magic prop_name_p with
            | None => Returned None s
            | Some id =>
                let index :=
                  ecma_builtin_bin_search_for_magic_string_id_in_array
                    magic_string_id_value
                    ecma_builtin_object_property_names
                    ecma_builtin_object_property_number id in
                if index =? -1 then Returned None s
                else
                  match find_property
                          (KEY_INTERNAL
                             ECMA_INTERNAL_PROPERTY_NON_INSTANTIATED_BUILT_IN_MASK_0_31)
                          (properties o) with
                  | None => Fatal ERR_FAILED_ASSERTION
                  | Some (ECMA_PROPERTY_INTERNAL _ (INTERNAL_UINT32 bit_mask)) =>
                      let bit := uint32_shl 1 index in
                      if Z.land bit_mask bit =? 0 then Returned None s
                      else
                        let bit_mask' := Z.land bit_mask (uint32_not bit) in
                        match property_kind id with
                        | KIND_ROUTINE =>
                            Returned
                              (Some (obj_p, KEY_NAMED prop_name_p))
                              (instantiated_state s obj_p o bit_mask'
                                 (ECMA_PROPERTY_NAMEDDATA
                                    prop_name_p
                                    (ECMA_TYPE_OBJECT (length (heap s)))
                                    ECMA_PROPERTY_WRITABLE
                                    ECMA_PROPERTY_NOT_ENUMERABLE
                                    ECMA_PROPERTY_CONFIGURABLE)
                                 [function_object_for_routine
                                    ECMA_BUILTIN_ID_OBJECT id])
                        | KIND_LENGTH =>
                            Returned
                              (Some (obj_p, KEY_NAMED prop_name_p))
                              (instantiated_state s obj_p o bit_mask'
                                 (ECMA_PROPERTY_NAMEDDATA
                                    prop_name_p
                                    (ECMA_TYPE_NUMBER ECMA_NUMBER_ONE)
                                    ECMA_PROPERTY_NOT_WRITABLE
                                    ECMA_PROPERTY_NOT_ENUMERABLE
                                    ECMA_PROPERTY_NOT_CONFIGURABLE)
                                 [])
                        | KIND_PROTOTYPE =>
                            Fatal (ERR_UNIMPLEMENTED
                                     "ecma_builtin_object_try_to_instantiate_property"
                                     [])
                        | KIND_NONE => Fatal ERR_UNREACHABLE
                        end
                  | Some _ => Undefined_behaviour
                  end
            end
        end
    end
  else Fatal ERR_FAILED_ASSERTION.

(** The Object object as [ecma_builtin_init_object_object] leaves it. *)
Definition initial_object_object : ecma_object_t :=
  mk_object None true ECMA_OBJECT_TYPE_FUNCTION true
    [ECMA_PROPERTY_INTERNAL
       ECMA_INTERNAL_PROPERTY_NON_INSTANTIATED_BUILT_IN_MASK_0_31
       (INTERNAL_UINT32 (2 ^ 15 - 1));
     ECMA_PROPERTY_INTERNAL ECMA_INTERNAL_PROPERTY_BUILT_IN_ID
       (INTERNAL_BUILT_IN_ID ECMA_BUILTIN_ID_OBJECT);
     ECMA_PROPERTY_INTERNAL ECMA_INTERNAL_PROPERTY_CLASS
       (INTERNAL_CLASS ECMA_OBJECT_CLASS_OBJECT)].

(** The entries of the table whose synthesis is implemented: all of them
    but "prototype". *)
Definition instantiable_property_names : list ecma_magic_string_id_t :=
  List.filter
    (fun id => match property_kind id with
               | KIND_ROUTINE | KIND_LENGTH => true
               | _ => false
               end)
    ecma_builtin_object_property_names.

(** Modelled from the spec: removal of a named property by delete; the
    property of that name leaves the property list of the object. *)
Definition ecma_delete_named_property
    (obj_p : ecma_object_ptr) (name_p : ecma_string_t) : M unit :=
  o <- ecma_get_object obj_p;;
  ecma_set_object obj_p
    (with_properties o
       (List.filter
          (fun p => negb (bool_decide (property_key p = KEY_NAMED name_p)))
          (properties o))).

(** The value is a reference to a Function object that stands for routine
    [r] of built-in [b]. *)
Definition is_function_object_for_routine
    (s : ecma_state) (value : ecma_value_t)
    (b : ecma_builtin_id_t) (r : ecma_magic_string_id_t) : Prop :=
  exists func_obj_p,
    value = ECMA_TYPE_OBJECT func_obj_p /\
    heap s !! func_obj_p = Some (function_object_for_routine b r).

(** The state that [ecma_builtin_init_object_object] leaves when it is run
    in [s]: the heap of [s] with the freshly initialised Object object at
    its end. *)
Definition initialized_state (s : ecma_state) : ecma_state :=
  {| heap := heap s ++ [initial_object_object];
     ecma_object_object_p := Some (length (heap s)) |}.

(** The mask once the bits of the given indices have been cleared, one
    after the other. *)
Definition clear_bits (indices : list Z) (bit_mask : Z) : Z :=
  fold_left (fun w index => Z.land w (uint32_not (uint32_shl 1 index)))
            indices bit_mask.

(** ** The life cycle of the Object object *)

Section ObjectObjectLifetime.

(** [ecma_ref_object] and [ecma_deref_object] belong to the collector, whose
    source is outside this file; the two calls are parameters of the
    development. *)
Variable ecma_ref_object : ecma_object_ptr -> M unit.
Variable ecma_deref_object : ecma_object_ptr -> M unit.

(** Get the Object object: pointer to it, with one more reference. *)
Definition ecma_builtin_get_object_object : M (option ecma_object_ptr) :=
  s <- get_state;;
  JERRY_ASSERT (bool_decide (ecma_object_object_p s <> None));;;
  match ecma_object_object_p s with
  | Some object_obj_p =>
      ecma_ref_object object_obj_p;;;
      s' <- get_state;;
      ret (ecma_object_object_p s')
  | None => undefined_behaviour
  end.

(** Remove the global reference to the Object object. *)
Definition ecma_builtin_finalize_object_object : M unit :=
  s <- get_state;;
  JERRY_ASSERT (bool_decide (ecma_object_object_p s <> None));;;
  match ecma_object_object_p s with
  | Some object_obj_p =>
      ecma_deref_object object_obj_p;;;
      s' <- get_state;;
      put_state {| heap := heap s'; ecma_object_object_p := None |}
  | None => undefined_behaviour
  end.

End ObjectObjectLifetime.

(** ** Vocabulary for the dispatcher's reads of [arguments_list] *)

(** The argument that the dispatcher takes for position [k] when the caller
    announces [arguments_number] arguments: the element of the list when
    the position is announced, Undefined otherwise; nothing when an
    announced position lies outside the list. *)
Definition announced_argument
    (arguments_list : list ecma_value_t) (arguments_number : Z) (k : nat)
  : option ecma_value_t :=
  if arguments_number >=? Z.of_nat (S k)
  then arguments_list !! k
  else Some (ECMA_TYPE_SIMPLE ECMA_SIMPLE_VALUE_UNDEFINED).

(** ** Vocabulary for the states that lazy instantiation reaches *)

(** Whether the object has a named property of that name. *)
Definition has_named_property (o : ecma_object_t) (name : ecma_string_t) : bool :=
  match find_property (KEY_NAMED name) (properties o) with
  | Some _ => true
  | None => false
  end.

(** The mask and the named properties of the Object object are in step: the
    mask has no bit outside the table's indices, and the bit of an entry of
    the table is pending exactly when no property of that name is
    attached. *)
Definition pending_bits_track_properties (s : ecma_state) : bool :=
  match ecma_object_object_p s with
  | Some obj_p =>
      match heap s !! obj_p, non_instantiated_mask s with
      | Some o, Some bit_mask =>
          (0 <=? bit_mask)
          && (bit_mask <? 2 ^ ecma_builtin_object_property_number)
          && forallb
               (fun entry =>
                  Bool.eqb (Z.testbit bit_mask (Z.of_nat (fst entry)))
                           (negb (has_named_property
                                    o (ECMA_STRING_CONTAINER_MAGIC_STRING
                                         (snd entry)))))
               (imap pair ecma_builtin_object_property_names)
      | _, _ => false
      end
  | None => false
  end.

(** The bit of "prototype" is pending. *)
Definition prototype_pending (s : ecma_state) : Prop :=
  exists bit_mask,
    non_instantiated_mask s = Some bit_mask /\ Z.testbit bit_mask 0 = true.

(** The engine once the Object object has been initialised in the empty
    engine and "keys" has been requested from it. *)
Definition keys_instantiated_state : ecma_state :=
  instantiated_state
    (initialized_state empty_engine_state) 0%nat initial_object_object 16383
    (ECMA_PROPERTY_NAMEDDATA
       (ECMA_STRING_CONTAINER_MAGIC_STRING ECMA_MAGIC_STRING_KEYS)
       (ECMA_TYPE_OBJECT 1%nat)
       ECMA_PROPERTY_WRITABLE ECMA_PROPERTY_NOT_ENUMERABLE
       ECMA_PROPERTY_CONFIGURABLE)
    [function_object_for_routine ECMA_BUILTIN_ID_OBJECT ECMA_MAGIC_STRING_KEYS].

(** * The C library of the Darwin target

    The functions of [jerry-libc-target.c] that compute something before or
    after they enter the kernel: [fopen], [fread] and [fwrite]. *)

(** The system calls that these functions make ([sys/syscall.h]). *)
Inductive syscall_no_t : Set :=
| SYS_open
| SYS_read
| SYS_write.

(** A call of the library returns a result and leaves the kernel in a new
    state, stops at an [assert] of [assert.h], has no defined behaviour in
    C, or is still in its loop when the fuel of the model ends. *)
Inductive libc_outcome (K A : Type) : Type :=
| Done (a : A) (k : K)
| Assertion_failed
| No_behaviour
| Out_of_fuel.

Arguments Done {K A} a k.
Arguments Assertion_failed {K A}.
Arguments No_behaviour {K A}.
Arguments Out_of_fuel {K A}.

(** [s[i]] for a C string whose characters before the terminator are [s]:
    the terminator sits at index [length s]; a read beyond it is a read
    outside the string. *)
Definition c_string_read (s : string) (i : nat) : option ascii :=
  match String.get i s with
  | Some c => Some c
  | None => if (i =? String.length s)%nat then Some Ascii.zero else None
  end.

Section DarwinLibc.

(** The kernel behind the [syscall_3] stub, which is written in assembly
    outside this file: it has a state of its own, and answers a call with a
    [long int] and a new state. *)
Variable kernel_state : Type.
Variable syscall_3 :
  syscall_no_t -> Z -> Z -> Z -> kernel_state -> Z * kernel_state.

(** The width in bits of [size_t], [long int] and the pointers of the
    target, which are equally wide on Darwin. *)
Variable size_t_width : Z.

(** The constants of [fcntl.h] and [sys/stat.h]. *)
Variable O_RDONLY : Z.
Variable O_WRONLY : Z.
Variable O_RDWR : Z.
Variable O_TRUNC : Z.
Variable O_CREAT : Z.
Variable O_APPEND : Z.
Variable S_IRUSR : Z.
Variable S_IWUSR : Z.

Definition size_t_modulus : Z := 2 ^ size_t_width.

(** Conversion to [size_t] or [uintptr_t]: reduction modulo the width. *)
Definition to_size_t (z : Z) : Z := z mod size_t_modulus.

(** Conversion to [long int]: the two's complement reading of the same
    bits. *)
Definition to_long (z : Z) : Z :=
  let bits := z mod size_t_modulus in
  if bits <? 2 ^ (size_t_width - 1) then bits else bits - size_t_modulus.

(** fopen: FILE pointer upon successful completion.  [path] is the address
    of the path, [mode] the mode string, [None] for a NULL pointer. *)
Definition fopen (path : Z) (mode : option string) (k : kernel_state)
  : libc_outcome kernel_state Z :=
  match mode with
  | None => Assertion_failed
  | Some mode =>
      if path =? 0 then Assertion_failed
      else
        match c_string_read mode 1, c_string_read mode 0 with
        | Some mode_1, Some mode_0 =>
            if negb (Ascii.eqb mode_1 "+" || Ascii.eqb mode_1 Ascii.zero)
            then Assertion_failed
            else
              let '(may_read, may_write, truncate, create_if_not_exist,
                    position_at_end, supported) :=
                if Ascii.eqb mode_0 "r"
                then (true, Ascii.eqb mode_1 "+", false, false, false, true)
                else if Ascii.eqb mode_0 "w"
                then (Ascii.eqb mode_1 "+", true, true, true, false, true)
                else if Ascii.eqb mode_0 "a"
                then (false, true, false, true, true,
                      negb (Ascii.eqb mode_1 "+"))
                else (false, false, false, false, false, false) in
              if negb supported then Assertion_failed
              else
                let access := Z.lor S_IRUSR S_IWUSR in
                match (if may_read && negb may_write then Some O_RDONLY
                       else if negb may_read && may_write then Some O_WRONLY
                       else if may_read && may_write then Some O_RDWR
                       else None) with
                | None => Assertion_failed
                | Some flags =>
                    let flags := if truncate then Z.lor flags O_TRUNC else flags in
                    let flags :=
                      if create_if_not_exist then Z.lor flags O_CREAT else flags in
                    let flags :=
                      if position_at_end then Z.lor flags O_APPEND else flags in
                    let (ret, k') :=
                      syscall_3 SYS_open (to_long path) flags access k in
                    Done (to_size_t ret) k'
                end
        | _, _ => No_behaviour
        end
  end.

(** The loop of [fread]; it yields [bytes_read]. *)
Fixpoint fread_loop
    (fuel : nat) (ptr size nmemb stream bytes_read : Z) (k : kernel_state)
  : libc_outcome kernel_state Z :=
  match fuel with
  | O => Out_of_fuel
  | S fuel' =>
      let (ret, k') :=
        syscall_3 SYS_read
          (to_long stream)
          (to_long (ptr + bytes_read))
          (to_long (to_size_t (to_size_t (size * nmemb) - bytes_read))) k in
      let bytes_read := to_size_t (bytes_read + to_size_t ret) in
      if negb (bytes_read =? to_size_t (size * nmemb)) && negb (ret =? 0)
      then fread_loop fuel' ptr size nmemb stream bytes_read k'
      else Done bytes_read k'
  end.

(** fread: number of elements read. *)
Definition fread
    (fuel : nat) (ptr size nmemb stream : Z) (k : kernel_state)
  : libc_outcome kernel_state Z :=
  if size =? 0 then Done 0 k
  else
    match fread_loop fuel ptr size nmemb stream 0 k with
    | Done bytes_read k' => Done (bytes_read / size) k'
    | Assertion_failed => Assertion_failed
    | No_behaviour => No_behaviour
    | Out_of_fuel => Out_of_fuel
    end.

(** The loop of [fwrite]; it yields [bytes_written]. *)
Fixpoint fwrite_loop
    (fuel : nat) (ptr size nmemb stream bytes_written : Z) (k : kernel_state)
  : libc_outcome kernel_state Z :=
  match fuel with
  | O => Out_of_fuel
  | S fuel' =>
      let (ret, k') :=
        syscall_3 SYS_write
          (to_long stream)
          (to_long (ptr + bytes_written))
          (to_long (to_size_t (to_size_t (size * nmemb) - bytes_written))) k in
      let bytes_written := to_size_t (bytes_written + to_size_t ret) in
      if negb (bytes_written =? to_size_t (size * nmemb))
      then fwrite_loop fuel' ptr size nmemb stream bytes_written k'
      else Done bytes_written k'
  end.

(** fwrite: number of elements written. *)
Definition fwrite
    (fuel : nat) (ptr size nmemb stream : Z) (k : kernel_state)
  : libc_outcome kernel_state Z :=
  if size =? 0 then Done 0 k
  else
    match fwrite_loop fuel ptr size nmemb stream 0 k with
    | Done bytes_written k' => Done (bytes_written / size) k'
    | Assertion_failed => Assertion_failed
    | No_behaviour => No_behaviour
    | Out_of_fuel => Out_of_fuel
    end.

(** The modes that [fopen] supports, each as the pair of [mode[0]] and
    [mode[1]], with the flags it opens the file with. *)
Definition fopen_supported_modes : list (ascii * ascii * Z) :=
  [ ("r"%char, Ascii.zero, O_RDONLY);
    ("r"%char, "+"%char, O_RDWR);
    ("w"%char, Ascii.zero, Z.lor (Z.lor O_WRONLY O_TRUNC) O_CREAT);
    ("w"%char, "+"%char, Z.lor (Z.lor O_RDWR O_TRUNC) O_CREAT);
    ("a"%char, Ascii.zero, Z.lor (Z.lor O_WRONLY O_CREAT) O_APPEND) ].

End DarwinLibc.

(** A kernel for the examples: its state counts the calls it has answered,
    and [answers] lists its answers in order, 0 once the list is used up. *)
Definition scripted_kernel (answers : list Z)
    (no : syscall_no_t) (arg1 arg2 arg3 : Z) (calls : nat) : Z * nat :=
  (match answers !! calls with Some ret => ret | None => 0 end, S calls).

(** A kernel for the examples that transfers every byte asked for. *)
Definition complete_kernel
    (no : syscall_no_t) (arg1 arg2 arg3 : Z) (calls : nat) : Z * nat :=
  (arg3, S calls).

(** [fopen] with a width of 64 bits and the values that Darwin's headers
    give the constants, against a kernel that answers with descriptor 3. *)
Definition darwin_fopen (path : Z) (mode : option string) (calls : nat)
  : libc_outcome nat Z :=
  fopen nat (scripted_kernel [3]) 64 0 1 2 1024 512 8 256 128 path mode calls.

(** * Properties *)

(** ** The dispatcher *)

Lemma geb_true_of_le (n k : Z) : k <= n -> (n >=? k) = true.
Proof. intros H. rewrite Z.geb_leb. now apply Z.leb_le. Qed.

Lemma geb_false_of_lt (n k : Z) : n < k -> (n >=? k) = false.
Proof. intros H. rewrite Z.geb_leb. now apply Z.leb_gt. Qed.

(** The conditional expression that fills argument position [k]. *)
Lemma argument_or_undefined_run (args : list ecma_value_t) (k : nat) (z : Z) s :
  z = Z.of_nat (S k) ->
  (if Z.of_nat (length args) >=? z
   then array_read args k
   else ret (ecma_make_simple_value ECMA_SIMPLE_VALUE_UNDEFINED)) s
  = Returned (supplied_or_undefined args k) s.
Proof.
  intros ->. unfold supplied_or_undefined, array_read.
  destruct (args !! k) as [v|] eqn:Hk.
  - apply lookup_lt_Some in Hk.
    rewrite geb_true_of_le by lia. reflexivity.
  - apply lookup_ge_None in Hk.
    rewrite geb_false_of_lt by lia. reflexivity.
Qed.

Ltac run_arguments :=
  repeat (rewrite argument_or_undefined_run by reflexivity; cbv beta iota).

(** What a call of the dispatcher does for each routine: the handler of the
    routine stops with its marker, having received as many arguments as the
    routine has parameters, each supplied or defaulted. *)
Lemma dispatch_routine_run id func (args : list ecma_value_t) s :
  routine_handler_name id = Some func ->
  exists k : nat,
    ecma_builtin_object_get_routine_parameters_number id s
    = Returned (Z.of_nat k) s /\
    ecma_builtin_object_dispatch_routine id args (Z.of_nat (length args)) s
    = Fatal (ERR_UNIMPLEMENTED func
               (List.map (supplied_or_undefined args) (seq 0 k))).
Proof.
  intros Hname.
  destruct id; simpl in Hname; try discriminate;
    injection Hname as <-;
    unfold ecma_builtin_object_dispatch_routine, bind;
    run_arguments;
    first [ exists 1%nat; split; reflexivity
          | exists 2%nat; split; reflexivity
          | exists 3%nat; split; reflexivity ].
Qed.

Lemma routine_ids_have_handlers id :
  In id ecma_builtin_object_routine_ids <-> is_Some (routine_handler_name id).
Proof.
  split.
  - intros Hin. simpl in Hin.
    repeat (destruct Hin as [<- | Hin]; [simpl; eauto |]). contradiction.
  - intros [func Hname].
    destruct id; simpl in Hname; try discriminate; simpl; tauto.
Qed.

(** C4: for every routine identifier and every supplied argument list, the
    dispatcher hands the routine's handler, at each of its parameter
    positions, the supplied argument or Undefined when the position lies
    beyond the supplied count; a two-argument routine called with no
    argument receives Undefined twice. *)
Theorem dispatch_defaults_missing_arguments
    id (arguments_list : list ecma_value_t) (arguments_number : Z) s :
  In id ecma_builtin_object_routine_ids ->
  arguments_number = Z.of_nat (length arguments_list) ->
  exists func (k : nat),
    routine_handler_name id = Some func /\
    ecma_builtin_object_get_routine_parameters_number id s
    = Returned (Z.of_nat k) s /\
    ecma_builtin_object_dispatch_routine id arguments_list arguments_number s
    = Fatal (ERR_UNIMPLEMENTED func
               (List.map (supplied_or_undefined arguments_list) (seq 0 k))) /\
    (forall j, (length arguments_list <= j)%nat ->
       supplied_or_undefined arguments_list j
       = ECMA_TYPE_SIMPLE ECMA_SIMPLE_VALUE_UNDEFINED) /\
    (forall j v, arguments_list !! j = Some v ->
       supplied_or_undefined arguments_list j = v) /\
    (In id [ECMA_MAGIC_STRING_GET_OWN_PROPERTY_DESCRIPTOR_UL;
            ECMA_MAGIC_STRING_CREATE;
            ECMA_MAGIC_STRING_DEFINE_PROPERTIES_UL] ->
     ecma_builtin_object_dispatch_routine id [] 0 s
     = Fatal (ERR_UNIMPLEMENTED func
                [ECMA_TYPE_SIMPLE ECMA_SIMPLE_VALUE_UNDEFINED;
                 ECMA_TYPE_SIMPLE ECMA_SIMPLE_VALUE_UNDEFINED])).
Proof.
  intros Hin ->.
  apply routine_ids_have_handlers in Hin as [func Hname].
  destruct (dispatch_routine_run id func arguments_list s Hname) as (k & Hk & Hrun).
  exists func, k. repeat split; try assumption.
  - intros j Hj. unfold supplied_or_undefined.
    now rewrite (proj2 (lookup_ge_None arguments_list j) Hj).
  - intros j v Hj. unfold supplied_or_undefined. now rewrite Hj.
  - intros Htwo. simpl in Htwo.
    destruct Htwo as [<- | [<- | [<- | []]]];
      simpl in Hname; injection Hname as <-; reflexivity.
Qed.

Lemma dispatch_defaults_missing_arguments_witness :
  exists func (k : nat),
    routine_handler_name ECMA_MAGIC_STRING_CREATE = Some func /\
    ecma_builtin_object_get_routine_parameters_number
      ECMA_MAGIC_STRING_CREATE empty_engine_state
    = Returned (Z.of_nat k) empty_engine_state /\
    ecma_builtin_object_dispatch_routine
      ECMA_MAGIC_STRING_CREATE [] 0 empty_engine_state
    = Fatal (ERR_UNIMPLEMENTED func
               (List.map (supplied_or_undefined []) (seq 0 k))).
Proof.
  destruct (dispatch_defaults_missing_arguments
              ECMA_MAGIC_STRING_CREATE [] 0 empty_engine_state)
    as (func & k & H1 & H2 & H3 & _).
  - simpl. tauto.
  - reflexivity.
  - exists func, k. auto.
Defined.

(** C7: for every routine identifier of the enumeration the dispatcher
    reaches exactly one handler, the one of that routine; for every other
    identifier it reaches the unreachable marker and returns nothing. *)
Theorem dispatch_routes_to_exactly_one_handler
    id (arguments_list : list ecma_value_t) (arguments_number : Z) s :
  arguments_number = Z.of_nat (length arguments_list) ->
  (In id ecma_builtin_object_routine_ids ->
   exists func,
     routine_handler_name id = Some func /\
     (exists vars,
        ecma_builtin_object_dispatch_routine id arguments_list arguments_number s
        = Fatal (ERR_UNIMPLEMENTED func vars)) /\
     (forall func' vars',
        ecma_builtin_object_dispatch_routine id arguments_list arguments_number s
        = Fatal (ERR_UNIMPLEMENTED func' vars') -> func' = func) /\
     (forall id', routine_handler_name id' = Some func -> id' = id)) /\
  (~ In id ecma_builtin_object_routine_ids ->
   ecma_builtin_object_dispatch_routine id arguments_list arguments_number s
   = Fatal ERR_UNREACHABLE /\
   never_returns
     (ecma_builtin_object_dispatch_routine id arguments_list arguments_number)) /\
  length ecma_builtin_object_routine_ids = 13%nat.
Proof.
  intros ->. split; [| split; [| reflexivity]].
  - intros Hin. apply routine_ids_have_handlers in Hin as [func Hname].
    destruct (dispatch_routine_run id func arguments_list s Hname) as (k & _ & Hrun).
    exists func. repeat split; try assumption.
    + eauto.
    + intros func' vars' H'. rewrite Hrun in H'. congruence.
    + intros id' Hname'.
      destruct id; simpl in Hname; try discriminate; injection Hname as <-;
        destruct id'; simpl in Hname'; try discriminate; reflexivity.
  - intros Hout.
    assert (Hnone : routine_handler_name id = None).
    { destruct (routine_handler_name id) eqn:E; [| reflexivity].
      exfalso. apply Hout, routine_ids_have_handlers. eauto. }
    split.
    + destruct id; simpl in Hnone; try discriminate; reflexivity.
    + intros s0 a s'. destruct id; simpl in Hnone; try discriminate; discriminate.
Qed.

Lemma dispatch_routes_to_exactly_one_handler_witness :
  (exists vars,
     ecma_builtin_object_dispatch_routine
       ECMA_MAGIC_STRING_KEYS [] 0 empty_engine_state
     = Fatal (ERR_UNIMPLEMENTED "ecma_builtin_object_object_keys" vars)) /\
  ecma_builtin_object_dispatch_routine
    ECMA_MAGIC_STRING_TO_STRING_UL [] 0 empty_engine_state
  = Fatal ERR_UNREACHABLE.
Proof.
  split.
  - destruct (dispatch_routes_to_exactly_one_handler
                ECMA_MAGIC_STRING_KEYS [] 0 empty_engine_state eq_refl)
      as (Hin & _ & _).
    destruct Hin as (func & Hname & Hrun & _).
    + simpl. tauto.
    + simpl in Hname. injection Hname as <-. exact Hrun.
  - destruct (dispatch_routes_to_exactly_one_handler
                ECMA_MAGIC_STRING_TO_STRING_UL [] 0 empty_engine_state eq_refl)
      as (_ & Hout & _).
    apply Hout. simpl. intuition discriminate.
Defined.

(** C9: each of the thirteen routine handlers of the Object object stops
    with the unimplemented marker whatever its arguments and the state, and
    so never returns a completion value. *)
Theorem routine_handlers_signal_unimplemented :
  (forall arg,
     signals_unimplemented (ecma_builtin_object_object_get_prototype_of arg) /\
     signals_unimplemented (ecma_builtin_object_object_get_own_property_names arg) /\
     signals_unimplemented (ecma_builtin_object_object_seal arg) /\
     signals_unimplemented (ecma_builtin_object_object_freeze arg) /\
     signals_unimplemented (ecma_builtin_object_object_prevent_extensions arg) /\
     signals_unimplemented (ecma_builtin_object_object_is_sealed arg) /\
     signals_unimplemented (ecma_builtin_object_object_is_frozen arg) /\
     signals_unimplemented (ecma_builtin_object_object_is_extensible arg) /\
     signals_unimplemented (ecma_builtin_object_object_keys arg)) /\
  (forall arg1 arg2,
     signals_unimplemented
       (ecma_builtin_object_object_get_own_property_descriptor arg1 arg2) /\
     signals_unimplemented (ecma_builtin_object_object_create arg1 arg2) /\
     signals_unimplemented
       (ecma_builtin_object_object_define_properties arg1 arg2)) /\
  (forall arg1 arg2 arg3,
     signals_unimplemented
       (ecma_builtin_object_object_define_property arg1 arg2 arg3)) /\
  (forall arg,
     never_returns (ecma_builtin_object_object_get_prototype_of arg) /\
     never_returns (ecma_builtin_object_object_get_own_property_names arg) /\
     never_returns (ecma_builtin_object_object_seal arg) /\
     never_returns (ecma_builtin_object_object_freeze arg) /\
     never_returns (ecma_builtin_object_object_prevent_extensions arg) /\
     never_returns (ecma_builtin_object_object_is_sealed arg) /\
     never_returns (ecma_builtin_object_object_is_frozen arg) /\
     never_returns (ecma_builtin_object_object_is_extensible arg) /\
     never_returns (ecma_builtin_object_object_keys arg)) /\
  (forall arg1 arg2,
     never_returns
       (ecma_builtin_object_object_get_own_property_descriptor arg1 arg2) /\
     never_returns (ecma_builtin_object_object_create arg1 arg2) /\
     never_returns (ecma_builtin_object_object_define_properties arg1 arg2)) /\
  (forall arg1 arg2 arg3,
     never_returns (ecma_builtin_object_object_define_property arg1 arg2 arg3)).
Proof.
  repeat split; try (intros s; eexists _, _; reflexivity);
    try (intros s a s'; discriminate).
Qed.



(** ** The binary search of the property-name table *)

Section BinarySearch.

Variable magic_string_id_value : ecma_magic_string_id_t -> Z.

Abbreviation value_of := magic_string_id_value.
Abbreviation loop := (bin_search_loop magic_string_id_value).

Lemma strictly_ascending_tail x l :
  strictly_ascending (x :: l) = true -> strictly_ascending l = true.
Proof.
  destruct l as [| y l]; [reflexivity |].
  cbn [strictly_ascending]. intros H. apply andb_true_iff in H. tauto.
Qed.

Lemma ascending_head_below (ids : list ecma_magic_string_id_t) :
  forall x j b,
    strictly_ascending (List.map value_of (x :: ids)) = true ->
    ids !! j = Some b -> value_of x < value_of b.
Proof.
  induction ids as [| y ids IH]; intros x j b Hasc Hj; [discriminate |].
  cbn [List.map strictly_ascending] in Hasc.
  apply andb_true_iff in Hasc as [Hxy Hrest]. apply Z.ltb_lt in Hxy.
  destruct j as [| j].
  - injection Hj as <-. exact Hxy.
  - specialize (IH y j b Hrest Hj). lia.
Qed.

(** In an ascending table, a later entry has a larger value. *)
Lemma ascending_lookup_lt (ids : list ecma_magic_string_id_t) :
  forall i j a b,
    strictly_ascending (List.map value_of ids) = true ->
    ids !! i = Some a -> ids !! j = Some b -> (i < j)%nat ->
    value_of a < value_of b.
Proof.
  induction ids as [| x ids IH]; intros i j a b Hasc Hi Hj Hlt; [discriminate |].
  destruct j as [| j]; [lia |].
  destruct i as [| i].
  - injection Hi as ->. exact (ascending_head_below ids a j b Hasc Hj).
  - apply (IH i j a b); [| assumption | assumption | lia].
    exact (strictly_ascending_tail _ _ Hasc).
Qed.

Lemma midpoint_bounds (min max : Z) :
  0 <= min -> min <= max ->
  min <= Z.quot (min + max) 2 <= max.
Proof.
  intros Hmin Hle. rewrite Z.quot_div_nonneg by lia.
  split.
  - apply Z.div_le_lower_bound; lia.
  - apply Z.div_le_upper_bound; lia.
Qed.

(** The search finds every member of an ascending table at its index. *)
Lemma bin_search_loop_found (ids : list ecma_magic_string_id_t) key (k : nat) :
  strictly_ascending (List.map value_of ids) = true ->
  ids !! k = Some key ->
  forall fuel min max,
    0 <= min -> min <= Z.of_nat k <= max ->
    max < Z.of_nat (length ids) ->
    max - min + 1 <= Z.of_nat fuel ->
    loop fuel ids key min max = Z.of_nat k.
Proof.
  intros Hasc Hk.
  induction fuel as [| fuel IH]; intros min max Hmin Hrange Hmax Hfuel; [lia |].
  cbn [bin_search_loop].
  assert (Hle : min <= max) by lia.
  rewrite (proj2 (Z.leb_le min max) Hle).
  pose proof (midpoint_bounds min max Hmin Hle) as Hmid.
  set (mid := Z.quot (min + max) 2) in *.
  destruct (ids !! Z.to_nat mid) as [x |] eqn:Hx.
  2:{ apply lookup_ge_None in Hx. lia. }
  destruct (Z.eqb_spec (value_of x) (value_of key)) as [Heq | Hne].
  - destruct (Nat.lt_trichotomy (Z.to_nat mid) k) as [Hlt | [Heqk | Hgt]].
    + pose proof (ascending_lookup_lt ids _ _ _ _ Hasc Hx Hk Hlt). lia.
    + lia.
    + pose proof (ascending_lookup_lt ids _ _ _ _ Hasc Hk Hx Hgt). lia.
  - rewrite Z.gtb_ltb.
    destruct (Z.ltb_spec (value_of key) (value_of x)) as [Hlt | Hge].
    + apply IH; try lia.
      destruct (Nat.lt_trichotomy (Z.to_nat mid) k) as [Hlt' | [Heqk | Hgt]].
      * pose proof (ascending_lookup_lt ids _ _ _ _ Hasc Hx Hk Hlt'). lia.
      * subst k. rewrite Hx in Hk. injection Hk as ->. lia.
      * lia.
    + apply IH; try lia.
      destruct (Nat.lt_trichotomy (Z.to_nat mid) k) as [Hlt' | [Heqk | Hgt]].
      * lia.
      * subst k. rewrite Hx in Hk. injection Hk as ->. lia.
      * pose proof (ascending_lookup_lt ids _ _ _ _ Hasc Hk Hx Hgt). lia.
Qed.

(** Whatever the table, the search answers -1 or an index of the searched
    interval at which the table holds the key's value. *)
Lemma bin_search_loop_result (ids : list ecma_magic_string_id_t) key :
  forall fuel min max,
    0 <= min ->
    loop fuel ids key min max = -1 \/
    (min <= loop fuel ids key min max <= max /\
     exists x,
       ids !! Z.to_nat (loop fuel ids key min max) = Some x /\
       value_of x = value_of key).
Proof.
  induction fuel as [| fuel IH]; intros min max Hmin; [now left |].
  cbn [bin_search_loop].
  destruct (Z.leb_spec min max) as [Hle | Hgt]; [| now left].
  pose proof (midpoint_bounds min max Hmin Hle) as Hmid.
  set (mid := Z.quot (min + max) 2) in *.
  destruct (ids !! Z.to_nat mid) as [x |] eqn:Hx; [| now left].
  destruct (Z.eqb_spec (value_of x) (value_of key)) as [Heq | Hne].
  - right. split; [lia |]. eauto.
  - destruct (value_of x >? value_of key).
    + destruct (IH min (mid - 1) Hmin) as [-> | [Hr Hfound]]; [now left |].
      right. split; [lia | exact Hfound].
    + destruct (IH (mid + 1) max ltac:(lia)) as [-> | [Hr Hfound]]; [now left |].
      right. split; [lia | exact Hfound].
Qed.

Abbreviation search :=
  (ecma_builtin_bin_search_for_magic_string_id_in_array magic_string_id_value).

Lemma bin_search_found (ids : list ecma_magic_string_id_t) key (k : nat) :
  strictly_ascending (List.map value_of ids) = true ->
  ids !! k = Some key ->
  search ids (Z.of_nat (length ids)) key = Z.of_nat k.
Proof.
  intros Hasc Hk. unfold ecma_builtin_bin_search_for_magic_string_id_in_array.
  pose proof (lookup_lt_Some _ _ _ Hk).
  apply bin_search_loop_found; try assumption; lia.
Qed.

Lemma bin_search_result (ids : list ecma_magic_string_id_t) key :
  search ids (Z.of_nat (length ids)) key = -1 \/
  (0 <= search ids (Z.of_nat (length ids)) key < Z.of_nat (length ids) /\
   exists x,
     ids !! Z.to_nat (search ids (Z.of_nat (length ids)) key) = Some x /\
     value_of x = value_of key).
Proof.
  unfold ecma_builtin_bin_search_for_magic_string_id_in_array.
  destruct (bin_search_loop_result ids key (Z.to_nat (Z.of_nat (length ids)))
              0 (Z.of_nat (length ids) - 1) ltac:(lia)) as [H | [H1 H2]].
  - now left.
  - right. split; [lia | exact H2].
Qed.

(** An identifier outside the table is reported absent, provided distinct
    enumerators have distinct values. *)
Lemma bin_search_absent (ids : list ecma_magic_string_id_t) key :
  (forall a b, value_of a = value_of b -> a = b) ->
  ~ In key ids ->
  search ids (Z.of_nat (length ids)) key = -1.
Proof.
  intros Hinj Hout.
  destruct (bin_search_result ids key) as [H | [_ (x & Hx & Hval)]]; [exact H |].
  exfalso. apply Hout. apply Hinj in Hval. subst x.
  apply list_elem_of_In. eapply list_elem_of_lookup_2. exact Hx.
Qed.

End BinarySearch.

(** ** Symbolic execution of the property store *)

Lemma ecma_get_object_run s p o :
  heap s !! p = Some o -> ecma_get_object p s = Returned o s.
Proof. intros H. unfold ecma_get_object. now rewrite H. Qed.

Lemma ecma_set_object_run s p o0 o :
  heap s !! p = Some o0 ->
  ecma_set_object p o s = Returned tt (with_heap s (<[p := o]> (heap s))).
Proof. intros H. unfold ecma_set_object. now rewrite H. Qed.

Lemma ecma_find_named_property_run s p o name :
  heap s !! p = Some o ->
  ecma_find_named_property p name s
  = Returned (match find_property (KEY_NAMED name) (properties o) with
              | Some _ => Some (p, KEY_NAMED name)
              | None => None
              end) s.
Proof.
  intros H. unfold ecma_find_named_property, bind.
  now rewrite (ecma_get_object_run _ _ _ H).
Qed.

Lemma ecma_get_internal_property_run s p o id x :
  heap s !! p = Some o ->
  find_property (KEY_INTERNAL id) (properties o) = Some x ->
  ecma_get_internal_property p id s = Returned (p, KEY_INTERNAL id) s.
Proof.
  intros H Hx. unfold ecma_get_internal_property, ecma_find_internal_property, bind.
  rewrite (ecma_get_object_run _ _ _ H). unfold ret. now rewrite Hx.
Qed.

Lemma ecma_create_internal_property_run s p o id :
  heap s !! p = Some o ->
  find_property (KEY_INTERNAL id) (properties o) = None ->
  ecma_create_internal_property p id s
  = Returned (p, KEY_INTERNAL id)
      (with_heap s
         (<[p := with_properties o
                   (ECMA_PROPERTY_INTERNAL id (INTERNAL_UINT32 0) :: properties o)]>
            (heap s))).
Proof.
  intros H Hnone. unfold ecma_create_internal_property, bind.
  rewrite (ecma_get_object_run _ _ _ H), Hnone.
  cbn [bool_decide decide_rel]. rewrite bool_decide_eq_true_2 by reflexivity.
  cbn [JERRY_ASSERT ret]. now rewrite (ecma_set_object_run _ _ _ _ H).
Qed.

Lemma ecma_create_named_data_property_run s p o name w e c :
  heap s !! p = Some o ->
  find_property (KEY_NAMED name) (properties o) = None ->
  ecma_create_named_data_property p name w e c s
  = Returned (p, KEY_NAMED name)
      (with_heap s
         (<[p := with_properties o
                   (ECMA_PROPERTY_NAMEDDATA
                      name (ECMA_TYPE_SIMPLE ECMA_SIMPLE_VALUE_EMPTY) w e c
                    :: properties o)]>
            (heap s))).
Proof.
  intros H Hnone. unfold ecma_create_named_data_property, bind.
  rewrite (ecma_get_object_run _ _ _ H), Hnone.
  rewrite bool_decide_eq_true_2 by reflexivity.
  cbn [JERRY_ASSERT ret]. now rewrite (ecma_set_object_run _ _ _ _ H).
Qed.

Lemma ecma_property_update_run s p o key f :
  heap s !! p = Some o ->
  ecma_property_update (p, key) f s
  = Returned tt
      (with_heap s
         (<[p := with_properties o
                   (List.map (fun q => if bool_decide (property_key q = key)
                                       then f q else q)
                             (properties o))]>
            (heap s))).
Proof.
  intros H. unfold ecma_property_update, bind. cbn [fst snd].
  rewrite (ecma_get_object_run _ _ _ H).
  now rewrite (ecma_set_object_run _ _ _ _ H).
Qed.

Lemma get_internal_property_uint32_run s p o id id' w :
  heap s !! p = Some o ->
  find_property (KEY_INTERNAL id) (properties o)
  = Some (ECMA_PROPERTY_INTERNAL id' (INTERNAL_UINT32 w)) ->
  get_internal_property_uint32 (p, KEY_INTERNAL id) s = Returned w s.
Proof.
  intros H Hw. unfold get_internal_property_uint32, ecma_property_read, bind.
  cbn [fst snd]. rewrite (ecma_get_object_run _ _ _ H), Hw. reflexivity.
Qed.

Lemma lookup_insert_heap (h : list ecma_object_t) p o0 o :
  h !! p = Some o0 -> <[p := o]> h !! p = Some o.
Proof. intros H. apply list_lookup_insert_eq. eapply lookup_lt_Some, H. Qed.

Lemma make_function_object_run b r s :
  ecma_builtin_make_function_object_for_routine b r s
  = Returned (length (heap s))
      (with_heap s (heap s ++ [function_object_for_routine b r])).
Proof.
  unfold ecma_builtin_make_function_object_for_routine, bind, ecma_create_object.
  erewrite ecma_create_internal_property_run.
  2:{ cbn [heap with_heap]. apply list_lookup_middle. reflexivity. }
  2:{ reflexivity. }
  unfold set_internal_property_value.
  erewrite ecma_property_update_run.
  2:{ cbn [heap with_heap]. eapply lookup_insert_heap.
      apply list_lookup_middle. reflexivity. }
  unfold ret. f_equal. unfold with_heap. cbn [heap ecma_object_object_p].
  f_equal.
  rewrite list_insert_insert_eq.
  rewrite insert_app_r_alt by lia. rewrite Nat.sub_diag. reflexivity.
Qed.

(** Property lists under the update of the mask. *)

Lemma find_property_with_mask_other w key props :
  key <> KEY_INTERNAL ECMA_INTERNAL_PROPERTY_NON_INSTANTIATED_BUILT_IN_MASK_0_31 ->
  find_property key (with_mask w props) = find_property key props.
Proof.
  intros Hkey. induction props as [| p props IH]; [reflexivity |].
  unfold find_property in *. cbn [with_mask List.map List.find].
  fold (with_mask w props).
  destruct (decide (property_key p
                    = KEY_INTERNAL
                        ECMA_INTERNAL_PROPERTY_NON_INSTANTIATED_BUILT_IN_MASK_0_31))
    as [Hp | Hp].
  - rewrite (bool_decide_eq_true_2 _ Hp).
    destruct p; cbn [property_key] in *; try discriminate.
    rewrite !bool_decide_eq_false_2 by congruence. exact IH.
  - rewrite (bool_decide_eq_false_2 _ Hp).
    destruct (bool_decide (property_key p = key)); [reflexivity | exact IH].
Qed.

Lemma find_property_with_mask w w0 id props :
  find_property
    (KEY_INTERNAL ECMA_INTERNAL_PROPERTY_NON_INSTANTIATED_BUILT_IN_MASK_0_31) props
  = Some (ECMA_PROPERTY_INTERNAL id (INTERNAL_UINT32 w0)) ->
  find_property
    (KEY_INTERNAL ECMA_INTERNAL_PROPERTY_NON_INSTANTIATED_BUILT_IN_MASK_0_31)
    (with_mask w props)
  = Some (ECMA_PROPERTY_INTERNAL id (INTERNAL_UINT32 w)).
Proof.
  induction props as [| p props IH]; [discriminate |].
  unfold find_property in *. cbn [with_mask List.map List.find].
  fold (with_mask w props).
  destruct (decide (property_key p
                    = KEY_INTERNAL
                        ECMA_INTERNAL_PROPERTY_NON_INSTANTIATED_BUILT_IN_MASK_0_31))
    as [Hp | Hp].
  - rewrite (bool_decide_eq_true_2 _ Hp). intros [= ->].
    cbn [property_key] in *. rewrite (bool_decide_eq_true_2 _ Hp). reflexivity.
  - rewrite (bool_decide_eq_false_2 _ Hp). rewrite (bool_decide_eq_false_2 _ Hp).
    exact IH.
Qed.

Lemma map_update_absent key f (props : list ecma_property_t) :
  find_property key props = None ->
  List.map (fun q => if bool_decide (property_key q = key) then f q else q) props
  = props.
Proof.
  induction props as [| p props IH]; [reflexivity |].
  unfold find_property in *. cbn [List.find List.map].
  destruct (bool_decide (property_key p = key)); [discriminate |].
  intros H. now rewrite IH.
Qed.

Section InstantiationOutcome.

Variable magic_string_id_value : ecma_magic_string_id_t -> Z.

Abbreviation table_index id :=
  (ecma_builtin_bin_search_for_magic_string_id_in_array
     magic_string_id_value
     ecma_builtin_object_property_names
     ecma_builtin_object_property_number id).

Lemma table_index_range id :
  table_index id = -1 \/ 0 <= table_index id < ecma_builtin_object_property_number.
Proof.
  destruct (bin_search_result magic_string_id_value
              ecma_builtin_object_property_names id) as [H | [H _]].
  - now left.
  - now right.
Qed.

(** The tail of the request, once the bit of the identifier has been
    cleared: creation of the named data property and store of the
    synthesised value. *)
Lemma attach_property_run s obj_p o w name value wr en co fresh :
  heap s !! obj_p = Some o ->
  find_property (KEY_NAMED name) (properties o) = None ->
  let s1 := with_heap s
              (<[obj_p := with_properties o (with_mask w (properties o))]> (heap s)
               ++ fresh) in
  (prop_p <- ecma_create_named_data_property obj_p name wr en co;;
   value_copy <- ecma_copy_value value false;;
   set_named_data_property_value prop_p value_copy;;;
   ecma_gc_update_may_ref_younger_object_flag_by_value obj_p value_copy;;;
   ecma_free_value value true;;;
   ret (Some prop_p))%engine s1
  = Returned (Some (obj_p, KEY_NAMED name))
      (instantiated_state s obj_p o w
         (ECMA_PROPERTY_NAMEDDATA name value wr en co) fresh).
Proof.
  intros Hheap Hnew s1.
  pose proof (lookup_lt_Some _ _ _ Hheap) as Hlt.
  set (o1 := with_properties o (with_mask w (properties o))).
  assert (H1 : heap s1 !! obj_p = Some o1).
  { subst s1. cbn [heap with_heap].
    rewrite lookup_app_l by (rewrite length_insert; exact Hlt).
    now apply list_lookup_insert_eq. }
  assert (Hnew1 : find_property (KEY_NAMED name) (properties o1) = None).
  { subst o1. cbn [properties with_properties].
    rewrite find_property_with_mask_other by discriminate. exact Hnew. }
  unfold bind.
  rewrite (ecma_create_named_data_property_run _ _ _ _ _ _ _ H1 Hnew1).
  unfold ecma_copy_value, ret, set_named_data_property_value.
  erewrite ecma_property_update_run.
  2:{ cbn [heap with_heap]. eapply lookup_insert_heap. exact H1. }
  unfold ecma_gc_update_may_ref_younger_object_flag_by_value, ecma_free_value, ret.
  f_equal. unfold instantiated_state, with_heap. subst s1.
  cbn [heap ecma_object_object_p with_heap]. f_equal.
  rewrite list_insert_insert_eq.
  rewrite !insert_app_l by (rewrite ?length_insert; exact Hlt).
  rewrite list_insert_insert_eq. f_equal. f_equal.
  unfold with_properties. cbn [properties prototype_object_p is_extensible
                               object_type is_builtin]. f_equal.
  cbn [List.map property_key].
  rewrite bool_decide_eq_true_2 by reflexivity. f_equal.
  subst o1. cbn [properties with_properties] in Hnew1.
  now apply map_update_absent.
Qed.

Lemma bind_Returned {A B} (m : M A) (k : A -> M B) s a s' :
  m s = Returned a s' -> bind m k s = k a s'.
Proof. intros H. unfold bind. now rewrite H. Qed.

Lemma bind_ret {A B} (a : A) (k : A -> M B) s : bind (ret a) k s = k a s.
Proof. reflexivity. Qed.

Lemma bind_bind {A B C} (m : M A) (k1 : A -> M B) (k2 : B -> M C) s :
  bind (bind m k1) k2 s = bind m (fun a => bind (k1 a) k2) s.
Proof. unfold bind. now destruct (m s). Qed.

Lemma bind_assert_true {B} (k : unit -> M B) s :
  bind (JERRY_ASSERT true) k s = k tt s.
Proof. reflexivity. Qed.

Lemma bind_is_object_object {B} obj_p (k : bool -> M B) s :
  bind (ecma_builtin_is_object_object obj_p) k s
  = k (bool_decide (Some obj_p = ecma_object_object_p s)) s.
Proof. reflexivity. Qed.

Lemma table_index_assert id :
  table_index id <> -1 ->
  (table_index id >=? 0) && (table_index id <? mask_bit_width) = true.
Proof.
  intros Hfound. destruct (table_index_range id) as [H | H]; [contradiction |].
  apply andb_true_iff. split.
  - apply geb_true_of_le. lia.
  - apply Z.ltb_lt.
    pose proof (eq_refl : ecma_builtin_object_property_number = 15).
    pose proof (eq_refl : mask_bit_width = 32). lia.
Qed.

(** The code of the lazy instantiation computes the closed form. *)
Lemma try_to_instantiate_outcome obj_p prop_name_p s :
  ecma_builtin_object_try_to_instantiate_property
    magic_string_id_value obj_p prop_name_p s
  = instantiation_outcome magic_string_id_value obj_p prop_name_p s.
Proof.
  unfold ecma_builtin_object_try_to_instantiate_property, instantiation_outcome.
  rewrite bind_is_object_object.
  destruct (bool_decide (Some obj_p = ecma_object_object_p s)); [| reflexivity].
  rewrite bind_assert_true.
  destruct (heap s !! obj_p) as [o |] eqn:Hheap.
  2:{ unfold ecma_find_named_property, bind, ecma_get_object.
      now rewrite Hheap. }
  rewrite (bind_Returned _ _ _ _ _
             (ecma_find_named_property_run s obj_p o prop_name_p Hheap)).
  destruct (find_property (KEY_NAMED prop_name_p) (properties o)) eqn:Hnew;
    [reflexivity |].
  rewrite (bool_decide_eq_true_2 _ eq_refl), bind_assert_true.
  destruct (ecma_is_string_magic prop_name_p) as [id |]; [| reflexivity].
  cbv zeta.
  destruct (Z.eqb_spec (table_index id) (-1)) as [Habsent | Hfound];
    [reflexivity |].
  rewrite (table_index_assert id Hfound), bind_assert_true.
  destruct (find_property
              (KEY_INTERNAL
                 ECMA_INTERNAL_PROPERTY_NON_INSTANTIATED_BUILT_IN_MASK_0_31)
              (properties o)) as [mask_prop |] eqn:Hmask.
  2:{ unfold ecma_get_internal_property, ecma_find_internal_property,
        bind, ecma_get_object.
      rewrite Hheap. unfold ret. now rewrite Hmask. }
  rewrite (bind_Returned _ _ _ _ _
             (ecma_get_internal_property_run s obj_p o _ _ Hheap Hmask)).
  destruct mask_prop as [| | id' [bit_mask | | |]];
    try (unfold get_internal_property_uint32, ecma_property_read, bind,
           ecma_get_object; cbn [fst snd]; rewrite Hheap; unfold ret;
         now rewrite Hmask).
  rewrite (bind_Returned _ _ _ _ _
             (get_internal_property_uint32_run s obj_p o _ _ _ Hheap Hmask)).
  destruct (Z.land bit_mask (uint32_shl 1 (table_index id)) =? 0);
    [reflexivity |].
  unfold set_internal_property_value at 1.
  rewrite (bind_Returned _ _ _ _ _
             (ecma_property_update_run s obj_p o _ _ Hheap)).
  fold (with_mask (Z.land bit_mask (uint32_not (uint32_shl 1 (table_index id))))
          (properties o)).
  set (w := Z.land bit_mask (uint32_not (uint32_shl 1 (table_index id)))).
  destruct id; cbn [property_kind]; try reflexivity.
  all: try (rewrite bind_bind;
            rewrite (bind_Returned _ _ _ _ _ (make_function_object_run _ _ _));
            rewrite bind_ret;
            cbn [heap with_heap]; rewrite length_insert;
            exact (attach_property_run s obj_p o w prop_name_p _ _ _ _ _
                     Hheap Hnew)).
  rewrite bind_ret.
  rewrite <- (app_nil_r (<[obj_p := _]> (heap s))).
  exact (attach_property_run s obj_p o w prop_name_p _ _ _ _ [] Hheap Hnew).
Qed.

End InstantiationOutcome.

(** ** Bits of the instantiation mask *)

Lemma uint32_shl_1 (i : Z) : 0 <= i < 32 -> uint32_shl 1 i = 2 ^ i.
Proof.
  intros Hi. unfold uint32_shl, to_uint32, uint32_modulus.
  rewrite Z.shiftl_1_l. apply Z.mod_small. split.
  - apply Z.pow_nonneg. lia.
  - apply Z.pow_lt_mono_r; lia.
Qed.

(** Clearing the bit of index [i]: that bit goes, the other 31 stay. *)
Lemma clear_bit_testbit (m i j : Z) :
  0 <= i < 32 -> 0 <= j ->
  Z.testbit (Z.land m (uint32_not (uint32_shl 1 i))) j
  = Z.testbit m j && (j <? 32) && negb (i =? j).
Proof.
  intros Hi Hj. rewrite uint32_shl_1 by assumption.
  rewrite Z.land_spec. unfold uint32_not, to_uint32, uint32_modulus.
  destruct (Z.ltb_spec j 32) as [Hlow | Hhigh].
  - rewrite Z.mod_pow2_bits_low by assumption.
    rewrite Z.lnot_spec by assumption.
    rewrite Z.pow2_bits_eqb by lia.
    now rewrite andb_true_r.
  - rewrite Z.mod_pow2_bits_high by lia.
    now rewrite andb_false_r.
Qed.

(** The test [bit_mask & bit] of the code reads the bit of index [i]. *)
Lemma bit_test_testbit (m i : Z) :
  0 <= i < 32 ->
  (Z.land m (uint32_shl 1 i) =? 0) = negb (Z.testbit m i).
Proof.
  intros Hi. rewrite uint32_shl_1 by assumption.
  destruct (Z.testbit m i) eqn:Hbit; cbn [negb].
  - apply Z.eqb_neq. intros Hzero.
    assert (H : Z.testbit (Z.land m (2 ^ i)) i = true).
    { rewrite Z.land_spec, Hbit, Z.pow2_bits_true by lia. reflexivity. }
    rewrite Hzero, Z.bits_0 in H. discriminate.
  - apply Z.eqb_eq. apply Z.bits_inj'. intros j Hj.
    rewrite Z.land_spec, Z.bits_0, Z.pow2_bits_eqb by lia.
    destruct (Z.eqb_spec i j) as [-> | Hne].
    + now rewrite Hbit.
    + apply andb_false_r.
Qed.

Lemma all_pending_mask_testbit (j : Z) :
  0 <= j -> Z.testbit (2 ^ 15 - 1) j = (j <? 15).
Proof.
  intros Hj. change (2 ^ 15 - 1) with (Z.ones 15).
  apply Z.testbit_ones_nonneg; lia.
Qed.

(** Counting in a list without duplicates: a predicate that loses exactly
    one member of the list loses exactly one from the count. *)
Lemma filter_length_lose_one (P Q : nat -> bool) (i : nat) (l : list nat) :
  NoDup l -> In i l -> P i = true -> Q i = false ->
  (forall j, In j l -> j <> i -> Q j = P j) ->
  S (length (List.filter Q l)) = length (List.filter P l).
Proof.
  intros Hnodup Hin HP HQ Hother.
  induction l as [| x l IH]; [contradiction |].
  apply NoDup_cons in Hnodup as [Hx Hnodup].
  cbn [List.filter].
  destruct (decide (x = i)) as [-> | Hne].
  - rewrite HP, HQ. cbn [length]. f_equal.
    assert (Hsame : forall j, In j l -> Q j = P j).
    { intros j Hj. apply Hother; [now right |]. intros ->. apply Hx.
      now apply list_elem_of_In. }
    clear -Hsame. induction l as [| y l IH]; [reflexivity |].
    cbn [List.filter]. rewrite (Hsame y) by now left.
    destruct (P y); cbn [length]; rewrite IH; auto;
      intros j Hj; apply Hsame; now right.
  - destruct Hin as [-> | Hin]; [contradiction |].
    rewrite (Hother x (or_introl eq_refl) Hne).
    assert (IH' : S (length (List.filter Q l)) = length (List.filter P l)).
    { apply IH; try assumption. intros j Hj. apply Hother. now right. }
    destruct (P x); cbn [length]; rewrite <- IH'; reflexivity.
Qed.

(** Clearing a bit that is set lowers the number of set bits by one. *)
Lemma clear_bit_popcount (m i : Z) :
  0 <= i < 32 -> Z.testbit m i = true ->
  S (popcount32 (Z.land m (uint32_not (uint32_shl 1 i)))) = popcount32 m.
Proof.
  intros Hi Hbit. unfold popcount32.
  apply (filter_length_lose_one _ _ (Z.to_nat i)).
  - apply NoDup_ListNoDup, seq_NoDup.
  - apply in_seq. lia.
  - now rewrite Z2Nat.id by lia.
  - rewrite clear_bit_testbit by lia. rewrite Z2Nat.id by lia.
    rewrite Z.eqb_refl. apply andb_false_r.
  - intros j Hj Hne. apply in_seq in Hj.
    rewrite clear_bit_testbit by lia.
    rewrite (proj2 (Z.ltb_lt _ _)) by lia.
    rewrite (proj2 (Z.eqb_neq _ _)) by lia.
    now rewrite !andb_true_r.
Qed.

(** ** Initialisation of the Object object *)

Lemma bind_get_state {B} (k : ecma_state -> M B) s : bind get_state k s = k s s.
Proof. reflexivity. Qed.

Lemma bind_create_object {B} proto ext type (k : ecma_object_ptr -> M B) s :
  bind (ecma_create_object proto ext type) k s
  = k (length (heap s))
      (with_heap s (heap s ++ [mk_object proto ext type false []])).
Proof. reflexivity. Qed.

Lemma ecma_set_object_is_builtin_run s p o b :
  heap s !! p = Some o ->
  ecma_set_object_is_builtin p b s
  = Returned tt
      (with_heap s
         (<[p := {| prototype_object_p := prototype_object_p o;
                    is_extensible := is_extensible o;
                    object_type := object_type o;
                    is_builtin := b;
                    properties := properties o |}]> (heap s))).
Proof.
  intros H. unfold ecma_set_object_is_builtin, bind.
  rewrite (ecma_get_object_run _ _ _ H).
  now rewrite (ecma_set_object_run _ _ _ _ H).
Qed.

Ltac solve_heap_lookup :=
  cbn [heap with_heap];
  first [ apply list_lookup_middle; reflexivity
        | eapply lookup_insert_heap; solve_heap_lookup ].

(** The state that the initialisation leaves. *)
Lemma init_object_object_run s :
  ecma_object_object_p s = None ->
  ecma_builtin_init_object_object s
  = Returned tt {| heap := heap s ++ [initial_object_object];
                   ecma_object_object_p := Some (length (heap s)) |}.
Proof.
  intros Hnull. unfold ecma_builtin_init_object_object.
  rewrite bind_get_state, Hnull, (bool_decide_eq_true_2 _ eq_refl).
  rewrite bind_assert_true, bind_create_object.
  erewrite bind_Returned
    by (eapply ecma_create_internal_property_run;
        [solve_heap_lookup | reflexivity]).
  unfold set_internal_property_value at 1.
  erewrite bind_Returned by (eapply ecma_property_update_run; solve_heap_lookup).
  erewrite bind_Returned
    by (eapply ecma_create_internal_property_run;
        [solve_heap_lookup | reflexivity]).
  unfold set_internal_property_value at 1.
  erewrite bind_Returned by (eapply ecma_property_update_run; solve_heap_lookup).
  erewrite bind_Returned
    by (eapply ecma_create_internal_property_run;
        [solve_heap_lookup | reflexivity]).
  unfold set_internal_property_value at 1.
  erewrite bind_Returned by (eapply ecma_property_update_run; solve_heap_lookup).
  erewrite bind_Returned by (eapply ecma_set_object_is_builtin_run; solve_heap_lookup).
  rewrite bind_get_state. unfold put_state. f_equal.
  cbn [heap with_heap ecma_object_object_p]. f_equal.
  rewrite !list_insert_insert_eq.
  rewrite insert_app_r_alt by lia. rewrite Nat.sub_diag. reflexivity.
Qed.

(** The initialisation returns only from a state without Object object. *)
Lemma init_object_object_returned s s0 :
  ecma_builtin_init_object_object s = Returned tt s0 ->
  ecma_object_object_p s = None /\
  s0 = {| heap := heap s ++ [initial_object_object];
          ecma_object_object_p := Some (length (heap s)) |}.
Proof.
  intros Hinit.
  destruct (ecma_object_object_p s) as [p |] eqn:Hnull.
  - exfalso. revert Hinit. unfold ecma_builtin_init_object_object.
    rewrite bind_get_state, Hnull. discriminate.
  - split; [reflexivity |].
    rewrite (init_object_object_run s Hnull) in Hinit. congruence.
Qed.

(** ** What a request finds and what it leaves *)

Lemma instantiated_state_object s obj_p o w prop fresh :
  heap s !! obj_p = Some o ->
  heap (instantiated_state s obj_p o w prop fresh) !! obj_p
  = Some (with_properties o (prop :: with_mask w (properties o))).
Proof.
  intros Hheap. unfold instantiated_state. cbn [heap with_heap].
  apply list_lookup_insert_eq. rewrite length_app.
  pose proof (lookup_lt_Some _ _ _ Hheap). lia.
Qed.

Lemma instantiated_state_fresh s obj_p o w prop f :
  heap s !! obj_p = Some o ->
  heap (instantiated_state s obj_p o w prop [f]) !! length (heap s) = Some f.
Proof.
  intros Hheap. unfold instantiated_state. cbn [heap with_heap].
  pose proof (lookup_lt_Some _ _ _ Hheap).
  rewrite list_lookup_insert_ne by lia.
  now apply list_lookup_middle.
Qed.

Lemma instantiated_state_property_at s obj_p o w name value wr en co fresh :
  heap s !! obj_p = Some o ->
  property_at (instantiated_state s obj_p o w
                 (ECMA_PROPERTY_NAMEDDATA name value wr en co) fresh)
              (obj_p, KEY_NAMED name)
  = Some (ECMA_PROPERTY_NAMEDDATA name value wr en co).
Proof.
  intros Hheap. unfold property_at. cbn [fst snd].
  rewrite (instantiated_state_object _ _ _ _ _ _ Hheap).
  unfold find_property. cbn [properties with_properties List.find property_key].
  now rewrite bool_decide_eq_true_2.
Qed.

Lemma non_instantiated_mask_Some s m :
  non_instantiated_mask s = Some m <->
  exists obj_p o id,
    ecma_object_object_p s = Some obj_p /\
    heap s !! obj_p = Some o /\
    find_property
      (KEY_INTERNAL ECMA_INTERNAL_PROPERTY_NON_INSTANTIATED_BUILT_IN_MASK_0_31)
      (properties o)
    = Some (ECMA_PROPERTY_INTERNAL id (INTERNAL_UINT32 m)).
Proof.
  unfold non_instantiated_mask. split.
  - destruct (ecma_object_object_p s) as [obj_p |] eqn:Hobj; [| discriminate].
    destruct (heap s !! obj_p) as [o |] eqn:Hheap; [| discriminate].
    destruct (find_property _ (properties o)) as [[| | id [w | | |]] |] eqn:Hmask;
      try discriminate.
    intros [= ->]. exists obj_p, o, id. auto.
  - intros (obj_p & o & id & -> & -> & ->). reflexivity.
Qed.

Lemma instantiated_state_mask s obj_p o id w0 w name value wr en co fresh :
  ecma_object_object_p s = Some obj_p ->
  heap s !! obj_p = Some o ->
  find_property
    (KEY_INTERNAL ECMA_INTERNAL_PROPERTY_NON_INSTANTIATED_BUILT_IN_MASK_0_31)
    (properties o)
  = Some (ECMA_PROPERTY_INTERNAL id (INTERNAL_UINT32 w0)) ->
  non_instantiated_mask
    (instantiated_state s obj_p o w
       (ECMA_PROPERTY_NAMEDDATA name value wr en co) fresh)
  = Some w.
Proof.
  intros Hobj Hheap Hmask. apply non_instantiated_mask_Some.
  eexists obj_p, _, id. split; [exact Hobj |]. split.
  - now apply instantiated_state_object.
  - cbn [properties with_properties]. unfold find_property. cbn [List.find property_key].
    rewrite bool_decide_eq_false_2 by discriminate.
    exact (find_property_with_mask w w0 id _ Hmask).
Qed.

Section Requests.

Variable magic_string_id_value : ecma_magic_string_id_t -> Z.

Abbreviation table_index id :=
  (ecma_builtin_bin_search_for_magic_string_id_in_array
     magic_string_id_value
     ecma_builtin_object_property_names
     ecma_builtin_object_property_number id).

Abbreviation try_to_instantiate :=
  (ecma_builtin_object_try_to_instantiate_property magic_string_id_value).

Abbreviation mask_key :=
  (KEY_INTERNAL ECMA_INTERNAL_PROPERTY_NON_INSTANTIATED_BUILT_IN_MASK_0_31).

Lemma table_index_bit_position id :
  table_index id <> -1 -> 0 <= table_index id < 32.
Proof.
  intros Hfound.
  destruct (table_index_range magic_string_id_value id) as [H | H];
    [contradiction |].
  pose proof (eq_refl : ecma_builtin_object_property_number = 15). lia.
Qed.

(** A request for a name that the asserted preconditions allow and whose
    bit is still pending. *)
Lemma instantiate_pending_run s obj_p o name id id' m :
  ecma_object_object_p s = Some obj_p ->
  heap s !! obj_p = Some o ->
  find_property (KEY_NAMED name) (properties o) = None ->
  ecma_is_string_magic name = Some id ->
  find_property mask_key (properties o)
  = Some (ECMA_PROPERTY_INTERNAL id' (INTERNAL_UINT32 m)) ->
  table_index id <> -1 ->
  Z.testbit m (table_index id) = true ->
  try_to_instantiate obj_p name s
  = let w := Z.land m (uint32_not (uint32_shl 1 (table_index id))) in
    match property_kind id with
    | KIND_ROUTINE =>
        Returned (Some (obj_p, KEY_NAMED name))
          (instantiated_state s obj_p o w
             (ECMA_PROPERTY_NAMEDDATA name (ECMA_TYPE_OBJECT (length (heap s)))
                ECMA_PROPERTY_WRITABLE ECMA_PROPERTY_NOT_ENUMERABLE
                ECMA_PROPERTY_CONFIGURABLE)
             [function_object_for_routine ECMA_BUILTIN_ID_OBJECT id])
    | KIND_LENGTH =>
        Returned (Some (obj_p, KEY_NAMED name))
          (instantiated_state s obj_p o w
             (ECMA_PROPERTY_NAMEDDATA name (ECMA_TYPE_NUMBER ECMA_NUMBER_ONE)
                ECMA_PROPERTY_NOT_WRITABLE ECMA_PROPERTY_NOT_ENUMERABLE
                ECMA_PROPERTY_NOT_CONFIGURABLE)
             [])
    | KIND_PROTOTYPE =>
        Fatal (ERR_UNIMPLEMENTED
                 "ecma_builtin_object_try_to_instantiate_property" [])
    | KIND_NONE => Fatal ERR_UNREACHABLE
    end.
Proof.
  intros Hobj Hheap Hnew Hmagic Hmask Hfound Hbit.
  rewrite try_to_instantiate_outcome. unfold instantiation_outcome.
  rewrite Hobj, (bool_decide_eq_true_2 _ eq_refl), Hheap, Hnew, Hmagic.
  cbv zeta. rewrite (proj2 (Z.eqb_neq _ _) Hfound), Hmask.
  rewrite bit_test_testbit by now apply table_index_bit_position.
  rewrite Hbit. reflexivity.
Qed.

(** A request that finds nothing to do: the name is no magic string, its
    identifier is not in the table, or its bit is clear. *)
Lemma instantiate_nothing_run s obj_p o name :
  ecma_object_object_p s = Some obj_p ->
  heap s !! obj_p = Some o ->
  find_property (KEY_NAMED name) (properties o) = None ->
  (ecma_is_string_magic name = None \/
   (exists id, ecma_is_string_magic name = Some id /\ table_index id = -1) \/
   (exists id id' m,
      ecma_is_string_magic name = Some id /\
      find_property mask_key (properties o)
      = Some (ECMA_PROPERTY_INTERNAL id' (INTERNAL_UINT32 m)) /\
      Z.testbit m (table_index id) = false)) ->
  try_to_instantiate obj_p name s = Returned None s.
Proof.
  intros Hobj Hheap Hnew Hcase.
  rewrite try_to_instantiate_outcome. unfold instantiation_outcome.
  rewrite Hobj, (bool_decide_eq_true_2 _ eq_refl), Hheap, Hnew.
  destruct Hcase as [-> | [(id & -> & Habsent) | (id & id' & m & -> & Hmask & Hbit)]].
  - reflexivity.
  - cbv zeta. now rewrite Habsent.
  - cbv zeta. destruct (Z.eqb_spec (table_index id) (-1)) as [| Hfound];
      [reflexivity |].
    rewrite Hmask, bit_test_testbit by now apply table_index_bit_position.
    now rewrite Hbit.
Qed.

(** Every way for a request to return. *)
Lemma instantiate_returned_inv s obj_p name r s' :
  try_to_instantiate obj_p name s = Returned r s' ->
  ecma_object_object_p s = Some obj_p /\
  exists o,
    heap s !! obj_p = Some o /\
    find_property (KEY_NAMED name) (properties o) = None /\
    ((r = None /\ s' = s) \/
     (exists id id' m,
        ecma_is_string_magic name = Some id /\
        table_index id <> -1 /\
        find_property mask_key (properties o)
        = Some (ECMA_PROPERTY_INTERNAL id' (INTERNAL_UINT32 m)) /\
        Z.testbit m (table_index id) = true /\
        r = Some (obj_p, KEY_NAMED name) /\
        let w := Z.land m (uint32_not (uint32_shl 1 (table_index id))) in
        ((property_kind id = KIND_ROUTINE /\
          s' = instantiated_state s obj_p o w
                 (ECMA_PROPERTY_NAMEDDATA
                    name (ECMA_TYPE_OBJECT (length (heap s)))
                    ECMA_PROPERTY_WRITABLE ECMA_PROPERTY_NOT_ENUMERABLE
                    ECMA_PROPERTY_CONFIGURABLE)
                 [function_object_for_routine ECMA_BUILTIN_ID_OBJECT id]) \/
         (property_kind id = KIND_LENGTH /\
          s' = instantiated_state s obj_p o w
                 (ECMA_PROPERTY_NAMEDDATA
                    name (ECMA_TYPE_NUMBER ECMA_NUMBER_ONE)
                    ECMA_PROPERTY_NOT_WRITABLE ECMA_PROPERTY_NOT_ENUMERABLE
                    ECMA_PROPERTY_NOT_CONFIGURABLE)
                 [])))).
Proof.
  intros Hrun. rewrite try_to_instantiate_outcome in Hrun.
  unfold instantiation_outcome in Hrun.
  case_bool_decide as Hobj; [| discriminate].
  symmetry in Hobj. split; [exact Hobj |].
  destruct (heap s !! obj_p) as [o |] eqn:Hheap; [| discriminate].
  exists o. split; [reflexivity |].
  destruct (find_property (KEY_NAMED name) (properties o)) eqn:Hnew;
    [discriminate |].
  split; [reflexivity |].
  destruct (ecma_is_string_magic name) as [id |] eqn:Hmagic;
    [| injection Hrun as <- <-; now left].
  cbv zeta in Hrun.
  destruct (Z.eqb_spec (table_index id) (-1)) as [| Hfound];
    [injection Hrun as <- <-; now left |].
  destruct (find_property mask_key (properties o))
    as [[| | id' [m | | |]] |] eqn:Hmask; try discriminate.
  rewrite bit_test_testbit in Hrun by now apply table_index_bit_position.
  destruct (Z.testbit m (table_index id)) eqn:Hbit; cbn [negb] in Hrun;
    [| injection Hrun as <- <-; now left].
  right. exists id, id', m.
  destruct (property_kind id); try discriminate;
    injection Hrun as <- <-; repeat split; auto.
Qed.

End Requests.

(** ** Deletion of a named property *)

Lemma find_property_filter_out name (props : list ecma_property_t) :
  find_property
    (KEY_NAMED name)
    (List.filter (fun p => negb (bool_decide (property_key p = KEY_NAMED name)))
                 props)
  = None.
Proof.
  induction props as [| p props IH]; [reflexivity |].
  cbn [List.filter].
  destruct (bool_decide (property_key p = KEY_NAMED name)) eqn:Hp; cbn [negb].
  - exact IH.
  - unfold find_property in *. cbn [List.find]. now rewrite Hp.
Qed.

Lemma find_property_filter_other key name (props : list ecma_property_t) :
  key <> KEY_NAMED name ->
  find_property
    key
    (List.filter (fun p => negb (bool_decide (property_key p = KEY_NAMED name)))
                 props)
  = find_property key props.
Proof.
  intros Hkey. induction props as [| p props IH]; [reflexivity |].
  unfold find_property in *. cbn [List.filter List.find].
  destruct (decide (property_key p = KEY_NAMED name)) as [Hp | Hp].
  - rewrite (bool_decide_eq_true_2 _ Hp). cbn [negb].
    rewrite bool_decide_eq_false_2 by congruence. exact IH.
  - rewrite (bool_decide_eq_false_2 _ Hp). cbn [negb List.find].
    now rewrite IH.
Qed.

Lemma ecma_delete_named_property_run s p o name :
  heap s !! p = Some o ->
  ecma_delete_named_property p name s
  = Returned tt
      (with_heap s
         (<[p := with_properties o
                   (List.filter
                      (fun q => negb (bool_decide (property_key q = KEY_NAMED name)))
                      (properties o))]> (heap s))).
Proof.
  intros H. unfold ecma_delete_named_property, bind.
  rewrite (ecma_get_object_run _ _ _ H).
  now rewrite (ecma_set_object_run _ _ _ _ H).
Qed.

(** ** The table under a numbering that makes it ascending *)

Lemma table_order_value_ascending :
  strictly_ascending (List.map table_order_value ecma_builtin_object_property_names)
  = true.
Proof. reflexivity. Qed.

Lemma table_order_value_injective a b :
  table_order_value a = table_order_value b -> a = b.
Proof.
  destruct a, b; cbn [table_order_value]; intros H;
    try reflexivity; try lia.
  f_equal. lia.
Qed.

Lemma routine_ids_in_table id :
  In id ecma_builtin_object_routine_ids ->
  exists k : nat,
    ecma_builtin_object_property_names !! k = Some id /\ (2 <= k < 15)%nat.
Proof.
  intros Hin. cbn in Hin.
  repeat (destruct Hin as [<- | Hin];
          [ first [ exists 2%nat; split; [reflexivity | lia]
                  | exists 3%nat; split; [reflexivity | lia]
                  | exists 4%nat; split; [reflexivity | lia]
                  | exists 5%nat; split; [reflexivity | lia]
                  | exists 6%nat; split; [reflexivity | lia]
                  | exists 7%nat; split; [reflexivity | lia]
                  | exists 8%nat; split; [reflexivity | lia]
                  | exists 9%nat; split; [reflexivity | lia]
                  | exists 10%nat; split; [reflexivity | lia]
                  | exists 11%nat; split; [reflexivity | lia]
                  | exists 12%nat; split; [reflexivity | lia]
                  | exists 13%nat; split; [reflexivity | lia]
                  | exists 14%nat; split; [reflexivity | lia] ] |]).
  contradiction.
Qed.

Lemma routine_ids_kind id :
  In id ecma_builtin_object_routine_ids <-> property_kind id = KIND_ROUTINE.
Proof.
  split.
  - intros Hin. cbn in Hin.
    repeat (destruct Hin as [<- | Hin]; [reflexivity |]). contradiction.
  - destruct id; cbn; intros H; try discriminate; tauto.
Qed.

(** Clearing bit [k] of the all-pending mask. *)
Lemma clear_pending_bit (k : nat) :
  (k < 15)%nat ->
  Z.land (2 ^ 15 - 1) (uint32_not (uint32_shl 1 (Z.of_nat k)))
  = 2 ^ 15 - 1 - 2 ^ Z.of_nat k.
Proof.
  intros Hk.
  do 15 (destruct k as [| k]; [vm_compute; reflexivity |]). lia.
Qed.

Lemma popcount32_all_pending : popcount32 (2 ^ 15 - 1) = 15%nat.
Proof. reflexivity. Qed.

(** ** Lazy instantiation on the freshly initialised Object object *)

Section FreshObject.

Variable magic_string_id_value : ecma_magic_string_id_t -> Z.

(** The table is sorted in ascending order of the identifiers' values, as
    the warning at its declaration demands. *)
Hypothesis names_ascending :
  strictly_ascending
    (List.map magic_string_id_value ecma_builtin_object_property_names)
  = true.

Abbreviation table_index id :=
  (ecma_builtin_bin_search_for_magic_string_id_in_array
     magic_string_id_value
     ecma_builtin_object_property_names
     ecma_builtin_object_property_number id).

Abbreviation try_to_instantiate :=
  (ecma_builtin_object_try_to_instantiate_property magic_string_id_value).

Abbreviation magic id := (ECMA_STRING_CONTAINER_MAGIC_STRING id).

Lemma table_index_of_names (k : nat) id :
  ecma_builtin_object_property_names !! k = Some id ->
  table_index id = Z.of_nat k.
Proof.
  intros Hk.
  exact (bin_search_found magic_string_id_value
           ecma_builtin_object_property_names id k names_ascending Hk).
Qed.

(** The first request for an entry of the table on the fresh object. *)
Lemma fresh_object_request s (k : nat) id :
  ecma_builtin_object_property_names !! k = Some id ->
  try_to_instantiate (length (heap s)) (magic id) (initialized_state s)
  = let w := 2 ^ 15 - 1 - 2 ^ Z.of_nat k in
    let obj_p := length (heap s) in
    match property_kind id with
    | KIND_ROUTINE =>
        Returned (Some (obj_p, KEY_NAMED (magic id)))
          (instantiated_state (initialized_state s) obj_p initial_object_object w
             (ECMA_PROPERTY_NAMEDDATA (magic id) (ECMA_TYPE_OBJECT (S obj_p))
                ECMA_PROPERTY_WRITABLE ECMA_PROPERTY_NOT_ENUMERABLE
                ECMA_PROPERTY_CONFIGURABLE)
             [function_object_for_routine ECMA_BUILTIN_ID_OBJECT id])
    | KIND_LENGTH =>
        Returned (Some (obj_p, KEY_NAMED (magic id)))
          (instantiated_state (initialized_state s) obj_p initial_object_object w
             (ECMA_PROPERTY_NAMEDDATA (magic id) (ECMA_TYPE_NUMBER ECMA_NUMBER_ONE)
                ECMA_PROPERTY_NOT_WRITABLE ECMA_PROPERTY_NOT_ENUMERABLE
                ECMA_PROPERTY_NOT_CONFIGURABLE)
             [])
    | KIND_PROTOTYPE =>
        Fatal (ERR_UNIMPLEMENTED
                 "ecma_builtin_object_try_to_instantiate_property" [])
    | KIND_NONE => Fatal ERR_UNREACHABLE
    end.
Proof.
  intros Hk.
  pose proof (lookup_lt_Some _ _ _ Hk) as Hlt.
  change (length ecma_builtin_object_property_names) with 15%nat in Hlt.
  pose proof (table_index_of_names k id Hk) as Hindex.
  rewrite (instantiate_pending_run magic_string_id_value
             (initialized_state s) (length (heap s)) initial_object_object
             (magic id) id
             ECMA_INTERNAL_PROPERTY_NON_INSTANTIATED_BUILT_IN_MASK_0_31
             (2 ^ 15 - 1)).
  - cbv zeta. rewrite Hindex, clear_pending_bit by lia.
    cbn [heap initialized_state]. rewrite length_app. cbn [length].
    rewrite Nat.add_1_r. reflexivity.
  - reflexivity.
  - cbn [heap initialized_state]. now apply list_lookup_middle.
  - reflexivity.
  - reflexivity.
  - reflexivity.
  - rewrite Hindex. lia.
  - rewrite Hindex, all_pending_mask_testbit by lia. apply Z.ltb_lt. lia.
Qed.

Lemma initialized_state_mask s :
  non_instantiated_mask (initialized_state s) = Some (2 ^ 15 - 1).
Proof.
  apply non_instantiated_mask_Some.
  exists (length (heap s)), initial_object_object,
    ECMA_INTERNAL_PROPERTY_NON_INSTANTIATED_BUILT_IN_MASK_0_31.
  split; [reflexivity |]. split; [| reflexivity].
  cbn [heap initialized_state]. now apply list_lookup_middle.
Qed.

Lemma initialized_state_lookup_miss s name :
  ecma_find_named_property (length (heap s)) name (initialized_state s)
  = Returned None (initialized_state s).
Proof.
  erewrite ecma_find_named_property_run
    by (cbn [heap initialized_state]; now apply list_lookup_middle).
  reflexivity.
Qed.

(** C1: on the freshly initialised Object object, whose mask has all 15
    bits pending, a request for a routine identifier ("keys" and the other
    twelve) returns a new named data property that is writable, not
    enumerable and configurable and whose value is the Function object that
    the registration path builds for that routine; exactly the bit of the
    identifier is cleared, so that 14 bits remain set. *)
Theorem fresh_object_instantiates_routine s_pre s0 id :
  ecma_builtin_init_object_object s_pre = Returned tt s0 ->
  In id ecma_builtin_object_routine_ids ->
  exists obj_p (index : nat) prop_p value s',
    ecma_object_object_p s0 = Some obj_p /\
    non_instantiated_mask s0 = Some (2 ^ 15 - 1) /\
    popcount32 (2 ^ 15 - 1) = 15%nat /\
    ecma_find_named_property obj_p (magic id) s0 = Returned None s0 /\
    ecma_builtin_object_property_names !! index = Some id /\
    try_to_instantiate obj_p (magic id) s0 = Returned (Some prop_p) s' /\
    property_at s' prop_p
    = Some (ECMA_PROPERTY_NAMEDDATA (magic id) value
              ECMA_PROPERTY_WRITABLE ECMA_PROPERTY_NOT_ENUMERABLE
              ECMA_PROPERTY_CONFIGURABLE) /\
    ecma_find_named_property obj_p (magic id) s' = Returned (Some prop_p) s' /\
    is_function_object_for_routine s' value ECMA_BUILTIN_ID_OBJECT id /\
    (forall t, exists t',
       ecma_builtin_make_function_object_for_routine ECMA_BUILTIN_ID_OBJECT id t
       = Returned (length (heap t)) t' /\
       heap t' !! length (heap t)
       = Some (function_object_for_routine ECMA_BUILTIN_ID_OBJECT id)) /\
    object_type (function_object_for_routine ECMA_BUILTIN_ID_OBJECT id)
    = ECMA_OBJECT_TYPE_FUNCTION /\
    non_instantiated_mask s' = Some (2 ^ 15 - 1 - 2 ^ Z.of_nat index) /\
    (forall j, 0 <= j < 32 ->
       Z.testbit (2 ^ 15 - 1 - 2 ^ Z.of_nat index) j
       = Z.testbit (2 ^ 15 - 1) j && negb (Z.of_nat index =? j)) /\
    popcount32 (2 ^ 15 - 1 - 2 ^ Z.of_nat index) = 14%nat.
Proof.
  intros Hinit Hin.
  apply init_object_object_returned in Hinit as [Hnull ->].
  fold (initialized_state s_pre).
  destruct (routine_ids_in_table id Hin) as (k & Hk & Hrange).
  pose proof (fresh_object_request s_pre k id Hk) as Hrun.
  rewrite (proj1 (routine_ids_kind id) Hin) in Hrun. cbv zeta in Hrun.
  assert (Hheap : heap (initialized_state s_pre) !! length (heap s_pre)
                  = Some initial_object_object).
  { cbn [heap initialized_state]. now apply list_lookup_middle. }
  eexists (length (heap s_pre)), k, _, _, _.
  split; [reflexivity |].
  split; [apply initialized_state_mask |].
  split; [reflexivity |].
  split; [apply initialized_state_lookup_miss |].
  split; [exact Hk |].
  split; [exact Hrun |].
  split; [now apply instantiated_state_property_at |].
  split.
  { erewrite ecma_find_named_property_run
      by (now apply instantiated_state_object).
    cbn [properties with_properties]. unfold find_property.
    cbn [List.find property_key].
    now rewrite bool_decide_eq_true_2. }
  split.
  { exists (S (length (heap s_pre))). split; [reflexivity |].
    pose proof (instantiated_state_fresh
                  (initialized_state s_pre) (length (heap s_pre))
                  initial_object_object (2 ^ 15 - 1 - 2 ^ Z.of_nat k)
                  (ECMA_PROPERTY_NAMEDDATA (magic id)
                     (ECMA_TYPE_OBJECT (S (length (heap s_pre))))
                     ECMA_PROPERTY_WRITABLE ECMA_PROPERTY_NOT_ENUMERABLE
                     ECMA_PROPERTY_CONFIGURABLE)
                  (function_object_for_routine ECMA_BUILTIN_ID_OBJECT id)
                  Hheap) as Hfresh.
    cbn [heap initialized_state] in Hfresh. rewrite length_app in Hfresh.
    cbn [length] in Hfresh. rewrite Nat.add_1_r in Hfresh. exact Hfresh. }
  split.
  { intros t. eexists. split; [apply make_function_object_run |].
    cbn [heap with_heap]. now apply list_lookup_middle. }
  split; [reflexivity |].
  split.
  { eapply instantiated_state_mask; [reflexivity | exact Hheap | reflexivity]. }
  split.
  { intros j Hj. rewrite <- clear_pending_bit by lia.
    rewrite clear_bit_testbit by lia.
    rewrite (proj2 (Z.ltb_lt j 32)) by lia. now rewrite andb_true_r. }
  pose proof (clear_bit_popcount (2 ^ 15 - 1) (Z.of_nat k)) as Hcount.
  rewrite clear_pending_bit in Hcount by lia.
  rewrite popcount32_all_pending in Hcount.
  assert (Hbit : Z.testbit (2 ^ 15 - 1) (Z.of_nat k) = true).
  { rewrite all_pending_mask_testbit by lia. apply Z.ltb_lt. lia. }
  specialize (Hcount ltac:(lia) Hbit). lia.
Qed.

(** C5: on the freshly initialised Object object, a request for "length"
    returns a named data property that is not writable, not enumerable and
    not configurable and whose value is the Number 1; only the bit of
    "length" is cleared. *)
Theorem fresh_object_instantiates_length s_pre s0 :
  ecma_builtin_init_object_object s_pre = Returned tt s0 ->
  exists obj_p prop_p s',
    ecma_object_object_p s0 = Some obj_p /\
    non_instantiated_mask s0 = Some (2 ^ 15 - 1) /\
    ecma_find_named_property obj_p (magic ECMA_MAGIC_STRING_LENGTH) s0
    = Returned None s0 /\
    try_to_instantiate obj_p (magic ECMA_MAGIC_STRING_LENGTH) s0
    = Returned (Some prop_p) s' /\
    property_at s' prop_p
    = Some (ECMA_PROPERTY_NAMEDDATA
              (magic ECMA_MAGIC_STRING_LENGTH)
              (ECMA_TYPE_NUMBER ECMA_NUMBER_ONE)
              ECMA_PROPERTY_NOT_WRITABLE ECMA_PROPERTY_NOT_ENUMERABLE
              ECMA_PROPERTY_NOT_CONFIGURABLE) /\
    ECMA_NUMBER_ONE = 1%float /\
    ecma_find_named_property obj_p (magic ECMA_MAGIC_STRING_LENGTH) s'
    = Returned (Some prop_p) s' /\
    ecma_builtin_object_property_names !! 1%nat = Some ECMA_MAGIC_STRING_LENGTH /\
    non_instantiated_mask s' = Some (2 ^ 15 - 1 - 2 ^ 1) /\
    (forall j, 0 <= j < 32 ->
       Z.testbit (2 ^ 15 - 1 - 2 ^ 1) j
       = Z.testbit (2 ^ 15 - 1) j && negb (1 =? j)) /\
    popcount32 (2 ^ 15 - 1 - 2 ^ 1) = 14%nat.
Proof.
  intros Hinit.
  apply init_object_object_returned in Hinit as [Hnull ->].
  fold (initialized_state s_pre).
  pose proof (fresh_object_request s_pre 1 ECMA_MAGIC_STRING_LENGTH eq_refl)
    as Hrun.
  cbv zeta in Hrun. cbn [property_kind] in Hrun.
  assert (Hheap : heap (initialized_state s_pre) !! length (heap s_pre)
                  = Some initial_object_object).
  { cbn [heap initialized_state]. now apply list_lookup_middle. }
  eexists (length (heap s_pre)), _, _.
  split; [reflexivity |].
  split; [apply initialized_state_mask |].
  split; [apply initialized_state_lookup_miss |].
  split; [exact Hrun |].
  split; [now apply instantiated_state_property_at |].
  split; [reflexivity |].
  split.
  { erewrite ecma_find_named_property_run
      by (now apply instantiated_state_object).
    cbn [properties with_properties]. unfold find_property.
    cbn [List.find property_key].
    now rewrite bool_decide_eq_true_2. }
  split; [reflexivity |].
  split.
  { eapply instantiated_state_mask; [reflexivity | exact Hheap | reflexivity]. }
  split; [| reflexivity].
  intros j Hj. change (2 ^ 1) with (2 ^ Z.of_nat 1).
  rewrite <- (clear_pending_bit 1) by lia.
  rewrite clear_bit_testbit by lia.
  rewrite (proj2 (Z.ltb_lt j 32)) by lia. now rewrite andb_true_r.
Qed.

End FreshObject.

(** ** Accounting of the mask over a run of requests *)

Lemma instantiable_names_in_table id :
  In id instantiable_property_names <->
  (property_kind id = KIND_ROUTINE \/ property_kind id = KIND_LENGTH).
Proof.
  split.
  - intros Hin. cbn in Hin.
    repeat (destruct Hin as [<- | Hin]; [cbn; tauto |]). contradiction.
  - destruct id; cbn; intros [H | H]; try discriminate; tauto.
Qed.

Lemma instantiable_names_position id :
  In id instantiable_property_names ->
  exists k : nat,
    ecma_builtin_object_property_names !! k = Some id /\ (1 <= k < 15)%nat.
Proof.
  intros Hin. cbn in Hin.
  repeat (destruct Hin as [<- | Hin];
          [ first [ exists 1%nat; split; [reflexivity | lia]
                  | exists 2%nat; split; [reflexivity | lia]
                  | exists 3%nat; split; [reflexivity | lia]
                  | exists 4%nat; split; [reflexivity | lia]
                  | exists 5%nat; split; [reflexivity | lia]
                  | exists 6%nat; split; [reflexivity | lia]
                  | exists 7%nat; split; [reflexivity | lia]
                  | exists 8%nat; split; [reflexivity | lia]
                  | exists 9%nat; split; [reflexivity | lia]
                  | exists 10%nat; split; [reflexivity | lia]
                  | exists 11%nat; split; [reflexivity | lia]
                  | exists 12%nat; split; [reflexivity | lia]
                  | exists 13%nat; split; [reflexivity | lia]
                  | exists 14%nat; split; [reflexivity | lia] ] |]).
  contradiction.
Qed.

Lemma instantiable_names_NoDup : NoDup instantiable_property_names.
Proof. apply (bool_decide_unpack _). vm_compute. exact I. Qed.

(** The order in which bits are cleared does not matter. *)
Lemma clear_bits_permutation (l1 l2 : list Z) :
  Permutation l1 l2 -> forall m, clear_bits l1 m = clear_bits l2 m.
Proof.
  unfold clear_bits.
  induction 1 as [| x l1 l2 _ IH | x y l | l1 l2 l3 _ IH1 _ IH2]; intros m.
  - reflexivity.
  - cbn [fold_left]. apply IH.
  - cbn [fold_left]. f_equal.
    rewrite <- !Z.land_assoc. f_equal. apply Z.land_comm.
  - now rewrite IH1.
Qed.

Section MaskAccounting.

Variable magic_string_id_value : ecma_magic_string_id_t -> Z.

Hypothesis names_ascending :
  strictly_ascending
    (List.map magic_string_id_value ecma_builtin_object_property_names)
  = true.

Abbreviation table_index id :=
  (ecma_builtin_bin_search_for_magic_string_id_in_array
     magic_string_id_value
     ecma_builtin_object_property_names
     ecma_builtin_object_property_number id).

Abbreviation try_to_instantiate :=
  (ecma_builtin_object_try_to_instantiate_property magic_string_id_value).

Abbreviation magic id := (ECMA_STRING_CONTAINER_MAGIC_STRING id).

Abbreviation mask_key :=
  (KEY_INTERNAL ECMA_INTERNAL_PROPERTY_NON_INSTANTIATED_BUILT_IN_MASK_0_31).

Abbreviation index_of := (table_index_of_names magic_string_id_value names_ascending).

(** A pending entry whose synthesis is implemented is instantiated. *)
Lemma instantiate_pending_instantiable s obj_p o id id' m :
  ecma_object_object_p s = Some obj_p ->
  heap s !! obj_p = Some o ->
  find_property (KEY_NAMED (magic id)) (properties o) = None ->
  find_property mask_key (properties o)
  = Some (ECMA_PROPERTY_INTERNAL id' (INTERNAL_UINT32 m)) ->
  In id instantiable_property_names ->
  Z.testbit m (table_index id) = true ->
  exists value wr en co fresh,
    try_to_instantiate obj_p (magic id) s
    = Returned (Some (obj_p, KEY_NAMED (magic id)))
        (instantiated_state s obj_p o
           (Z.land m (uint32_not (uint32_shl 1 (table_index id))))
           (ECMA_PROPERTY_NAMEDDATA (magic id) value wr en co) fresh).
Proof.
  intros Hobj Hheap Hnew Hmask Hin Hbit.
  destruct (instantiable_names_position id Hin) as (k & Hk & Hrange).
  pose proof (index_of k id Hk) as Hindex.
  assert (Hfound : table_index id <> -1) by (rewrite Hindex; lia).
  pose proof (instantiate_pending_run magic_string_id_value
                s obj_p o (magic id) id id' m
                Hobj Hheap Hnew eq_refl Hmask Hfound Hbit) as Hrun.
  cbv zeta in Hrun.
  apply instantiable_names_in_table in Hin as [Hkind | Hkind];
    rewrite Hkind in Hrun; eauto 10.
Qed.

(** A run of requests for distinct pending entries instantiates each of
    them and clears their bits. *)
Lemma instantiate_all_run obj_p (l : list ecma_magic_string_id_t) :
  forall s o id' m,
    ecma_object_object_p s = Some obj_p ->
    heap s !! obj_p = Some o ->
    find_property mask_key (properties o)
    = Some (ECMA_PROPERTY_INTERNAL id' (INTERNAL_UINT32 m)) ->
    NoDup l ->
    (forall id, In id l -> In id instantiable_property_names) ->
    (forall id, In id l ->
       find_property (KEY_NAMED (magic id)) (properties o) = None) ->
    (forall id, In id l -> Z.testbit m (table_index id) = true) ->
    exists s',
      instantiate_all magic_string_id_value obj_p
        (List.map ECMA_STRING_CONTAINER_MAGIC_STRING l) s
      = Returned
          (List.map
             (fun id => Some (obj_p, KEY_NAMED (magic id))) l)
          s' /\
      non_instantiated_mask s'
      = Some (clear_bits (List.map (fun id => table_index id) l) m).
Proof.
  induction l as [| id l IH];
    intros s o id' m Hobj Hheap Hmask Hnodup Hinst Hnew Hbits.
  - exists s. split; [reflexivity |].
    apply non_instantiated_mask_Some. eauto 10.
  - apply NoDup_cons in Hnodup as [Hfresh Hnodup].
    destruct (instantiate_pending_instantiable s obj_p o id id' m
                Hobj Hheap (Hnew id (or_introl eq_refl)) Hmask
                (Hinst id (or_introl eq_refl)) (Hbits id (or_introl eq_refl)))
      as (value & wr & en & co & fresh & Hrun).
    set (w := Z.land m (uint32_not (uint32_shl 1 (table_index id)))) in *.
    set (s1 := instantiated_state s obj_p o w
                 (ECMA_PROPERTY_NAMEDDATA (magic id) value wr en co) fresh) in *.
    destruct (instantiable_names_position id (Hinst id (or_introl eq_refl)))
      as (k & Hk & Hrange).
    pose proof (index_of k id Hk) as Hindex.
    destruct (IH s1
                (with_properties o
                   (ECMA_PROPERTY_NAMEDDATA (magic id) value wr en co
                    :: with_mask w (properties o)))
                id' w) as (s' & Hrest & Hmask').
    + exact Hobj.
    + now apply instantiated_state_object.
    + cbn [properties with_properties]. unfold find_property.
      cbn [List.find property_key].
      rewrite bool_decide_eq_false_2 by discriminate.
      exact (find_property_with_mask w m id' _ Hmask).
    + exact Hnodup.
    + intros id2 Hin2. apply Hinst. now right.
    + intros id2 Hin2. cbn [properties with_properties]. unfold find_property.
      cbn [List.find property_key].
      rewrite bool_decide_eq_false_2.
      * fold (find_property (KEY_NAMED (magic id2)) (with_mask w (properties o))).
        rewrite find_property_with_mask_other by discriminate.
        apply Hnew. now right.
      * intros [= ->]. apply Hfresh. now apply list_elem_of_In.
    + intros id2 Hin2.
      destruct (instantiable_names_position id2 (Hinst id2 (or_intror Hin2)))
        as (k2 & Hk2 & Hrange2).
      pose proof (index_of k2 id2 Hk2) as Hindex2.
      subst w. rewrite clear_bit_testbit by (rewrite ?Hindex, ?Hindex2; lia).
      rewrite (Hbits id2 (or_intror Hin2)), Hindex, Hindex2.
      rewrite (proj2 (Z.ltb_lt _ 32)) by lia.
      rewrite (proj2 (Z.eqb_neq _ _)); [reflexivity |].
      intros Heq. apply Nat2Z.inj in Heq. subst k2.
      rewrite Hk in Hk2. injection Hk2 as ->.
      apply Hfresh. now apply list_elem_of_In.
    + exists s'. split; [| exact Hmask'].
      cbn [List.map instantiate_all].
      rewrite (bind_Returned _ _ _ _ _ Hrun).
      rewrite (bind_Returned _ _ _ _ _ Hrest).
      reflexivity.
Qed.

Lemma instantiable_indices :
  List.map (fun id => table_index id) instantiable_property_names
  = [1; 2; 3; 4; 5; 6; 7; 8; 9; 10; 11; 12; 13; 14].
Proof.
  change instantiable_property_names
    with (List.tail ecma_builtin_object_property_names).
  cbn [List.tail ecma_builtin_object_property_names List.map].
  rewrite (index_of 1 _ eq_refl), (index_of 2 _ eq_refl),
    (index_of 3 _ eq_refl), (index_of 4 _ eq_refl), (index_of 5 _ eq_refl),
    (index_of 6 _ eq_refl), (index_of 7 _ eq_refl), (index_of 8 _ eq_refl),
    (index_of 9 _ eq_refl), (index_of 10 _ eq_refl), (index_of 11 _ eq_refl),
    (index_of 12 _ eq_refl), (index_of 13 _ eq_refl), (index_of 14 _ eq_refl).
  reflexivity.
Qed.

(** C3 (amended): the freshly initialised mask is [(1 << 15) - 1], with
    exactly 15 bits set; every request that instantiates a property clears
    exactly the bit of the requested identifier and leaves the others; a
    request for "prototype" stops at the unimplemented marker and never
    instantiates; once each of the 14 other properties has been
    instantiated exactly once, in any order, the mask is 1: only the bit of
    "prototype" is left. *)
Theorem mask_accounting s_pre s0 :
  ecma_builtin_init_object_object s_pre = Returned tt s0 ->
  exists obj_p,
    ecma_object_object_p s0 = Some obj_p /\
    ecma_builtin_object_property_number = 15 /\
    uint32_sub (uint32_shl 1 ecma_builtin_object_property_number) 1
    = 2 ^ 15 - 1 /\
    non_instantiated_mask s0 = Some (2 ^ 15 - 1) /\
    popcount32 (2 ^ 15 - 1) = 15%nat /\
    (forall s name prop_p s',
       try_to_instantiate obj_p name s = Returned (Some prop_p) s' ->
       exists id (index : nat) m,
         ecma_is_string_magic name = Some id /\
         ecma_builtin_object_property_names !! index = Some id /\
         non_instantiated_mask s = Some m /\
         Z.testbit m (Z.of_nat index) = true /\
         non_instantiated_mask s'
         = Some (Z.land m (uint32_not (uint32_shl 1 (Z.of_nat index)))) /\
         (forall j, 0 <= j < 32 ->
            Z.testbit (Z.land m (uint32_not (uint32_shl 1 (Z.of_nat index)))) j
            = Z.testbit m j && negb (Z.of_nat index =? j)) /\
         S (popcount32 (Z.land m (uint32_not (uint32_shl 1 (Z.of_nat index)))))
         = popcount32 m) /\
    try_to_instantiate obj_p (magic ECMA_MAGIC_STRING_PROTOTYPE) s0
    = Fatal (ERR_UNIMPLEMENTED
               "ecma_builtin_object_try_to_instantiate_property" []) /\
    (forall s r s',
       try_to_instantiate obj_p (magic ECMA_MAGIC_STRING_PROTOTYPE) s
       = Returned r s' -> r = None /\ s' = s) /\
    (forall l,
       Permutation l instantiable_property_names ->
       exists s',
         instantiate_all magic_string_id_value obj_p
           (List.map ECMA_STRING_CONTAINER_MAGIC_STRING l) s0
         = Returned
             (List.map (fun id => Some (obj_p, KEY_NAMED (magic id))) l) s' /\
         non_instantiated_mask s' = Some 1) /\
    ecma_builtin_object_property_names !! 0%nat
    = Some ECMA_MAGIC_STRING_PROTOTYPE /\
    Z.testbit 1 0 = true /\
    popcount32 1 = 1%nat.
Proof.
  intros Hinit.
  apply init_object_object_returned in Hinit as [Hnull ->].
  fold (initialized_state s_pre).
  assert (Hheap : heap (initialized_state s_pre) !! length (heap s_pre)
                  = Some initial_object_object).
  { cbn [heap initialized_state]. now apply list_lookup_middle. }
  exists (length (heap s_pre)).
  split; [reflexivity |]. split; [reflexivity |]. split; [reflexivity |].
  split; [apply initialized_state_mask |]. split; [reflexivity |].
  split.
  { intros s name prop_p s' Hrun.
    apply instantiate_returned_inv in Hrun
      as (Hobj & o & Hheap' & Hnew & [[Hr _] | Hdone]); [discriminate |].
    destruct Hdone as (id & id' & m & Hmagic & Hfound & Hmask & Hbit & _ & Hs').
    cbv zeta in Hs'.
    assert (Hin : In id instantiable_property_names).
    { apply instantiable_names_in_table. tauto. }
    destruct (instantiable_names_position id Hin) as (k & Hk & Hrange).
    pose proof (index_of k id Hk) as Hindex. rewrite Hindex in *.
    exists id, k, m.
    split; [exact Hmagic |]. split; [exact Hk |].
    split; [apply non_instantiated_mask_Some; eauto 10 |].
    split; [exact Hbit |].
    split.
    { destruct Hs' as [[_ ->] | [_ ->]];
        eapply instantiated_state_mask; eassumption. }
    split.
    { intros j Hj. rewrite clear_bit_testbit by lia.
      rewrite (proj2 (Z.ltb_lt j 32)) by lia. now rewrite andb_true_r. }
    apply clear_bit_popcount; [lia | exact Hbit]. }
  split.
  { exact (fresh_object_request magic_string_id_value names_ascending
             s_pre 0 ECMA_MAGIC_STRING_PROTOTYPE eq_refl). }
  split.
  { intros s r s' Hrun.
    apply instantiate_returned_inv in Hrun
      as (_ & o & _ & _ & [Hnone | Hdone]); [exact Hnone |].
    destruct Hdone as (id & id' & m & [= <-] & _ & _ & _ & _ & Hs').
    cbv zeta in Hs'. cbn [property_kind] in Hs'.
    destruct Hs' as [[Hkind _] | [Hkind _]]; discriminate. }
  split; [| repeat split].
  intros l Hperm.
  destruct (instantiate_all_run (length (heap s_pre)) l
              (initialized_state s_pre) initial_object_object
              ECMA_INTERNAL_PROPERTY_NON_INSTANTIATED_BUILT_IN_MASK_0_31
              (2 ^ 15 - 1)) as (s' & Hrun & Hmask').
  - reflexivity.
  - exact Hheap.
  - reflexivity.
  - rewrite Hperm. exact instantiable_names_NoDup.
  - intros id Hin. apply list_elem_of_In. rewrite <- Hperm.
    now apply list_elem_of_In.
  - intros id _. reflexivity.
  - intros id Hin.
    assert (Hin' : In id instantiable_property_names).
    { apply list_elem_of_In. rewrite <- Hperm. now apply list_elem_of_In. }
    destruct (instantiable_names_position id Hin') as (k & Hk & Hrange).
    rewrite (index_of k id Hk), all_pending_mask_testbit by lia.
    apply Z.ltb_lt. lia.
  - exists s'. split; [exact Hrun |]. rewrite Hmask'. f_equal.
    rewrite (clear_bits_permutation _ _
               (Permutation_map (fun id => table_index id) Hperm)).
    rewrite instantiable_indices. reflexivity.
Qed.

End MaskAccounting.

Lemma mask_accounting_witness :
  exists s',
    instantiate_all table_order_value 0%nat
      (List.map ECMA_STRING_CONTAINER_MAGIC_STRING instantiable_property_names)
      (initialized_state empty_engine_state)
    = Returned
        (List.map
           (fun id => Some (0%nat, KEY_NAMED (ECMA_STRING_CONTAINER_MAGIC_STRING id)))
           instantiable_property_names)
        s' /\
    non_instantiated_mask s' = Some 1.
Proof.
  destruct (mask_accounting table_order_value table_order_value_ascending
              empty_engine_state (initialized_state empty_engine_state))
    as (obj_p & Hobj & _ & _ & _ & _ & _ & _ & _ & Hall & _).
  - reflexivity.
  - injection Hobj as <-.
    exact (Hall instantiable_property_names (Permutation_refl _)).
Defined.

(** C3, as stated, fails: the run of requests that would instantiate all 15
    properties of the table, here in table order on the freshly initialised
    object, stops at the unimplemented marker of "prototype"; it does not
    return, and no state with an all-clear mask is reached. *)
Lemma all_fifteen_instantiated_counterexample :
  ecma_builtin_init_object_object empty_engine_state
  = Returned tt (initialized_state empty_engine_state) /\
  instantiate_all table_order_value 0%nat
    (List.map ECMA_STRING_CONTAINER_MAGIC_STRING ecma_builtin_object_property_names)
    (initialized_state empty_engine_state)
  = Fatal (ERR_UNIMPLEMENTED
             "ecma_builtin_object_try_to_instantiate_property" []) /\
  ~ (exists props s',
       instantiate_all table_order_value 0%nat
         (List.map ECMA_STRING_CONTAINER_MAGIC_STRING
                   ecma_builtin_object_property_names)
         (initialized_state empty_engine_state)
       = Returned props s' /\
       non_instantiated_mask s' = Some 0).
Proof.
  split; [reflexivity |]. split; [reflexivity |].
  intros (props & s' & Hrun & _). discriminate Hrun.
Qed.

(** ** Requests that instantiate nothing *)

Lemma lookup_miss_inv s obj_p name :
  ecma_find_named_property obj_p name s = Returned None s ->
  exists o,
    heap s !! obj_p = Some o /\
    find_property (KEY_NAMED name) (properties o) = None.
Proof.
  intros Hmiss.
  destruct (heap s !! obj_p) as [o |] eqn:Hheap.
  - exists o. split; [reflexivity |].
    rewrite (ecma_find_named_property_run _ _ _ _ Hheap) in Hmiss.
    destruct (find_property (KEY_NAMED name) (properties o));
      [discriminate | reflexivity].
  - exfalso. revert Hmiss.
    unfold ecma_find_named_property, bind, ecma_get_object.
    rewrite Hheap. discriminate.
Qed.

Section SecondRequest.

Variable magic_string_id_value : ecma_magic_string_id_t -> Z.

Abbreviation table_index id :=
  (ecma_builtin_bin_search_for_magic_string_id_in_array
     magic_string_id_value
     ecma_builtin_object_property_names
     ecma_builtin_object_property_number id).

Abbreviation try_to_instantiate :=
  (ecma_builtin_object_try_to_instantiate_property magic_string_id_value).

Abbreviation magic id := (ECMA_STRING_CONTAINER_MAGIC_STRING id).

Abbreviation mask_key :=
  (KEY_INTERNAL ECMA_INTERNAL_PROPERTY_NON_INSTANTIATED_BUILT_IN_MASK_0_31).

(** What the state is like after a request has instantiated a property. *)
Lemma instantiated_inv s obj_p name prop_p s' :
  try_to_instantiate obj_p name s = Returned (Some prop_p) s' ->
  exists id id' o' w,
    ecma_is_string_magic name = Some id /\
    table_index id <> -1 /\
    ecma_object_object_p s' = Some obj_p /\
    heap s' !! obj_p = Some o' /\
    find_property mask_key (properties o')
    = Some (ECMA_PROPERTY_INTERNAL id' (INTERNAL_UINT32 w)) /\
    is_Some (find_property (KEY_NAMED name) (properties o')) /\
    Z.testbit w (table_index id) = false.
Proof.
  intros Hrun.
  apply instantiate_returned_inv in Hrun
    as (Hobj & o & Hheap & Hnew & [[Hr _] | Hdone]); [discriminate |].
  destruct Hdone as (id & id' & m & Hmagic & Hfound & Hmask & Hbit & _ & Hs').
  cbv zeta in Hs'.
  pose proof (table_index_bit_position magic_string_id_value id Hfound) as Hpos.
  destruct Hs' as [[_ ->] | [_ ->]].
  all: exists id, id'.
  all: eexists _, (Z.land m (uint32_not (uint32_shl 1 (table_index id)))).
  all: split; [exact Hmagic |].
  all: split; [exact Hfound |].
  all: split; [exact Hobj |].
  all: split; [now apply instantiated_state_object |].
  all: split;
    [ cbn [properties with_properties]; unfold find_property;
      cbn [List.find property_key];
      rewrite bool_decide_eq_false_2 by discriminate;
      exact (find_property_with_mask _ m id' _ Hmask) |].
  all: split;
    [ cbn [properties with_properties]; unfold find_property;
      cbn [List.find property_key];
      rewrite bool_decide_eq_true_2 by reflexivity; eauto |].
  all: rewrite clear_bit_testbit by lia.
  all: rewrite Z.eqb_refl; apply andb_false_r.
Qed.

(** The entry assertion stops a request for a name that the object
    already has. *)
Lemma instantiate_attached_run s obj_p o name :
  ecma_object_object_p s = Some obj_p ->
  heap s !! obj_p = Some o ->
  is_Some (find_property (KEY_NAMED name) (properties o)) ->
  try_to_instantiate obj_p name s = Fatal ERR_FAILED_ASSERTION.
Proof.
  intros Hobj Hheap [q Hq].
  rewrite try_to_instantiate_outcome. unfold instantiation_outcome.
  now rewrite Hobj, (bool_decide_eq_true_2 _ eq_refl), Hheap, Hq.
Qed.


End SecondRequest.

Section AbsentNames.

Variable magic_string_id_value : ecma_magic_string_id_t -> Z.

(** Distinct enumerators of [ecma_magic_string_id_t] have distinct
    values. *)
Hypothesis value_injective :
  forall a b, magic_string_id_value a = magic_string_id_value b -> a = b.

(** C6: a request for a name that is no magic string, or whose identifier
    is absent from the table of the Object object, returns NULL and leaves
    the state as it is, with the same mask and the same property list: so
    it is on the freshly initialised object, and in every state in which
    the ordinary lookup of the name misses; and whenever such a request
    returns at all, it returns NULL and the state it was given. *)
Theorem absent_name_reports_not_found name :
  (ecma_is_string_magic name = None \/
   exists id,
     ecma_is_string_magic name = Some id /\
     ~ In id ecma_builtin_object_property_names) ->
  (forall s_pre s0,
     ecma_builtin_init_object_object s_pre = Returned tt s0 ->
     exists obj_p,
       ecma_object_object_p s0 = Some obj_p /\
       ecma_builtin_object_try_to_instantiate_property
         magic_string_id_value obj_p name s0
       = Returned None s0) /\
  (forall s obj_p,
     ecma_object_object_p s = Some obj_p ->
     ecma_find_named_property obj_p name s = Returned None s ->
     ecma_builtin_object_try_to_instantiate_property
       magic_string_id_value obj_p name s
     = Returned None s) /\
  (forall s obj_p r s',
     ecma_builtin_object_try_to_instantiate_property
       magic_string_id_value obj_p name s
     = Returned r s' ->
     r = None /\
     s' = s /\
     non_instantiated_mask s' = non_instantiated_mask s /\
     object_object_properties s' = object_object_properties s).
Proof.
  intros Habsent.
  assert (Hgeneral :
            forall s obj_p,
              ecma_object_object_p s = Some obj_p ->
              ecma_find_named_property obj_p name s = Returned None s ->
              ecma_builtin_object_try_to_instantiate_property
                magic_string_id_value obj_p name s
              = Returned None s).
  { intros s obj_p Hobj Hmiss.
    destruct (lookup_miss_inv s obj_p name Hmiss) as (o & Hheap & Hnew).
    apply (instantiate_nothing_run magic_string_id_value s obj_p o);
      try assumption.
    destruct Habsent as [Hnone | (id & Hmagic & Hout)]; [now left |].
    right. left. exists id. split; [exact Hmagic |].
    exact (bin_search_absent magic_string_id_value
             ecma_builtin_object_property_names id value_injective Hout). }
  split; [| split; [exact Hgeneral |]].
  - intros s_pre s0 Hinit.
    apply init_object_object_returned in Hinit as [_ ->].
    fold (initialized_state s_pre).
    exists (length (heap s_pre)). split; [reflexivity |].
    apply Hgeneral; [reflexivity |].
    erewrite ecma_find_named_property_run
      by (cbn [heap initialized_state]; now apply list_lookup_middle).
    reflexivity.
  - intros s obj_p r s' Hrun.
    apply instantiate_returned_inv in Hrun
      as (_ & o & _ & _ & [[-> ->] | Hdone]); [auto |].
    exfalso.
    destruct Hdone as (id & _ & _ & Hmagic & Hfound & _).
    destruct Habsent as [Hnone | (id0 & Hmagic0 & Hout)]; [congruence |].
    rewrite Hmagic in Hmagic0. injection Hmagic0 as <-.
    apply Hfound.
    exact (bin_search_absent magic_string_id_value
             ecma_builtin_object_property_names id value_injective Hout).
Qed.

End AbsentNames.

(** ** The size of the table and the width of the mask *)

(** C8: the table has 15 entries, fewer than the 32 bits of the mask, as
    the build-time assertion checks; the initial mask [(1u << 15) - 1] is
    computed without wrap-around in 32 bits; every answer of the table
    search other than -1 is a bit position below 32. *)
Theorem property_number_fits_mask :
  ecma_builtin_object_property_number = 15 /\
  mask_bit_width = 32 /\
  static_assert_property_number_fits_mask = true /\
  ecma_builtin_object_property_number < mask_bit_width /\
  0 <= Z.shiftl 1 ecma_builtin_object_property_number < uint32_modulus /\
  uint32_shl 1 ecma_builtin_object_property_number
  = Z.shiftl 1 ecma_builtin_object_property_number /\
  0 <= Z.shiftl 1 ecma_builtin_object_property_number - 1 < uint32_modulus /\
  uint32_sub (uint32_shl 1 ecma_builtin_object_property_number) 1
  = Z.shiftl 1 ecma_builtin_object_property_number - 1 /\
  Z.shiftl 1 ecma_builtin_object_property_number - 1 = 2 ^ 15 - 1 /\
  (exists s0,
     ecma_builtin_init_object_object empty_engine_state = Returned tt s0 /\
     non_instantiated_mask s0
     = Some (Z.shiftl 1 ecma_builtin_object_property_number - 1)) /\
  (forall magic_string_id_value id,
     let index :=
       ecma_builtin_bin_search_for_magic_string_id_in_array
         magic_string_id_value
         ecma_builtin_object_property_names
         ecma_builtin_object_property_number id in
     index = -1 \/
     (0 <= index < ecma_builtin_object_property_number /\
      index < mask_bit_width /\
      (index >=? 0) && (index <? mask_bit_width) = true /\
      0 <= Z.shiftl 1 index < uint32_modulus /\
      uint32_shl 1 index = Z.shiftl 1 index)).
Proof.
  repeat (split; [reflexivity || (vm_compute; intuition discriminate) |]).
  split.
  { exists (initialized_state empty_engine_state). split; reflexivity. }
  intros value id index. subst index.
  destruct (table_index_range value id) as [Habsent | Hrange]; [now left |].
  right. split; [exact Hrange |].
  pose proof (eq_refl : ecma_builtin_object_property_number = 15) as HN.
  pose proof (eq_refl : mask_bit_width = 32) as HW.
  split; [lia |].
  split.
  { apply table_index_assert. lia. }
  rewrite uint32_shl_1 by lia. rewrite Z.shiftl_1_l.
  split; [| reflexivity].
  unfold uint32_modulus. split.
  - apply Z.pow_nonneg. lia.
  - apply Z.pow_lt_mono_r; lia.
Qed.

(** ** The theorems at work on the freshly initialised engine *)

Lemma fresh_object_instantiates_routine_witness :
  exists (index : nat) prop_p value s',
    ecma_builtin_object_property_names !! index = Some ECMA_MAGIC_STRING_KEYS /\
    ecma_builtin_object_try_to_instantiate_property
      table_order_value 0%nat
      (ECMA_STRING_CONTAINER_MAGIC_STRING ECMA_MAGIC_STRING_KEYS)
      (initialized_state empty_engine_state)
    = Returned (Some prop_p) s' /\
    property_at s' prop_p
    = Some (ECMA_PROPERTY_NAMEDDATA
              (ECMA_STRING_CONTAINER_MAGIC_STRING ECMA_MAGIC_STRING_KEYS) value
              ECMA_PROPERTY_WRITABLE ECMA_PROPERTY_NOT_ENUMERABLE
              ECMA_PROPERTY_CONFIGURABLE) /\
    is_function_object_for_routine
      s' value ECMA_BUILTIN_ID_OBJECT ECMA_MAGIC_STRING_KEYS /\
    non_instantiated_mask s' = Some (2 ^ 15 - 1 - 2 ^ Z.of_nat index) /\
    popcount32 (2 ^ 15 - 1 - 2 ^ Z.of_nat index) = 14%nat.
Proof.
  destruct (fresh_object_instantiates_routine
              table_order_value ltac:(reflexivity)
              empty_engine_state (initialized_state empty_engine_state)
              ECMA_MAGIC_STRING_KEYS)
    as (obj_p & index & prop_p & value & s' & Hobj & _ & _ & _ & Hk & Hrun
        & Hprop & _ & Hfun & _ & _ & Hmask & _ & Hcount).
  - reflexivity.
  - simpl. tauto.
  - injection Hobj as <-. exists index, prop_p, value, s'. auto 10.
Defined.

Lemma fresh_object_instantiates_length_witness :
  exists prop_p s',
    ecma_builtin_object_try_to_instantiate_property
      table_order_value 0%nat
      (ECMA_STRING_CONTAINER_MAGIC_STRING ECMA_MAGIC_STRING_LENGTH)
      (initialized_state empty_engine_state)
    = Returned (Some prop_p) s' /\
    property_at s' prop_p
    = Some (ECMA_PROPERTY_NAMEDDATA
              (ECMA_STRING_CONTAINER_MAGIC_STRING ECMA_MAGIC_STRING_LENGTH)
              (ECMA_TYPE_NUMBER 1%float)
              ECMA_PROPERTY_NOT_WRITABLE ECMA_PROPERTY_NOT_ENUMERABLE
              ECMA_PROPERTY_NOT_CONFIGURABLE) /\
    non_instantiated_mask s' = Some 32765.
Proof.
  destruct (fresh_object_instantiates_length
              table_order_value ltac:(reflexivity)
              empty_engine_state (initialized_state empty_engine_state))
    as (obj_p & prop_p & s' & Hobj & _ & _ & Hrun & Hprop & _ & _ & _ & Hmask & _).
  - reflexivity.
  - injection Hobj as <-. exists prop_p, s'. auto.
Defined.



Lemma absent_name_reports_not_found_witness :
  ecma_builtin_object_try_to_instantiate_property
    table_order_value 0%nat
    (ECMA_STRING_CONTAINER_MAGIC_STRING ECMA_MAGIC_STRING_TO_STRING_UL)
    (initialized_state empty_engine_state)
  = Returned None (initialized_state empty_engine_state) /\
  ecma_builtin_object_try_to_instantiate_property
    table_order_value 0%nat
    (ECMA_STRING_CONTAINER_HEAP "toString")
    (initialized_state empty_engine_state)
  = Returned None (initialized_state empty_engine_state).
Proof.
  split.
  - destruct (absent_name_reports_not_found
                table_order_value table_order_value_injective
                (ECMA_STRING_CONTAINER_MAGIC_STRING ECMA_MAGIC_STRING_TO_STRING_UL))
      as (Hfresh & _ & _).
    + right. exists ECMA_MAGIC_STRING_TO_STRING_UL. split; [reflexivity |].
      simpl. intuition discriminate.
    + destruct (Hfresh empty_engine_state (initialized_state empty_engine_state)
                  eq_refl) as (obj_p & Hobj & Hrun).
      injection Hobj as <-. exact Hrun.
  - destruct (absent_name_reports_not_found
                table_order_value table_order_value_injective
                (ECMA_STRING_CONTAINER_HEAP "toString"))
      as (Hfresh & _ & _).
    + left. reflexivity.
    + destruct (Hfresh empty_engine_state (initialized_state empty_engine_state)
                  eq_refl) as (obj_p & Hobj & Hrun).
      injection Hobj as <-. exact Hrun.
Defined.

(** * Further properties of the Object built-in *)

(** ** The dispatcher under any announced argument count *)

Lemma announced_argument_run (args : list ecma_value_t) (n : Z) (k : nat) (z : Z) s :
  z = Z.of_nat (S k) ->
  (if n >=? z
   then array_read args k
   else ret (ecma_make_simple_value ECMA_SIMPLE_VALUE_UNDEFINED)) s
  = match announced_argument args n k with
    | Some v => Returned v s
    | None => Undefined_behaviour
    end.
Proof.
  intros ->. unfold announced_argument, array_read.
  destruct (n >=? Z.of_nat (S k)); [| reflexivity].
  destruct (args !! k); reflexivity.
Qed.

Lemma announced_argument_present (args : list ecma_value_t) (n : Z) (k : nat) :
  Z.of_nat (S k) <= n -> announced_argument args n k = args !! k.
Proof.
  intros H. unfold announced_argument. now rewrite geb_true_of_le.
Qed.

Ltac run_announced :=
  unfold ecma_builtin_object_dispatch_routine, bind.

(** X1: the dispatcher reads [arguments_list] only at the positions below
    [arguments_number]: two lists that agree there give the same call. *)
Theorem dispatch_reads_only_announced_arguments
    id (arguments_list arguments_list' : list ecma_value_t)
    (arguments_number : Z) s :
  (forall k : nat,
     Z.of_nat k < arguments_number ->
     arguments_list !! k = arguments_list' !! k) ->
  ecma_builtin_object_dispatch_routine id arguments_list arguments_number s
  = ecma_builtin_object_dispatch_routine id arguments_list' arguments_number s.
Proof.
  intros Hagree.
  assert (H : forall k,
             announced_argument arguments_list arguments_number k
             = announced_argument arguments_list' arguments_number k).
  { intros k. unfold announced_argument.
    rewrite Z.geb_leb.
    destruct (Z.leb_spec (Z.of_nat (S k)) arguments_number); [| reflexivity].
    apply Hagree. lia. }
  destruct id; try reflexivity; run_announced;
    repeat (rewrite !announced_argument_run by reflexivity;
            rewrite ?H;
            match goal with
            | |- context [announced_argument ?a ?n ?k] =>
                destruct (announced_argument a n k)
            end;
            cbv beta iota;
            try reflexivity).
Qed.

Lemma dispatch_reads_only_announced_arguments_witness :
  ecma_builtin_object_dispatch_routine
    ECMA_MAGIC_STRING_CREATE
    [ECMA_TYPE_SIMPLE ECMA_SIMPLE_VALUE_NULL;
     ECMA_TYPE_SIMPLE ECMA_SIMPLE_VALUE_TRUE] 1 empty_engine_state
  = ecma_builtin_object_dispatch_routine
      ECMA_MAGIC_STRING_CREATE
      [ECMA_TYPE_SIMPLE ECMA_SIMPLE_VALUE_NULL] 1 empty_engine_state.
Proof.
  apply dispatch_reads_only_announced_arguments.
  intros k Hk. destruct k as [| k]; [reflexivity | lia].
Defined.

(** X2: arguments beyond the routine's number of parameters are ignored:
    a call with at least that many arguments is the call with exactly the
    first ones. *)
Theorem dispatch_ignores_surplus_arguments
    id (number : Z) (arguments_list : list ecma_value_t) s :
  ecma_builtin_object_get_routine_parameters_number id s = Returned number s ->
  number <= Z.of_nat (length arguments_list) ->
  ecma_builtin_object_dispatch_routine
    id arguments_list (Z.of_nat (length arguments_list)) s
  = ecma_builtin_object_dispatch_routine
      id (take (Z.to_nat number) arguments_list) number s.
Proof.
  intros Hnumber Hle.
  destruct id; try discriminate;
    injection Hnumber as <-;
    run_announced;
    repeat (rewrite !announced_argument_run by reflexivity;
            rewrite !announced_argument_present by (cbn; lia);
            rewrite ?lookup_take_lt by (cbn; lia);
            match goal with
            | |- context [arguments_list !! ?k] =>
                destruct (arguments_list !! k)
            end;
            cbv beta iota;
            try reflexivity).
Qed.

Lemma dispatch_ignores_surplus_arguments_witness :
  ecma_builtin_object_dispatch_routine
    ECMA_MAGIC_STRING_KEYS
    [ECMA_TYPE_SIMPLE ECMA_SIMPLE_VALUE_NULL;
     ECMA_TYPE_SIMPLE ECMA_SIMPLE_VALUE_TRUE] 2 empty_engine_state
  = ecma_builtin_object_dispatch_routine
      ECMA_MAGIC_STRING_KEYS
      [ECMA_TYPE_SIMPLE ECMA_SIMPLE_VALUE_NULL] 1 empty_engine_state.
Proof.
  apply (dispatch_ignores_surplus_arguments
           ECMA_MAGIC_STRING_KEYS 1
           [ECMA_TYPE_SIMPLE ECMA_SIMPLE_VALUE_NULL;
            ECMA_TYPE_SIMPLE ECMA_SIMPLE_VALUE_TRUE] empty_engine_state).
  - reflexivity.
  - simpl. lia.
Defined.

(** X3: the dispatcher reads outside [arguments_list] exactly when the
    caller announces more arguments than the list holds and the routine has
    a parameter at the first missing position. *)
Theorem dispatch_reads_outside_short_list
    id (arguments_list : list ecma_value_t) (arguments_number : Z) s :
  ecma_builtin_object_dispatch_routine id arguments_list arguments_number s
  = Undefined_behaviour
  <-> exists number,
        ecma_builtin_object_get_routine_parameters_number id s
        = Returned number s /\
        Z.of_nat (length arguments_list) < arguments_number /\
        Z.of_nat (length arguments_list) < number.
Proof.
  destruct id;
    try (split; [discriminate | intros (number & H & _); discriminate]);
    run_announced; unfold array_read, ret, undefined_behaviour;
    rewrite !Z.geb_leb;
    destruct arguments_list as [| a1 [| a2 [| a3 rest]]];
    cbn [lookup list_lookup length];
    repeat match goal with
           | |- context [?a <=? ?b] => destruct (Z.leb_spec a b)
           end;
    (split;
     [ intros Hread;
       first [discriminate | eexists; split; [reflexivity | lia]]
     | intros (number & Hnumber & Hshort & Hparameter);
       injection Hnumber as <-; try reflexivity; exfalso; lia ]).
Qed.

(** X4: the parameters-number function and the dispatcher have the same
    domain: the first reaches its unreachable default for exactly the
    identifiers for which the second reaches its own, the identifiers that
    are not one of the thirteen routines; for a routine it returns 1, 2 or 3
    and leaves the state as it is. *)
Theorem parameters_number_and_dispatcher_share_domain id s :
  (ecma_builtin_object_get_routine_parameters_number id s = Fatal ERR_UNREACHABLE
   <-> forall arguments_list arguments_number,
         ecma_builtin_object_dispatch_routine id arguments_list arguments_number s
         = Fatal ERR_UNREACHABLE) /\
  (ecma_builtin_object_get_routine_parameters_number id s = Fatal ERR_UNREACHABLE
   <-> ~ In id ecma_builtin_object_routine_ids) /\
  (In id ecma_builtin_object_routine_ids
   <-> exists number,
         ecma_builtin_object_get_routine_parameters_number id s
         = Returned number s /\ 1 <= number <= 3).
Proof.
  destruct id; cbn [ecma_builtin_object_get_routine_parameters_number];
    unfold ret, JERRY_UNREACHABLE, fatal;
    (split; [| split]);
    try (split; [reflexivity | discriminate]);
    try (split; [discriminate | intros H; specialize (H [] 0); discriminate]);
    try (split; [intros _; reflexivity | reflexivity]);
    try (split; [discriminate | intros H; exfalso; apply H; cbn; tauto]);
    try (split; [intros _; cbn; intuition discriminate | reflexivity]);
    try (split; [intros _; eexists; split; [reflexivity | lia] | intros _; cbn; tauto]);
    try (split; [cbn; intuition discriminate | intros (n & H & _); discriminate]).
Qed.

(** ** What a request leaves untouched *)

Lemma instantiated_state_other s obj_p o w prop fresh p :
  p <> obj_p -> (p < length (heap s))%nat ->
  heap (instantiated_state s obj_p o w prop fresh) !! p = heap s !! p.
Proof.
  intros Hne Hlt. unfold instantiated_state. cbn [heap with_heap].
  rewrite list_lookup_insert_ne by congruence.
  now apply lookup_app_l.
Qed.

Lemma instantiated_state_length s obj_p o w prop fresh :
  length (heap (instantiated_state s obj_p o w prop fresh))
  = (length (heap s) + length fresh)%nat.
Proof.
  unfold instantiated_state. cbn [heap with_heap].
  now rewrite length_insert, length_app.
Qed.

Lemma find_property_attached key name value wr en co w props :
  key <> KEY_INTERNAL ECMA_INTERNAL_PROPERTY_NON_INSTANTIATED_BUILT_IN_MASK_0_31 ->
  key <> KEY_NAMED name ->
  find_property key
    (ECMA_PROPERTY_NAMEDDATA name value wr en co :: with_mask w props)
  = find_property key props.
Proof.
  intros Hmask Hname. unfold find_property. cbn [List.find property_key].
  rewrite bool_decide_eq_false_2 by congruence.
  now apply find_property_with_mask_other.
Qed.

Section RequestEffects.

Variable magic_string_id_value : ecma_magic_string_id_t -> Z.

Abbreviation table_index id :=
  (ecma_builtin_bin_search_for_magic_string_id_in_array
     magic_string_id_value
     ecma_builtin_object_property_names
     ecma_builtin_object_property_number id).

Abbreviation try_to_instantiate :=
  (ecma_builtin_object_try_to_instantiate_property magic_string_id_value).

Abbreviation mask_key :=
  (KEY_INTERNAL ECMA_INTERNAL_PROPERTY_NON_INSTANTIATED_BUILT_IN_MASK_0_31).


(** X6: a request never sets a bit of the mask, and the mask changes
    exactly when the request returns a property. *)
Theorem request_never_sets_a_bit s obj_p name r s' bit_mask :
  try_to_instantiate obj_p name s = Returned r s' ->
  non_instantiated_mask s = Some bit_mask ->
  exists bit_mask',
    non_instantiated_mask s' = Some bit_mask' /\
    (forall j, 0 <= j ->
               Z.testbit bit_mask' j = true -> Z.testbit bit_mask j = true) /\
    (r = None <-> bit_mask' = bit_mask).
Proof.
  intros Hrun Hmask0.
  apply instantiate_returned_inv in Hrun
    as (Hobj & o & Hheap & Hnew & [[-> ->] | Hdone]).
  - exists bit_mask. split; [exact Hmask0 |]. split; [auto | tauto].
  - destruct Hdone as (id & id' & m & _ & Hfound & Hmask & Hbit & -> & Hs').
    cbv zeta in Hs'.
    pose proof (table_index_bit_position magic_string_id_value id Hfound) as Hpos.
    assert (Hm : bit_mask = m).
    { apply non_instantiated_mask_Some in Hmask0
        as (obj_p0 & o0 & id0 & Hobj0 & Hheap0 & Hmask0).
      congruence. }
    subst m.
    exists (Z.land bit_mask (uint32_not (uint32_shl 1 (table_index id)))).
    split; [| split].
    + destruct Hs' as [[_ ->] | [_ ->]];
        exact (instantiated_state_mask _ _ _ _ _ _ _ _ _ _ _ _ Hobj Hheap Hmask).
    + intros j Hj. rewrite clear_bit_testbit by lia.
      intros H. now apply andb_prop in H as [H%andb_prop _].
    + split; [discriminate |]. intros Heq. exfalso.
      assert (H : Z.testbit
                    (Z.land bit_mask (uint32_not (uint32_shl 1 (table_index id))))
                    (table_index id) = false).
      { rewrite clear_bit_testbit by lia. rewrite Z.eqb_refl. apply andb_false_r. }
      rewrite Heq in H. congruence.
Qed.

(** X7: a property that a request returns is a named data property of the
    requested name on the Object object, never enumerable and never holding
    Empty; it is either writable and configurable with a Function object
    that did not exist before as its value, or neither with the Number 1;
    and the ordinary lookup of the name finds it from then on. *)
Theorem returned_property_shape s obj_p name prop_p s' :
  try_to_instantiate obj_p name s = Returned (Some prop_p) s' ->
  prop_p = (obj_p, KEY_NAMED name) /\
  ecma_find_named_property obj_p name s' = Returned (Some prop_p) s' /\
  exists value writable configurable,
    property_at s' prop_p
    = Some (ECMA_PROPERTY_NAMEDDATA name value writable
              ECMA_PROPERTY_NOT_ENUMERABLE configurable) /\
    value <> ECMA_TYPE_SIMPLE ECMA_SIMPLE_VALUE_EMPTY /\
    ((writable = ECMA_PROPERTY_WRITABLE /\
      configurable = ECMA_PROPERTY_CONFIGURABLE /\
      exists func_obj_p id,
        value = ECMA_TYPE_OBJECT func_obj_p /\
        heap s !! func_obj_p = None /\
        name = ECMA_STRING_CONTAINER_MAGIC_STRING id /\
        heap s' !! func_obj_p
        = Some (function_object_for_routine ECMA_BUILTIN_ID_OBJECT id)) \/
     (writable = ECMA_PROPERTY_NOT_WRITABLE /\
      configurable = ECMA_PROPERTY_NOT_CONFIGURABLE /\
      value = ECMA_TYPE_NUMBER ECMA_NUMBER_ONE)).
Proof.
  intros Hrun.
  apply instantiate_returned_inv in Hrun
    as (Hobj & o & Hheap & Hnew & [[Hr _] | Hdone]); [discriminate |].
  destruct Hdone as (id & id' & m & Hmagic & _ & _ & _ & [= ->] & Hs').
  cbv zeta in Hs'.
  assert (Hname : name = ECMA_STRING_CONTAINER_MAGIC_STRING id).
  { destruct name; cbn in Hmagic; congruence. }
  split; [reflexivity |].
  destruct Hs' as [[_ ->] | [_ ->]].
  all: split;
    [ erewrite ecma_find_named_property_run
        by (now apply instantiated_state_object);
      cbn [properties with_properties]; unfold find_property;
      cbn [List.find property_key];
      rewrite (bool_decide_eq_true_2 _ eq_refl); reflexivity |].
  all: eexists _, _, _.
  all: split; [now apply instantiated_state_property_at |].
  all: split; [discriminate |].
  - left. split; [reflexivity |]. split; [reflexivity |].
    exists (length (heap s)), id.
    split; [reflexivity |].
    split; [apply lookup_ge_None; lia |].
    split; [exact Hname |].
    now apply instantiated_state_fresh with (f := function_object_for_routine _ _).
  - right. auto.
Qed.

(** X8: when the value of a returned property is an object, it is the
    Function object of a routine that the dispatcher knows: the parameters
    number of the routine is defined, and a call of the dispatcher with its
    identifier reaches the routine's handler, which receives that many
    arguments. *)
Theorem returned_function_object_is_dispatchable
    s obj_p name prop_p s' name' func_obj_p writable enumerable configurable :
  try_to_instantiate obj_p name s = Returned (Some prop_p) s' ->
  property_at s' prop_p
  = Some (ECMA_PROPERTY_NAMEDDATA name' (ECMA_TYPE_OBJECT func_obj_p)
            writable enumerable configurable) ->
  exists id func number,
    name = ECMA_STRING_CONTAINER_MAGIC_STRING id /\
    heap s' !! func_obj_p
    = Some (function_object_for_routine ECMA_BUILTIN_ID_OBJECT id) /\
    routine_handler_name id = Some func /\
    ecma_builtin_object_get_routine_parameters_number id s'
    = Returned number s' /\
    forall arguments_list : list ecma_value_t,
      exists vars,
        ecma_builtin_object_dispatch_routine
          id arguments_list (Z.of_nat (length arguments_list)) s'
        = Fatal (ERR_UNIMPLEMENTED func vars) /\
        Z.of_nat (length vars) = number.
Proof.
  intros Hrun Hat.
  apply instantiate_returned_inv in Hrun
    as (Hobj & o & Hheap & Hnew & [[Hr _] | Hdone]); [discriminate |].
  destruct Hdone as (id & id' & m & Hmagic & _ & _ & _ & [= ->] & Hs').
  cbv zeta in Hs'.
  assert (Hname : name = ECMA_STRING_CONTAINER_MAGIC_STRING id).
  { destruct name; cbn in Hmagic; congruence. }
  destruct Hs' as [[Hkind ->] | [_ ->]];
    rewrite (instantiated_state_property_at _ _ _ _ _ _ _ _ _ _ Hheap) in Hat;
    [| discriminate].
  injection Hat as _ <- _ _.
  apply routine_ids_kind, routine_ids_have_handlers in Hkind as [func Hfunc].
  match goal with
  | |- context [heap ?st !! _] => set (s1 := st)
  end.
  destruct (dispatch_routine_run id func [] s1 Hfunc) as (k & Hk & _).
  exists id, func, (Z.of_nat k).
  split; [exact Hname |].
  split; [now apply instantiated_state_fresh with (f := function_object_for_routine _ _) |].
  split; [exact Hfunc |].
  split; [exact Hk |].
  intros arguments_list.
  destruct (dispatch_routine_run id func arguments_list s1 Hfunc) as (k' & Hk' & Hrun).
  assert (k' = k) as -> by (rewrite Hk in Hk'; injection Hk'; lia).
  eexists. split; [exact Hrun |].
  now rewrite length_map, length_seq.
Qed.

(** X9: a request stops at an assertion exactly when the object is not the
    Object object, when the name is already attached to it, or when the
    name is in the table and the object has lost its mask. *)
Theorem request_assertion_failures s obj_p name :
  try_to_instantiate obj_p name s = Fatal ERR_FAILED_ASSERTION
  <-> ecma_object_object_p s <> Some obj_p \/
      exists o,
        heap s !! obj_p = Some o /\
        (find_property (KEY_NAMED name) (properties o) <> None \/
         (find_property (KEY_NAMED name) (properties o) = None /\
          find_property mask_key (properties o) = None /\
          exists id,
            ecma_is_string_magic name = Some id /\ table_index id <> -1)).
Proof.
  rewrite try_to_instantiate_outcome. unfold instantiation_outcome.
  case_bool_decide as Hobj.
  2: { split; [intros _; left; congruence | reflexivity]. }
  destruct (heap s !! obj_p) as [o |] eqn:Hheap.
  2: { split; [discriminate |].
       intros [H | (o & Ho & _)]; [congruence | discriminate]. }
  destruct (find_property (KEY_NAMED name) (properties o)) eqn:Hnew.
  { split; [| reflexivity]. intros _. right. exists o.
    split; [reflexivity |]. left. rewrite Hnew. discriminate. }
  destruct (ecma_is_string_magic name) as [id |] eqn:Hmagic.
  2: { split; [discriminate |].
       intros [H | (o0 & [= <-] & [H | (_ & _ & id & H & _)])];
         congruence. }
  cbv zeta.
  destruct (Z.eqb_spec (table_index id) (-1)) as [Habsent | Hfound].
  { split; [discriminate |].
    intros [H | (o0 & [= <-] & [H | (_ & _ & id0 & [= <-] & H)])];
      congruence. }
  destruct (find_property mask_key (properties o))
    as [[| | id' [w | | |]] |] eqn:Hmask.
  all: try (split;
            [ discriminate
            | intros [H | (o0 & [= <-] & [H | (_ & H & _)])]; congruence ]).
  - split.
    + intros H. exfalso.
      destruct (Z.land w (uint32_shl 1 (table_index id)) =? 0);
        [discriminate |].
      destruct (property_kind id); discriminate.
    + intros [H | (o0 & [= <-] & [H | (_ & H & _)])]; congruence.
  - split; [| reflexivity]. intros _. right. exists o.
    split; [reflexivity |]. right. eauto.
Qed.

End RequestEffects.

(** ** The mask and the attached properties stay in step *)

Lemma has_named_property_attached o name value wr en co w name' :
  has_named_property
    (with_properties o
       (ECMA_PROPERTY_NAMEDDATA name value wr en co
        :: with_mask w (properties o))) name'
  = if bool_decide (name' = name) then true else has_named_property o name'.
Proof.
  unfold has_named_property. cbn [properties with_properties].
  unfold find_property at 1. cbn [List.find property_key].
  case_bool_decide as Hname.
  - injection Hname as <-. now rewrite (bool_decide_eq_true_2 _ eq_refl).
  - rewrite bool_decide_eq_false_2 by congruence.
    fold (find_property (KEY_NAMED name') (with_mask w (properties o))).
    now rewrite find_property_with_mask_other by discriminate.
Qed.

Lemma pending_bits_track_properties_spec s :
  pending_bits_track_properties s = true <->
  exists obj_p o id' bit_mask,
    ecma_object_object_p s = Some obj_p /\
    heap s !! obj_p = Some o /\
    find_property
      (KEY_INTERNAL ECMA_INTERNAL_PROPERTY_NON_INSTANTIATED_BUILT_IN_MASK_0_31)
      (properties o)
    = Some (ECMA_PROPERTY_INTERNAL id' (INTERNAL_UINT32 bit_mask)) /\
    0 <= bit_mask < 2 ^ 15 /\
    forall (k : nat) id,
      ecma_builtin_object_property_names !! k = Some id ->
      Z.testbit bit_mask (Z.of_nat k)
      = negb (has_named_property o (ECMA_STRING_CONTAINER_MAGIC_STRING id)).
Proof.
  unfold pending_bits_track_properties. split.
  - destruct (ecma_object_object_p s) as [obj_p |] eqn:Hobj; [| discriminate].
    destruct (heap s !! obj_p) as [o |] eqn:Hheap; [| discriminate].
    destruct (non_instantiated_mask s) as [bit_mask |] eqn:Hmask; [| discriminate].
    apply non_instantiated_mask_Some in Hmask
      as (obj_p0 & o0 & id' & Hobj0 & Hheap0 & Hmask).
    assert (obj_p0 = obj_p) as -> by congruence.
    assert (o0 = o) as -> by congruence.
    intros H. apply andb_prop in H as [H Hall].
    apply andb_prop in H as [Hlow Hhigh].
    apply Z.leb_le in Hlow. apply Z.ltb_lt in Hhigh.
    change (2 ^ ecma_builtin_object_property_number) with (2 ^ 15) in Hhigh.
    exists obj_p, o, id', bit_mask. repeat split; try assumption.
    intros k id Hk. rewrite forallb_forall in Hall.
    specialize (Hall (k, id)). cbn [fst snd] in Hall.
    apply Bool.eqb_prop, Hall.
    apply list_elem_of_In, elem_of_lookup_imap. eauto.
  - intros (obj_p & o & id' & bit_mask & Hobj & Hheap & Hmask & [Hlow Hhigh] & Hall).
    rewrite Hobj, Hheap.
    rewrite (proj2 (non_instantiated_mask_Some s bit_mask)) by eauto 10.
    apply andb_true_intro. split.
    + apply andb_true_intro. split; [now apply Z.leb_le |].
      apply Z.ltb_lt. exact Hhigh.
    + apply forallb_forall. intros [k id] Hin. cbn [fst snd].
      apply list_elem_of_In, elem_of_lookup_imap in Hin
        as (k' & id0 & [= -> ->] & Hk).
      rewrite (Hall _ _ Hk). apply Bool.eqb_reflx.
Qed.

Lemma initialized_state_in_step s :
  pending_bits_track_properties (initialized_state s) = true.
Proof.
  apply pending_bits_track_properties_spec.
  exists (length (heap s)), initial_object_object,
    ECMA_INTERNAL_PROPERTY_NON_INSTANTIATED_BUILT_IN_MASK_0_31, (2 ^ 15 - 1).
  split; [reflexivity |].
  split; [cbn [heap initialized_state]; now apply list_lookup_middle |].
  split; [reflexivity |].
  split; [lia |].
  intros k id Hk. apply lookup_lt_Some in Hk.
  change (length ecma_builtin_object_property_names) with 15%nat in Hk.
  rewrite all_pending_mask_testbit by lia.
  cbn. apply Z.ltb_lt. lia.
Qed.

Lemma cleared_mask_range (m i : Z) :
  0 <= m < 2 ^ 15 -> 0 <= i < 32 ->
  0 <= Z.land m (uint32_not (uint32_shl 1 i)) < 2 ^ 15.
Proof.
  intros [Hlow Hhigh] Hi.
  assert (Hnonneg : 0 <= Z.land m (uint32_not (uint32_shl 1 i))).
  { apply Z.land_nonneg. now left. }
  split; [exact Hnonneg |].
  destruct (Z.eq_dec (Z.land m (uint32_not (uint32_shl 1 i))) 0) as [-> | Hne];
    [lia |].
  apply Z.log2_lt_pow2; [lia |].
  destruct (Z.eq_dec m 0) as [-> | Hm]; [now rewrite Z.land_0_l in Hne |].
  assert (Hlog : Z.log2 m < 15) by (apply Z.log2_lt_pow2; lia).
  destruct (Z.lt_ge_cases (Z.log2 (Z.land m (uint32_not (uint32_shl 1 i)))) 15)
    as [Hlt | Hge]; [exact Hlt |].
  exfalso.
  assert (Hbit : Z.testbit (Z.land m (uint32_not (uint32_shl 1 i)))
                           (Z.log2 (Z.land m (uint32_not (uint32_shl 1 i))))
                 = true)
    by (apply Z.bit_log2; lia).
  rewrite Z.land_spec in Hbit. apply andb_prop in Hbit as [Hbit _].
  rewrite Z.bits_above_log2 in Hbit by lia. discriminate.
Qed.

Section MaskInStep.

Variable magic_string_id_value : ecma_magic_string_id_t -> Z.

Hypothesis names_ascending :
  strictly_ascending
    (List.map magic_string_id_value ecma_builtin_object_property_names)
  = true.

Hypothesis value_injective :
  forall a b, magic_string_id_value a = magic_string_id_value b -> a = b.

Abbreviation table_index id :=
  (ecma_builtin_bin_search_for_magic_string_id_in_array
     magic_string_id_value
     ecma_builtin_object_property_names
     ecma_builtin_object_property_number id).

Abbreviation try_to_instantiate :=
  (ecma_builtin_object_try_to_instantiate_property magic_string_id_value).

Abbreviation magic id := (ECMA_STRING_CONTAINER_MAGIC_STRING id).

(** The index that the search reports is the position of the identifier in
    the table. *)
Lemma table_index_position id :
  table_index id <> -1 ->
  exists k : nat,
    table_index id = Z.of_nat k /\
    ecma_builtin_object_property_names !! k = Some id.
Proof.
  intros Hfound.
  destruct (bin_search_result magic_string_id_value
              ecma_builtin_object_property_names id)
    as [H | [Hrange (x & Hx & Hvalue)]]; [contradiction |].
  apply value_injective in Hvalue. subst x.
  exists (Z.to_nat (table_index id)). split; [| exact Hx].
  change (Z.of_nat (length ecma_builtin_object_property_names))
    with ecma_builtin_object_property_number in Hrange.
  lia.
Qed.

(** A request that returns keeps the mask and the properties in step. *)
Lemma request_keeps_in_step s obj_p name r s' :
  pending_bits_track_properties s = true ->
  try_to_instantiate obj_p name s = Returned r s' ->
  pending_bits_track_properties s' = true.
Proof.
  intros Hinv Hrun.
  apply instantiate_returned_inv in Hrun
    as (Hobj & o & Hheap & Hnew & [[_ ->] | Hdone]); [exact Hinv |].
  destruct Hdone as (id & id' & m & Hmagic & Hfound & Hmask & Hbit & _ & Hs').
  cbv zeta in Hs'.
  assert (Hname : name = magic id).
  { destruct name; cbn in Hmagic; congruence. }
  subst name.
  apply pending_bits_track_properties_spec in Hinv
    as (obj_p0 & o0 & id0 & m0 & Hobj0 & Hheap0 & Hmask0 & Hrange & Hall).
  assert (obj_p0 = obj_p) as -> by congruence.
  assert (o0 = o) as -> by congruence.
  assert (m0 = m) as -> by congruence.
  pose proof (table_index_bit_position magic_string_id_value id Hfound) as Hpos.
  destruct (table_index_position id Hfound) as (k0 & Hindex & Hk0).
  assert (Hstate :
            exists value wr en co fresh,
              s' = instantiated_state s obj_p o
                     (Z.land m (uint32_not (uint32_shl 1 (table_index id))))
                     (ECMA_PROPERTY_NAMEDDATA (magic id) value wr en co) fresh)
    by (destruct Hs' as [[_ ->] | [_ ->]]; eauto 10).
  destruct Hstate as (value & wr & en & co & fresh & ->).
  apply pending_bits_track_properties_spec.
  exists obj_p.
  eexists _, id', (Z.land m (uint32_not (uint32_shl 1 (table_index id)))).
  split; [exact Hobj |].
  split; [now apply instantiated_state_object |].
  split.
  { cbn [properties with_properties]. unfold find_property.
    cbn [List.find property_key].
    rewrite bool_decide_eq_false_2 by discriminate.
    exact (find_property_with_mask _ m id' _ Hmask). }
  split; [now apply cleared_mask_range |].
  intros k id1 Hk.
  assert (Hk15 : (k < 15)%nat) by (apply lookup_lt_Some in Hk; exact Hk).
  rewrite clear_bit_testbit by lia.
  rewrite has_named_property_attached, Hindex.
  destruct (decide (id1 = id)) as [-> | Hne].
  - rewrite (bool_decide_eq_true_2 _ eq_refl).
    assert (k = k0) as ->.
    { pose proof (table_index_of_names magic_string_id_value names_ascending
                    k id Hk) as H1.
      pose proof (table_index_of_names magic_string_id_value names_ascending
                    k0 id Hk0) as H2.
      lia. }
    rewrite Z.eqb_refl. apply andb_false_r.
  - rewrite bool_decide_eq_false_2 by congruence.
    rewrite <- (Hall k id1 Hk).
    assert (Hkk : Z.of_nat k0 <> Z.of_nat k).
    { intros Heq. apply Hne. apply Nat2Z.inj in Heq. subst k0. congruence. }
    rewrite (proj2 (Z.eqb_neq _ _) Hkk).
    rewrite (proj2 (Z.ltb_lt _ _)) by lia.
    now rewrite !andb_true_r.
Qed.

Lemma run_keeps_in_step obj_p names :
  forall s results s',
    pending_bits_track_properties s = true ->
    instantiate_all magic_string_id_value obj_p names s = Returned results s' ->
    pending_bits_track_properties s' = true.
Proof.
  induction names as [| name names IH]; intros s results s' Hinv Hrun.
  - injection Hrun as _ <-. exact Hinv.
  - cbn [instantiate_all] in Hrun. unfold bind at 1 in Hrun.
    destruct (try_to_instantiate obj_p name s) as [r s1 | |] eqn:Hfirst;
      try discriminate.
    unfold bind at 1 in Hrun.
    destruct (instantiate_all magic_string_id_value obj_p names s1)
      as [rs s2 | |] eqn:Hrest; try discriminate.
    injection Hrun as _ <-.
    eapply IH; [| exact Hrest].
    eapply request_keeps_in_step; eassumption.
Qed.

Lemma run_keeps_global_pointer obj_p names :
  forall s results s',
    instantiate_all magic_string_id_value obj_p names s = Returned results s' ->
    ecma_object_object_p s' = ecma_object_object_p s.
Proof.
  induction names as [| name names IH]; intros s results s' Hrun.
  - now injection Hrun as _ <-.
  - cbn [instantiate_all] in Hrun. unfold bind at 1 in Hrun.
    destruct (try_to_instantiate obj_p name s) as [r s1 | |] eqn:Hfirst;
      try discriminate.
    unfold bind at 1 in Hrun.
    destruct (instantiate_all magic_string_id_value obj_p names s1)
      as [rs s2 | |] eqn:Hrest; try discriminate.
    injection Hrun as _ <-.
    rewrite (IH _ _ _ Hrest).
    apply instantiate_returned_inv in Hfirst
      as (Hobj & o & Hheap & Hnew & [[_ ->] | Hdone]); [reflexivity |].
    destruct Hdone as (id & id' & m & _ & _ & _ & _ & _ & Hs').
    cbv zeta in Hs'. destruct Hs' as [[_ ->] | [_ ->]]; reflexivity.
Qed.

(** X10: the mask and the attached properties stay in step along every run
    of requests on the freshly initialised Object object, whatever the
    names requested: the mask keeps within the bits of the table, and the
    bit of an entry is pending exactly when no property of that name is
    attached. *)
Theorem mask_tracks_attached_properties s_pre s0 names results s' :
  ecma_builtin_init_object_object s_pre = Returned tt s0 ->
  instantiate_all magic_string_id_value (length (heap s_pre)) names s0
  = Returned results s' ->
  pending_bits_track_properties s' = true /\
  exists o bit_mask,
    ecma_object_object_p s' = Some (length (heap s_pre)) /\
    heap s' !! length (heap s_pre) = Some o /\
    non_instantiated_mask s' = Some bit_mask /\
    0 <= bit_mask < 2 ^ 15 /\
    forall (k : nat) id,
      ecma_builtin_object_property_names !! k = Some id ->
      (Z.testbit bit_mask (Z.of_nat k) = true
       <-> find_property (KEY_NAMED (magic id)) (properties o) = None).
Proof.
  intros Hinit Hrun.
  apply init_object_object_returned in Hinit as [_ ->].
  fold (initialized_state s_pre) in Hrun.
  assert (Hinv : pending_bits_track_properties s' = true).
  { eapply run_keeps_in_step; [| exact Hrun]. apply initialized_state_in_step. }
  split; [exact Hinv |].
  apply pending_bits_track_properties_spec in Hinv
    as (obj_p & o & id' & m & Hobj & Hheap & Hmask & Hrange & Hall).
  assert (Hp : ecma_object_object_p s' = Some (length (heap s_pre)))
    by (rewrite (run_keeps_global_pointer _ _ _ _ _ Hrun); reflexivity).
  assert (obj_p = length (heap s_pre)) as -> by congruence.
  exists o, m. split; [exact Hp |]. split; [exact Hheap |].
  split; [apply non_instantiated_mask_Some; eauto 10 |].
  split; [exact Hrange |].
  intros k id Hk. rewrite (Hall k id Hk). unfold has_named_property.
  destruct (find_property (KEY_NAMED (magic id)) (properties o));
    cbn; split; congruence.
Qed.

(** X11: along such a run the branch that answers NULL for a cleared bit is
    never taken: a request for an entry of the table that returns, returns
    the property; NULL is the answer for the names outside the table
    only. *)
Theorem run_request_for_table_entry_instantiates
    s_pre s0 names results s1 id r s2 :
  ecma_builtin_init_object_object s_pre = Returned tt s0 ->
  instantiate_all magic_string_id_value (length (heap s_pre)) names s0
  = Returned results s1 ->
  In id ecma_builtin_object_property_names ->
  try_to_instantiate (length (heap s_pre)) (magic id) s1 = Returned r s2 ->
  r = Some (length (heap s_pre), KEY_NAMED (magic id)).
Proof.
  intros Hinit Hrun Hin Hrequest.
  apply init_object_object_returned in Hinit as [_ ->].
  fold (initialized_state s_pre) in Hrun.
  assert (Hinv : pending_bits_track_properties s1 = true).
  { eapply run_keeps_in_step; [| exact Hrun]. apply initialized_state_in_step. }
  apply pending_bits_track_properties_spec in Hinv
    as (obj_p & o & id' & m & Hobj & Hheap & Hmask & Hrange & Hall).
  pose proof Hrequest as Hinv1.
  apply instantiate_returned_inv in Hinv1
    as (Hobj1 & o1 & Hheap1 & Hnew & _).
  assert (obj_p = length (heap s_pre)) as -> by congruence.
  assert (o1 = o) as -> by congruence.
  apply list_elem_of_In, list_elem_of_lookup in Hin as [k Hk].
  pose proof (table_index_of_names magic_string_id_value names_ascending k id Hk)
    as Hindex.
  assert (Hbit : Z.testbit m (table_index id) = true).
  { rewrite Hindex, (Hall k id Hk). unfold has_named_property.
    now rewrite Hnew. }
  assert (Hfound : table_index id <> -1) by (rewrite Hindex; lia).
  pose proof (instantiate_pending_run magic_string_id_value
                s1 _ o (magic id) id id' m
                Hobj Hheap Hnew eq_refl Hmask Hfound Hbit) as Hpending.
  cbv zeta in Hpending. rewrite Hpending in Hrequest.
  destruct (property_kind id); try discriminate;
    now injection Hrequest as <- _.
Qed.

Lemma table_entries_have_a_case id :
  In id ecma_builtin_object_property_names -> property_kind id <> KIND_NONE.
Proof.
  intros Hin. cbn in Hin.
  repeat (destruct Hin as [<- | Hin]; [discriminate |]). contradiction.
Qed.

(** X12: the default branch of the switch that synthesises the property is
    never reached: whatever the state, the object and the name, a request
    does not stop at the unreachable marker. *)
Theorem instantiation_never_reaches_default s obj_p name :
  match ecma_builtin_object_try_to_instantiate_property
          magic_string_id_value obj_p name s with
  | Fatal ERR_UNREACHABLE => False
  | _ => True
  end.
Proof.
  rewrite try_to_instantiate_outcome. unfold instantiation_outcome.
  case_bool_decide; [| exact I].
  destruct (heap s !! obj_p) as [o |]; [| exact I].
  destruct (find_property (KEY_NAMED name) (properties o)); [exact I |].
  destruct (ecma_is_string_magic name) as [id |]; [| exact I].
  cbv zeta.
  destruct (Z.eqb_spec (table_index id) (-1)) as [| Hfound]; [exact I |].
  destruct (find_property _ (properties o)) as [[| | id' [w | | |]] |];
    try exact I.
  destruct (Z.land w _ =? 0); [exact I |].
  destruct (table_index_position id Hfound) as (k & _ & Hk).
  assert (Hcase : property_kind id <> KIND_NONE).
  { apply table_entries_have_a_case.
    apply list_elem_of_In. eapply list_elem_of_lookup_2. exact Hk. }
  destruct (property_kind id); try exact I. contradiction.
Qed.

Lemma request_keeps_prototype_pending s obj_p name r s' :
  prototype_pending s ->
  try_to_instantiate obj_p name s = Returned r s' ->
  prototype_pending s'.
Proof.
  intros (bit_mask & Hmask0 & Hbit0) Hrun.
  apply instantiate_returned_inv in Hrun
    as (Hobj & o & Hheap & Hnew & [[_ ->] | Hdone]);
    [exists bit_mask; auto |].
  destruct Hdone as (id & id' & m & Hmagic & Hfound & Hmask & Hbit & _ & Hs').
  cbv zeta in Hs'.
  assert (Hm : bit_mask = m).
  { apply non_instantiated_mask_Some in Hmask0
      as (obj_p0 & o0 & id0 & Hobj0 & Hheap0 & Hmask0).
    congruence. }
  subst m.
  pose proof (table_index_bit_position magic_string_id_value id Hfound) as Hpos.
  destruct (table_index_position id Hfound) as (k0 & Hindex & Hk0).
  assert (Hkind : property_kind id <> KIND_PROTOTYPE)
    by (destruct Hs' as [[-> _] | [-> _]]; discriminate).
  assert (Hk : k0 <> 0%nat).
  { intros ->. cbn in Hk0. injection Hk0 as <-. now apply Hkind. }
  exists (Z.land bit_mask (uint32_not (uint32_shl 1 (table_index id)))).
  split.
  - destruct Hs' as [[_ ->] | [_ ->]];
      exact (instantiated_state_mask _ _ _ _ _ _ _ _ _ _ _ _ Hobj Hheap Hmask).
  - rewrite clear_bit_testbit by lia. rewrite Hbit0, Hindex.
    rewrite (proj2 (Z.eqb_neq (Z.of_nat k0) 0)) by lia. reflexivity.
Qed.

Lemma run_keeps_prototype_pending obj_p names :
  forall s results s',
    prototype_pending s ->
    instantiate_all magic_string_id_value obj_p names s = Returned results s' ->
    prototype_pending s'.
Proof.
  induction names as [| name names IH]; intros s results s' Hinv Hrun.
  - injection Hrun as _ <-. exact Hinv.
  - cbn [instantiate_all] in Hrun. unfold bind at 1 in Hrun.
    destruct (try_to_instantiate obj_p name s) as [r s1 | |] eqn:Hfirst;
      try discriminate.
    unfold bind at 1 in Hrun.
    destruct (instantiate_all magic_string_id_value obj_p names s1)
      as [rs s2 | |] eqn:Hrest; try discriminate.
    injection Hrun as _ <-.
    eapply IH; [| exact Hrest].
    eapply request_keeps_prototype_pending; eassumption.
Qed.

(** A request for "prototype" while its bit is pending. *)
Lemma prototype_request_stops s obj_p :
  pending_bits_track_properties s = true ->
  prototype_pending s ->
  ecma_object_object_p s = Some obj_p ->
  try_to_instantiate obj_p (magic ECMA_MAGIC_STRING_PROTOTYPE) s
  = Fatal (ERR_UNIMPLEMENTED
             "ecma_builtin_object_try_to_instantiate_property" []).
Proof.
  intros Hstep (bit_mask & Hmask0 & Hbit0) Hp.
  apply pending_bits_track_properties_spec in Hstep
    as (obj_p0 & o & id' & m & Hobj & Hheap & Hmask & Hrange & Hall).
  assert (Hm : bit_mask = m).
  { apply non_instantiated_mask_Some in Hmask0
      as (obj_p1 & o1 & id1 & Hobj1 & Hheap1 & Hmask1).
    congruence. }
  subst m.
  assert (obj_p0 = obj_p) as -> by congruence.
  pose proof (Hall 0%nat ECMA_MAGIC_STRING_PROTOTYPE eq_refl) as Hzero.
  change (Z.of_nat 0) with 0 in Hzero. rewrite Hbit0 in Hzero.
  assert (Hnew : find_property
                   (KEY_NAMED (magic ECMA_MAGIC_STRING_PROTOTYPE))
                   (properties o) = None).
  { unfold has_named_property in Hzero.
    destruct (find_property (KEY_NAMED (magic ECMA_MAGIC_STRING_PROTOTYPE))
                (properties o)) eqn:Hfind; [| reflexivity].
    cbn in Hzero. discriminate. }
  pose proof (table_index_of_names magic_string_id_value names_ascending
                0%nat ECMA_MAGIC_STRING_PROTOTYPE eq_refl) as Hindex.
  change (Z.of_nat 0) with 0 in Hindex.
  rewrite (instantiate_pending_run magic_string_id_value
             s _ o (magic ECMA_MAGIC_STRING_PROTOTYPE)
             ECMA_MAGIC_STRING_PROTOTYPE id' bit_mask
             Hobj Hheap Hnew eq_refl Hmask);
    [reflexivity | rewrite Hindex; lia | now rewrite Hindex].
Qed.

(** A run that returns has not asked for "prototype". *)
Lemma run_without_prototype obj_p names :
  forall s results s',
    pending_bits_track_properties s = true ->
    prototype_pending s ->
    ecma_object_object_p s = Some obj_p ->
    instantiate_all magic_string_id_value obj_p names s = Returned results s' ->
    ~ In (magic ECMA_MAGIC_STRING_PROTOTYPE) names.
Proof.
  induction names as [| name names IH];
    intros s results s' Hstep Hpending Hp Hrun Hin; [contradiction |].
  cbn [instantiate_all] in Hrun. unfold bind at 1 in Hrun.
  destruct (try_to_instantiate obj_p name s) as [r s1 | |] eqn:Hfirst;
    try discriminate.
  unfold bind at 1 in Hrun.
  destruct (instantiate_all magic_string_id_value obj_p names s1)
    as [rs s2 | |] eqn:Hrest; try discriminate.
  destruct Hin as [-> | Hin].
  - rewrite (prototype_request_stops s obj_p Hstep Hpending Hp) in Hfirst.
    discriminate.
  - eapply (IH s1); try eassumption.
    + eapply request_keeps_in_step; eassumption.
    + eapply request_keeps_prototype_pending; eassumption.
    + rewrite <- Hp.
      exact (run_keeps_global_pointer obj_p [name] s [r] s1
               ltac:(cbn [instantiate_all]; unfold bind; rewrite Hfirst;
                     reflexivity)).
Qed.

(** X13: "prototype" is never served: after any run of requests on the
    freshly initialised Object object, a request for "prototype" stops the
    engine with the unimplemented marker, and so the run itself has not
    asked for it. *)
Theorem prototype_request_is_never_served s_pre s0 names results s1 :
  ecma_builtin_init_object_object s_pre = Returned tt s0 ->
  instantiate_all magic_string_id_value (length (heap s_pre)) names s0
  = Returned results s1 ->
  try_to_instantiate (length (heap s_pre)) (magic ECMA_MAGIC_STRING_PROTOTYPE) s1
  = Fatal (ERR_UNIMPLEMENTED
             "ecma_builtin_object_try_to_instantiate_property" []) /\
  ~ In (magic ECMA_MAGIC_STRING_PROTOTYPE) names.
Proof.
  intros Hinit Hrun.
  apply init_object_object_returned in Hinit as [_ ->].
  fold (initialized_state s_pre) in Hrun.
  assert (Hfresh : prototype_pending (initialized_state s_pre)).
  { exists (2 ^ 15 - 1). split; [apply initialized_state_mask | reflexivity]. }
  pose proof (initialized_state_in_step s_pre) as Hstep.
  split.
  - apply prototype_request_stops.
    + eapply run_keeps_in_step; eassumption.
    + eapply run_keeps_prototype_pending; eassumption.
    + rewrite (run_keeps_global_pointer _ _ _ _ _ Hrun). reflexivity.
  - eapply run_without_prototype; try eassumption. reflexivity.
Qed.

End MaskInStep.

(** ** The life cycle of the Object object *)

(** X14: the initialisation runs once: without Object object it returns,
    adds one object at the end of the heap and leaves every other object as
    it is; the new object is the only one that
    [ecma_builtin_is_object_object] recognises and has no named property
    yet; with the Object object in place, the entry assertion stops a
    second initialisation. *)
Theorem init_object_object_runs_once s :
  (ecma_object_object_p s = None ->
   exists s0,
     ecma_builtin_init_object_object s = Returned tt s0 /\
     length (heap s0) = S (length (heap s)) /\
     (forall p, (p < length (heap s))%nat -> heap s0 !! p = heap s !! p) /\
     (forall p b,
        ecma_builtin_is_object_object p s0 = Returned b s0 ->
        (b = true <-> p = length (heap s))) /\
     (forall name,
        ecma_find_named_property (length (heap s)) name s0 = Returned None s0) /\
     ecma_builtin_init_object_object s0 = Fatal ERR_FAILED_ASSERTION) /\
  (ecma_object_object_p s <> None ->
   ecma_builtin_init_object_object s = Fatal ERR_FAILED_ASSERTION).
Proof.
  split.
  - intros Hnull. exists (initialized_state s).
    split; [exact (init_object_object_run s Hnull) |].
    split; [cbn [heap initialized_state]; rewrite length_app; cbn; lia |].
    split; [intros p Hp; cbn [heap initialized_state]; now apply lookup_app_l |].
    split.
    { intros p b. unfold ecma_builtin_is_object_object, bind, get_state, ret.
      cbn [ecma_object_object_p initialized_state].
      intros [= <-]. rewrite bool_decide_eq_true.
      split; [intros [= ->]; reflexivity | intros ->; reflexivity]. }
    split; [intros name; apply initialized_state_lookup_miss |].
    reflexivity.
  - intros Hset. unfold ecma_builtin_init_object_object.
    rewrite bind_get_state.
    destruct (ecma_object_object_p s); [reflexivity | contradiction].
Qed.

Lemma init_object_object_runs_once_witness :
  exists s0,
    ecma_builtin_init_object_object empty_engine_state = Returned tt s0 /\
    length (heap s0) = 1%nat /\
    ecma_builtin_init_object_object s0 = Fatal ERR_FAILED_ASSERTION.
Proof.
  destruct (init_object_object_runs_once empty_engine_state) as [Hfirst _].
  destruct (Hfirst eq_refl) as (s0 & Hinit & Hlength & _ & _ & _ & Hagain).
  exists s0. auto.
Defined.

Section ObjectObjectLifetimeProperties.

Variable ecma_ref_object : ecma_object_ptr -> M unit.
Variable ecma_deref_object : ecma_object_ptr -> M unit.

Abbreviation get_object_object :=
  (ecma_builtin_get_object_object ecma_ref_object).
Abbreviation finalize_object_object :=
  (ecma_builtin_finalize_object_object ecma_deref_object).


(** X16: [ecma_builtin_get_object_object] stops at its assertion before the
    initialisation; after it, and with the reference taken, it returns the
    pointer to the object that the initialisation made, the one that
    [ecma_builtin_is_object_object] recognises. *)
Theorem get_object_object_after_init s :
  ecma_object_object_p s = None ->
  get_object_object s = Fatal ERR_FAILED_ASSERTION /\
  forall s0 s1,
    ecma_builtin_init_object_object s = Returned tt s0 ->
    ecma_ref_object (length (heap s)) s0 = Returned tt s1 ->
    ecma_object_object_p s1 = ecma_object_object_p s0 ->
    get_object_object s0 = Returned (Some (length (heap s))) s1 /\
    ecma_builtin_is_object_object (length (heap s)) s1 = Returned true s1.
Proof.
  intros Hnull. split.
  - unfold ecma_builtin_get_object_object.
    rewrite bind_get_state, Hnull. reflexivity.
  - intros s0 s1 Hinit Href Hkept.
    apply init_object_object_returned in Hinit as [_ ->].
    cbn [ecma_object_object_p] in Hkept.
    split.
    + unfold ecma_builtin_get_object_object.
      rewrite bind_get_state. cbn [ecma_object_object_p].
      rewrite bool_decide_eq_true_2 by discriminate.
      rewrite bind_assert_true.
      unfold bind at 1. rewrite Href.
      rewrite bind_get_state, Hkept. reflexivity.
    + unfold ecma_builtin_is_object_object.
      rewrite bind_get_state, Hkept.
      now rewrite (bool_decide_eq_true_2 _ eq_refl).
Qed.

End ObjectObjectLifetimeProperties.


Lemma get_object_object_after_init_witness :
  ecma_builtin_get_object_object (fun _ => ret tt) empty_engine_state
  = Fatal ERR_FAILED_ASSERTION /\
  ecma_builtin_get_object_object
    (fun _ => ret tt) (initialized_state empty_engine_state)
  = Returned (Some 0%nat) (initialized_state empty_engine_state).
Proof.
  destruct (get_object_object_after_init
              (fun _ => ret tt) empty_engine_state eq_refl)
    as [Hbefore Hafter].
  split; [exact Hbefore |].
  destruct (Hafter (initialized_state empty_engine_state)
              (initialized_state empty_engine_state)
              eq_refl eq_refl eq_refl) as [Hget _].
  exact Hget.
Defined.

(** * Properties of the C library of the Darwin target *)

Section Conversions.

Variable size_t_width : Z.
Hypothesis width_positive : 0 < size_t_width.

Abbreviation modulus := (size_t_modulus size_t_width).
Abbreviation size_of := (to_size_t size_t_width).
Abbreviation long_of := (to_long size_t_width).

Lemma size_t_modulus_double : modulus = 2 * 2 ^ (size_t_width - 1).
Proof.
  unfold size_t_modulus.
  rewrite <- Z.pow_succ_r by lia. f_equal. lia.
Qed.

Lemma half_modulus_positive : 0 < 2 ^ (size_t_width - 1).
Proof. apply Z.pow_pos_nonneg; lia. Qed.

Lemma to_size_t_small z : 0 <= z < modulus -> size_of z = z.
Proof. intros H. unfold to_size_t. now apply Z.mod_small. Qed.

Lemma to_long_small z : 0 <= z < 2 ^ (size_t_width - 1) -> long_of z = z.
Proof.
  intros H. unfold to_long. cbv zeta.
  pose proof size_t_modulus_double.
  rewrite Z.mod_small by lia.
  now rewrite (proj2 (Z.ltb_lt _ _)) by lia.
Qed.

Lemma to_size_t_minus_one : size_of (-1) = modulus - 1.
Proof.
  unfold to_size_t.
  pose proof size_t_modulus_double. pose proof half_modulus_positive.
  symmetry. apply (Z.mod_unique_pos _ _ (-1)); lia.
Qed.

End Conversions.

Section ReadAndWrite.

Variable kernel_state : Type.
Variable syscall_3 :
  syscall_no_t -> Z -> Z -> Z -> kernel_state -> Z * kernel_state.
Variable size_t_width : Z.
Hypothesis width_positive : 0 < size_t_width.

Abbreviation modulus := (size_t_modulus size_t_width).
Abbreviation size_of := (to_size_t size_t_width).
Abbreviation long_of := (to_long size_t_width).
Abbreviation read_loop := (fread_loop kernel_state syscall_3 size_t_width).
Abbreviation write_loop := (fwrite_loop kernel_state syscall_3 size_t_width).

Lemma fread_loop_step fuel ptr size nmemb stream bytes_read k :
  read_loop (S fuel) ptr size nmemb stream bytes_read k
  = let (ret, k') :=
      syscall_3 SYS_read
        (long_of stream) (long_of (ptr + bytes_read))
        (long_of (size_of (size_of (size * nmemb) - bytes_read))) k in
    if negb (size_of (bytes_read + size_of ret) =? size_of (size * nmemb))
       && negb (ret =? 0)
    then read_loop fuel ptr size nmemb stream
           (size_of (bytes_read + size_of ret)) k'
    else Done (size_of (bytes_read + size_of ret)) k'.
Proof. reflexivity. Qed.

Lemma fwrite_loop_step fuel ptr size nmemb stream bytes_written k :
  write_loop (S fuel) ptr size nmemb stream bytes_written k
  = let (ret, k') :=
      syscall_3 SYS_write
        (long_of stream) (long_of (ptr + bytes_written))
        (long_of (size_of (size_of (size * nmemb) - bytes_written))) k in
    if negb (size_of (bytes_written + size_of ret) =? size_of (size * nmemb))
    then write_loop fuel ptr size nmemb stream
           (size_of (bytes_written + size_of ret)) k'
    else Done (size_of (bytes_written + size_of ret)) k'.
Proof. reflexivity. Qed.

(** The count that the loops hand to the kernel while the bytes requested
    fit a [long int]. *)
Lemma remaining_count size nmemb bytes :
  0 <= size * nmemb < 2 ^ (size_t_width - 1) ->
  0 <= bytes <= size * nmemb ->
  size_of (size * nmemb) = size * nmemb /\
  long_of (size_of (size_of (size * nmemb) - bytes)) = size * nmemb - bytes.
Proof.
  intros Htotal Hbytes.
  pose proof (size_t_modulus_double size_t_width width_positive).
  assert (H1 : size_of (size * nmemb) = size * nmemb)
    by (apply to_size_t_small; lia).
  split; [exact H1 |].
  rewrite H1, to_size_t_small by lia.
  apply to_long_small; [exact width_positive | lia].
Qed.

(** The loop of [fread] against a kernel that never delivers more than it
    is asked for. *)
Lemma fread_loop_terminates ptr size nmemb stream :
  (forall fd buf count k,
     0 <= count -> 0 <= fst (syscall_3 SYS_read fd buf count k) <= count) ->
  0 <= size * nmemb < 2 ^ (size_t_width - 1) ->
  forall (remaining : nat) bytes_read k,
    0 <= bytes_read <= size * nmemb ->
    size * nmemb - bytes_read <= Z.of_nat remaining ->
    exists b k',
      bytes_read <= b <= size * nmemb /\
      (b = size * nmemb \/
       exists fd buf count k0,
         0 < count /\ fst (syscall_3 SYS_read fd buf count k0) = 0) /\
      forall fuel,
        (remaining < fuel)%nat ->
        read_loop fuel ptr size nmemb stream bytes_read k = Done b k'.
Proof.
  intros Hkernel Htotal.
  pose proof (size_t_modulus_double size_t_width width_positive) as Hdouble.
  induction remaining as [| remaining IH]; intros bytes_read k Hbytes Hremaining.
  all: destruct (remaining_count size nmemb bytes_read Htotal Hbytes)
         as [Hsize Hcount].
  all: pose proof (Hkernel (long_of stream) (long_of (ptr + bytes_read))
                     (size * nmemb - bytes_read) k ltac:(lia)) as Hret.
  all: destruct (syscall_3 SYS_read (long_of stream) (long_of (ptr + bytes_read))
                   (size * nmemb - bytes_read) k) as [ret k1] eqn:Hcall.
  all: cbn [fst] in Hret.
  all: assert (Hnext : size_of (bytes_read + size_of ret) = bytes_read + ret)
         by (rewrite (to_size_t_small _ ret) by lia;
             apply to_size_t_small; lia).
  - exists (bytes_read + ret), k1.
    split; [lia |]. split; [left; lia |].
    intros [| fuel] Hfuel; [lia |].
    rewrite fread_loop_step, Hcount, Hcall, Hnext, Hsize.
    rewrite (proj2 (Z.eqb_eq _ _)) by lia. reflexivity.
  - destruct (Z.eq_dec (bytes_read + ret) (size * nmemb)) as [Hall | Hmore];
      [| destruct (Z.eq_dec ret 0) as [Hzero | Hsome]].
    + exists (bytes_read + ret), k1.
      split; [lia |]. split; [left; lia |].
      intros [| fuel] Hfuel; [lia |].
      rewrite fread_loop_step, Hcount, Hcall, Hnext, Hsize.
      rewrite (proj2 (Z.eqb_eq _ _)) by lia. reflexivity.
    + exists (bytes_read + ret), k1.
      split; [lia |]. split.
      { right.
        exists (long_of stream), (long_of (ptr + bytes_read)),
          (size * nmemb - bytes_read), k.
        rewrite Hcall. cbn [fst]. lia. }
      intros [| fuel] Hfuel; [lia |].
      rewrite fread_loop_step, Hcount, Hcall, Hnext, Hsize.
      rewrite (proj2 (Z.eqb_neq _ _)) by lia.
      rewrite (proj2 (Z.eqb_eq _ _)) by lia. reflexivity.
    + destruct (IH (bytes_read + ret) k1 ltac:(lia) ltac:(lia))
        as (b & k' & Hb & Hend & Hrun).
      exists b, k'. split; [lia |]. split; [exact Hend |].
      intros [| fuel] Hfuel; [lia |].
      rewrite fread_loop_step, Hcount, Hcall, Hnext, Hsize.
      rewrite (proj2 (Z.eqb_neq _ _)) by lia.
      rewrite (proj2 (Z.eqb_neq _ _)) by lia.
      cbn [negb andb]. apply Hrun. lia.
Qed.

(** The loop of [fwrite] against a kernel that takes at least one byte and
    never more than it is handed. *)
Lemma fwrite_loop_terminates ptr size nmemb stream :
  (forall fd buf count k,
     0 <= count ->
     0 <= fst (syscall_3 SYS_write fd buf count k) <= count /\
     (0 < count -> 0 < fst (syscall_3 SYS_write fd buf count k))) ->
  0 <= size * nmemb < 2 ^ (size_t_width - 1) ->
  forall (remaining : nat) bytes_written k,
    0 <= bytes_written <= size * nmemb ->
    size * nmemb - bytes_written <= Z.of_nat remaining ->
    exists k',
      forall fuel,
        (remaining < fuel)%nat ->
        write_loop fuel ptr size nmemb stream bytes_written k
        = Done (size * nmemb) k'.
Proof.
  intros Hkernel Htotal.
  pose proof (size_t_modulus_double size_t_width width_positive) as Hdouble.
  induction remaining as [| remaining IH];
    intros bytes_written k Hbytes Hremaining.
  all: destruct (remaining_count size nmemb bytes_written Htotal Hbytes)
         as [Hsize Hcount].
  all: pose proof (Hkernel (long_of stream) (long_of (ptr + bytes_written))
                     (size * nmemb - bytes_written) k ltac:(lia))
         as [Hret Hprogress].
  all: destruct (syscall_3 SYS_write (long_of stream)
                   (long_of (ptr + bytes_written))
                   (size * nmemb - bytes_written) k) as [ret k1] eqn:Hcall.
  all: cbn [fst] in Hret, Hprogress.
  all: assert (Hnext : size_of (bytes_written + size_of ret) = bytes_written + ret)
         by (rewrite (to_size_t_small _ ret) by lia;
             apply to_size_t_small; lia).
  - exists k1. intros [| fuel] Hfuel; [lia |].
    rewrite fwrite_loop_step, Hcount, Hcall, Hnext, Hsize.
    rewrite (proj2 (Z.eqb_eq _ _)) by lia. cbn [negb]. f_equal. lia.
  - destruct (Z.eq_dec (bytes_written + ret) (size * nmemb)) as [Hall | Hmore].
    + exists k1. intros [| fuel] Hfuel; [lia |].
      rewrite fwrite_loop_step, Hcount, Hcall, Hnext, Hsize.
      rewrite (proj2 (Z.eqb_eq _ _)) by lia. cbn [negb]. f_equal. lia.
    + destruct (IH (bytes_written + ret) k1 ltac:(lia) ltac:(lia)) as (k' & Hrun).
      exists k'. intros [| fuel] Hfuel; [lia |].
      rewrite fwrite_loop_step, Hcount, Hcall, Hnext, Hsize.
      rewrite (proj2 (Z.eqb_neq _ _)) by lia.
      cbn [negb]. apply Hrun. lia.
Qed.

(** The loop of [fwrite] has one exit: every byte written. *)
Lemma fwrite_loop_exit ptr size nmemb stream fuel :
  forall bytes_written k b k',
    write_loop fuel ptr size nmemb stream bytes_written k = Done b k' ->
    b = size_of (size * nmemb).
Proof.
  induction fuel as [| fuel IH]; intros bytes_written k b k' Hrun;
    [discriminate |].
  rewrite fwrite_loop_step in Hrun.
  destruct (syscall_3 SYS_write _ _ _ k) as [ret k1].
  destruct (Z.eqb_spec (size_of (bytes_written + size_of ret))
                       (size_of (size * nmemb))) as [Heq | Hne];
    cbn [negb] in Hrun.
  - injection Hrun as <- _. exact Heq.
  - eapply IH. exact Hrun.
Qed.

Abbreviation fread_of := (fread kernel_state syscall_3 size_t_width).
Abbreviation fwrite_of := (fwrite kernel_state syscall_3 size_t_width).

(** X17: against a kernel that never delivers more than it is asked for,
    [fread] returns: with fuel for one call per requested byte and one more
    it yields a count between 0 and [nmemb], and the count is [nmemb]
    unless the kernel answered 0 to a request for some bytes, the end of
    the file; elements of size 0 are answered with 0 without a call. *)
Theorem fread_returns_at_most_nmemb ptr size nmemb stream k :
  (forall fd buf count k0,
     0 <= count -> 0 <= fst (syscall_3 SYS_read fd buf count k0) <= count) ->
  0 <= size -> 0 <= nmemb ->
  size * nmemb < 2 ^ (size_t_width - 1) ->
  exists n k',
    (forall fuel,
       (Z.to_nat (size * nmemb) < fuel)%nat ->
       fread kernel_state syscall_3 size_t_width fuel ptr size nmemb stream k
       = Done n k') /\
    0 <= n <= nmemb /\
    (size = 0 -> n = 0 /\ k' = k) /\
    (0 < size ->
     n = nmemb \/
     exists fd buf count k0,
       0 < count /\ fst (syscall_3 SYS_read fd buf count k0) = 0).
Proof.
  intros Hkernel Hsize Hnmemb Htotal.
  destruct (Z.eq_dec size 0) as [-> | Hpos].
  - exists 0, k. repeat split; lia.
  - assert (Htotal0 : 0 <= size * nmemb) by nia.
    destruct (fread_loop_terminates ptr size nmemb stream Hkernel
                ltac:(lia) (Z.to_nat (size * nmemb)) 0 k ltac:(lia) ltac:(lia))
      as (b & k' & Hb & Hend & Hrun).
    exists (b / size), k'.
    split.
    { intros fuel Hfuel. unfold fread.
      rewrite (proj2 (Z.eqb_neq _ _) Hpos), (Hrun fuel Hfuel). reflexivity. }
    assert (Hquot : 0 <= b / size <= nmemb).
    { split; [apply Z.div_pos; lia |].
      apply Z.div_le_upper_bound; lia. }
    split; [exact Hquot |].
    split; [intros H0; lia |].
    intros _. destruct Hend as [-> | Hend]; [| now right].
    left. rewrite Z.mul_comm. apply Z.div_mul. lia.
Qed.


(** X19: against a kernel that takes at least one byte of every write and
    never more than it is handed, [fwrite] returns [nmemb]: fuel for one
    call per byte and one more is enough. *)
Theorem fwrite_writes_every_element ptr size nmemb stream k :
  (forall fd buf count k0,
     0 <= count ->
     0 <= fst (syscall_3 SYS_write fd buf count k0) <= count /\
     (0 < count -> 0 < fst (syscall_3 SYS_write fd buf count k0))) ->
  0 < size -> 0 <= nmemb ->
  size * nmemb < 2 ^ (size_t_width - 1) ->
  exists k',
    forall fuel,
      (Z.to_nat (size * nmemb) < fuel)%nat ->
      fwrite kernel_state syscall_3 size_t_width fuel ptr size nmemb stream k
      = Done nmemb k'.
Proof.
  intros Hkernel Hsize Hnmemb Htotal.
  assert (Htotal0 : 0 <= size * nmemb) by nia.
  destruct (fwrite_loop_terminates ptr size nmemb stream Hkernel
              ltac:(lia) (Z.to_nat (size * nmemb)) 0 k ltac:(lia) ltac:(lia))
    as (k' & Hrun).
  exists k'. intros fuel Hfuel. unfold fwrite.
  rewrite (proj2 (Z.eqb_neq _ _)) by lia.
  rewrite (Hrun fuel Hfuel). f_equal.
  rewrite Z.mul_comm. apply Z.div_mul. lia.
Qed.

(** X20: [fwrite] never returns a short count: against a kernel that never
    takes more than it is handed, a count that [fwrite] returns is [nmemb],
    whatever the fuel. *)
Theorem fwrite_never_returns_short_count fuel ptr size nmemb stream k n k' :
  (forall fd buf count k0,
     0 <= count -> 0 <= fst (syscall_3 SYS_write fd buf count k0) <= count) ->
  0 < size -> 0 <= nmemb ->
  size * nmemb < size_t_modulus size_t_width ->
  fwrite kernel_state syscall_3 size_t_width fuel ptr size nmemb stream k
  = Done n k' ->
  n = nmemb.
Proof.
  intros _ Hsize Hnmemb Htotal Hrun. unfold fwrite in Hrun.
  rewrite (proj2 (Z.eqb_neq size 0)) in Hrun by lia.
  destruct (write_loop fuel ptr size nmemb stream 0 k) as [b k1 | | |] eqn:Hloop;
    try discriminate.
  injection Hrun as <- _.
  apply fwrite_loop_exit in Hloop. subst b.
  rewrite to_size_t_small by nia.
  rewrite Z.mul_comm. apply Z.div_mul. lia.
Qed.

Lemma fwrite_loop_spins ptr size nmemb stream :
  (forall fd buf count k0, fst (syscall_3 SYS_write fd buf count k0) = 0) ->
  0 < size * nmemb < modulus ->
  forall fuel k,
    write_loop fuel ptr size nmemb stream 0 k = Out_of_fuel.
Proof.
  intros Hkernel Htotal.
  induction fuel as [| fuel IH]; intros k; [reflexivity |].
  rewrite fwrite_loop_step.
  pose proof (Hkernel (long_of stream) (long_of (ptr + 0))
                (long_of (size_of (size_of (size * nmemb) - 0))) k) as Hret.
  destruct (syscall_3 SYS_write _ _ _ k) as [ret k1].
  cbn [fst] in Hret. subst ret.
  rewrite (to_size_t_small size_t_width 0) by lia.
  rewrite (to_size_t_small size_t_width (0 + 0)) by lia.
  rewrite (to_size_t_small size_t_width (size * nmemb)) by lia.
  rewrite (proj2 (Z.eqb_neq (0 + 0) (size * nmemb))) by lia.
  cbn [negb]. apply IH.
Qed.

(** X21: [fwrite] has no way out but success: against a kernel that takes
    nothing, answering 0 to every write, it never returns when there is
    something to write; whatever the fuel, it is still in its loop. *)
Theorem fwrite_spins_when_nothing_is_written fuel ptr size nmemb stream k :
  (forall fd buf count k0, fst (syscall_3 SYS_write fd buf count k0) = 0) ->
  0 < size -> 0 < nmemb ->
  size * nmemb < size_t_modulus size_t_width ->
  fwrite kernel_state syscall_3 size_t_width fuel ptr size nmemb stream k
  = Out_of_fuel.
Proof.
  intros Hkernel Hsize Hnmemb Htotal. unfold fwrite.
  rewrite (proj2 (Z.eqb_neq size 0)) by lia.
  rewrite fwrite_loop_spins; [reflexivity | exact Hkernel | nia].
Qed.

End ReadAndWrite.

Section OpenFile.

Variable kernel_state : Type.
Variable syscall_3 :
  syscall_no_t -> Z -> Z -> Z -> kernel_state -> Z * kernel_state.
Variable size_t_width : Z.
Variable O_RDONLY : Z.
Variable O_WRONLY : Z.
Variable O_RDWR : Z.
Variable O_TRUNC : Z.
Variable O_CREAT : Z.
Variable O_APPEND : Z.
Variable S_IRUSR : Z.
Variable S_IWUSR : Z.

Abbreviation fopen_of :=
  (fopen kernel_state syscall_3 size_t_width
         O_RDONLY O_WRONLY O_RDWR O_TRUNC O_CREAT O_APPEND S_IRUSR S_IWUSR).
Abbreviation supported_modes :=
  (fopen_supported_modes O_RDONLY O_WRONLY O_RDWR O_TRUNC O_CREAT O_APPEND).

(** X22: [fopen] enters the kernel for five modes only: "r", "r+", "w",
    "w+" and "a", read off the first two characters of the mode string, and
    then opens the file with the flags of that mode and returns what the
    kernel answers, as a pointer; a NULL path, a NULL mode and every other
    mode, "a+" and the binary modes such as "rb" among them, end at an
    assertion, and no call is made. *)
Theorem fopen_supports_five_modes path mode k :
  (forall fp k',
     fopen_of path (Some mode) k = Done fp k'
     <-> path <> 0 /\
         exists mode_0 mode_1 flags ret,
           c_string_read mode 0 = Some mode_0 /\
           c_string_read mode 1 = Some mode_1 /\
           In (mode_0, mode_1, flags) supported_modes /\
           syscall_3 SYS_open (to_long size_t_width path) flags
                     (Z.lor S_IRUSR S_IWUSR) k
           = (ret, k') /\
           fp = to_size_t size_t_width ret) /\
  (forall mode_0 mode_1,
     c_string_read mode 0 = Some mode_0 ->
     c_string_read mode 1 = Some mode_1 ->
     (forall flags, ~ In (mode_0, mode_1, flags) supported_modes) ->
     fopen_of path (Some mode) k = Assertion_failed) /\
  fopen_of path None k = Assertion_failed /\
  fopen_of 0 (Some mode) k = Assertion_failed.
Proof.
  split; [| split; [| split; reflexivity]].
  - intros fp k'. split.
    + unfold fopen.
      destruct (Z.eqb_spec path 0) as [| Hpath]; [discriminate |].
      destruct (c_string_read mode 1) as [mode_1 |]; [| discriminate].
      destruct (c_string_read mode 0) as [mode_0 |]; [| discriminate].
      intros Hrun. split; [exact Hpath |].
      exists mode_0, mode_1.
      destruct (Ascii.eqb_spec mode_1 "+") as [-> | Hplus];
        [| destruct (Ascii.eqb_spec mode_1 Ascii.zero) as [-> | Hend]];
        cbn [orb negb] in Hrun; try discriminate;
        (destruct (Ascii.eqb_spec mode_0 "r") as [Hr | Hr];
         [| destruct (Ascii.eqb_spec mode_0 "w") as [Hw | Hw];
            [| destruct (Ascii.eqb_spec mode_0 "a") as [Ha | Ha]]]);
        try subst mode_0;
        cbn in Hrun; try discriminate;
        match type of Hrun with
        | context [syscall_3 SYS_open ?p ?f ?a k] =>
            destruct (syscall_3 SYS_open p f a k) as [ret k1] eqn:Hcall;
            injection Hrun as <- <-;
            exists f, ret;
            split; [reflexivity |]; split; [reflexivity |];
            split; [cbn; tauto |]; split; [exact Hcall | reflexivity]
        end.
    + intros (Hpath & mode_0 & mode_1 & flags & ret & H0 & H1 & Hin & Hcall & ->).
      unfold fopen. rewrite (proj2 (Z.eqb_neq _ _) Hpath), H0, H1.
      cbn in Hin.
      destruct Hin as [[= <- <- <-] | [[= <- <- <-] | [[= <- <- <-]
                       | [[= <- <- <-] | [[= <- <- <-] | []]]]]];
        cbn; rewrite Hcall; reflexivity.
  - intros mode_0 mode_1 H0 H1 Hout. unfold fopen. rewrite H0, H1.
    destruct (Z.eqb_spec path 0) as [| Hpath]; [reflexivity |].
    destruct (Ascii.eqb_spec mode_1 "+") as [-> | Hplus];
      [| destruct (Ascii.eqb_spec mode_1 Ascii.zero) as [-> | Hend]];
      cbn [orb negb]; try reflexivity;
      (destruct (Ascii.eqb_spec mode_0 "r") as [Hr | Hr];
       [| destruct (Ascii.eqb_spec mode_0 "w") as [Hw | Hw];
          [| destruct (Ascii.eqb_spec mode_0 "a") as [Ha | Ha]]]);
      try subst mode_0;
      cbn; try reflexivity;
      exfalso; eapply Hout; cbn; eauto 10.
Qed.

End OpenFile.

(** * The further properties at work on examples *)

Lemma keys_request_on_fresh_engine :
  ecma_builtin_object_try_to_instantiate_property
    table_order_value 0%nat
    (ECMA_STRING_CONTAINER_MAGIC_STRING ECMA_MAGIC_STRING_KEYS)
    (initialized_state empty_engine_state)
  = Returned
      (Some (0%nat,
             KEY_NAMED (ECMA_STRING_CONTAINER_MAGIC_STRING ECMA_MAGIC_STRING_KEYS)))
      keys_instantiated_state.
Proof. reflexivity. Qed.

Lemma keys_run_on_fresh_engine :
  instantiate_all
    table_order_value 0%nat
    [ECMA_STRING_CONTAINER_MAGIC_STRING ECMA_MAGIC_STRING_KEYS]
    (initialized_state empty_engine_state)
  = Returned
      [Some (0%nat,
             KEY_NAMED (ECMA_STRING_CONTAINER_MAGIC_STRING ECMA_MAGIC_STRING_KEYS))]
      keys_instantiated_state.
Proof. reflexivity. Qed.

Lemma dispatch_reads_outside_short_list_witness :
  ecma_builtin_object_dispatch_routine
    ECMA_MAGIC_STRING_CREATE [ECMA_TYPE_SIMPLE ECMA_SIMPLE_VALUE_NULL] 2
    empty_engine_state
  = Undefined_behaviour.
Proof.
  apply dispatch_reads_outside_short_list.
  exists 2. split; [reflexivity |]. simpl. lia.
Defined.

Lemma parameters_number_and_dispatcher_share_domain_witness :
  ecma_builtin_object_get_routine_parameters_number
    ECMA_MAGIC_STRING_LENGTH empty_engine_state
  = Fatal ERR_UNREACHABLE.
Proof.
  destruct (parameters_number_and_dispatcher_share_domain
              ECMA_MAGIC_STRING_LENGTH empty_engine_state) as (_ & Hout & _).
  apply Hout. simpl. intuition discriminate.
Defined.


Lemma request_never_sets_a_bit_witness :
  exists bit_mask',
    non_instantiated_mask keys_instantiated_state = Some bit_mask' /\
    forall j, 0 <= j ->
              Z.testbit bit_mask' j = true -> Z.testbit 32767 j = true.
Proof.
  destruct (request_never_sets_a_bit
              table_order_value _ _ _ _ _ 32767
              keys_request_on_fresh_engine eq_refl)
    as (bit_mask' & Hmask & Hbits & _).
  exists bit_mask'. split; [exact Hmask | exact Hbits].
Defined.

Lemma returned_property_shape_witness :
  ecma_find_named_property
    0%nat (ECMA_STRING_CONTAINER_MAGIC_STRING ECMA_MAGIC_STRING_KEYS)
    keys_instantiated_state
  = Returned
      (Some (0%nat,
             KEY_NAMED (ECMA_STRING_CONTAINER_MAGIC_STRING ECMA_MAGIC_STRING_KEYS)))
      keys_instantiated_state.
Proof.
  destruct (returned_property_shape
              table_order_value _ _ _ _ _ keys_request_on_fresh_engine)
    as (_ & Hfind & _).
  exact Hfind.
Defined.

Lemma returned_function_object_is_dispatchable_witness :
  exists id func number,
    heap keys_instantiated_state !! 1%nat
    = Some (function_object_for_routine ECMA_BUILTIN_ID_OBJECT id) /\
    routine_handler_name id = Some func /\
    ecma_builtin_object_get_routine_parameters_number id keys_instantiated_state
    = Returned number keys_instantiated_state.
Proof.
  destruct (returned_function_object_is_dispatchable
              table_order_value _ _ _ _ _
              (ECMA_STRING_CONTAINER_MAGIC_STRING ECMA_MAGIC_STRING_KEYS) 1%nat
              ECMA_PROPERTY_WRITABLE ECMA_PROPERTY_NOT_ENUMERABLE
              ECMA_PROPERTY_CONFIGURABLE
              keys_request_on_fresh_engine eq_refl)
    as (id & func & number & _ & Hobject & Hfunc & Hnumber & _).
  exists id, func, number. auto.
Defined.

Lemma request_assertion_failures_witness :
  ecma_builtin_object_try_to_instantiate_property
    table_order_value 1%nat
    (ECMA_STRING_CONTAINER_MAGIC_STRING ECMA_MAGIC_STRING_KEYS)
    keys_instantiated_state
  = Fatal ERR_FAILED_ASSERTION.
Proof.
  apply request_assertion_failures. left. discriminate.
Defined.

Lemma mask_tracks_attached_properties_witness :
  pending_bits_track_properties keys_instantiated_state = true.
Proof.
  exact (proj1 (mask_tracks_attached_properties
                  table_order_value table_order_value_ascending
                  table_order_value_injective
                  empty_engine_state (initialized_state empty_engine_state)
                  _ _ _ eq_refl keys_run_on_fresh_engine)).
Defined.

Lemma run_request_for_table_entry_instantiates_witness :
  exists r s2,
    ecma_builtin_object_try_to_instantiate_property
      table_order_value 0%nat
      (ECMA_STRING_CONTAINER_MAGIC_STRING ECMA_MAGIC_STRING_SEAL)
      keys_instantiated_state
    = Returned r s2 /\
    r = Some (0%nat,
              KEY_NAMED (ECMA_STRING_CONTAINER_MAGIC_STRING ECMA_MAGIC_STRING_SEAL)).
Proof.
  eexists _, _. split; [vm_compute; reflexivity |].
  eapply (run_request_for_table_entry_instantiates
            table_order_value table_order_value_ascending
            table_order_value_injective
            empty_engine_state (initialized_state empty_engine_state)
            _ _ _ ECMA_MAGIC_STRING_SEAL _ _
            eq_refl keys_run_on_fresh_engine).
  - simpl. tauto.
  - vm_compute. reflexivity.
Defined.

Lemma instantiation_never_reaches_default_witness :
  match
    ecma_builtin_object_try_to_instantiate_property
      table_order_value 0%nat
      (ECMA_STRING_CONTAINER_MAGIC_STRING ECMA_MAGIC_STRING_KEYS)
      (initialized_state empty_engine_state)
  with
  | Fatal ERR_UNREACHABLE => False
  | _ => True
  end.
Proof.
  exact (instantiation_never_reaches_default
           table_order_value table_order_value_injective
           (initialized_state empty_engine_state) 0%nat
           (ECMA_STRING_CONTAINER_MAGIC_STRING ECMA_MAGIC_STRING_KEYS)).
Defined.

Lemma prototype_request_is_never_served_witness :
  ecma_builtin_object_try_to_instantiate_property
    table_order_value 0%nat
    (ECMA_STRING_CONTAINER_MAGIC_STRING ECMA_MAGIC_STRING_PROTOTYPE)
    keys_instantiated_state
  = Fatal (ERR_UNIMPLEMENTED
             "ecma_builtin_object_try_to_instantiate_property" []).
Proof.
  exact (proj1 (prototype_request_is_never_served
                  table_order_value table_order_value_ascending
                  table_order_value_injective
                  empty_engine_state (initialized_state empty_engine_state)
                  _ _ _ eq_refl keys_run_on_fresh_engine)).
Defined.

Lemma fread_returns_at_most_nmemb_witness :
  exists n calls,
    fread nat complete_kernel 64 7 4096 2 3 5 0%nat = Done n calls /\
    0 <= n <= 3.
Proof.
  destruct (fread_returns_at_most_nmemb
              nat complete_kernel 64 eq_refl 4096 2 3 5 0%nat)
    as (n & calls & Hrun & Hbound & _).
  - intros fd buf count k0 Hcount. cbn. lia.
  - lia.
  - lia.
  - vm_compute. reflexivity.
  - exists n, calls. split; [apply Hrun; cbn; lia | exact Hbound].
Defined.


Lemma fwrite_writes_every_element_witness :
  exists calls, fwrite nat complete_kernel 64 7 4096 2 3 5 0%nat = Done 3 calls.
Proof.
  destruct (fwrite_writes_every_element
              nat complete_kernel 64 eq_refl 4096 2 3 5 0%nat)
    as (calls & Hrun).
  - intros fd buf count k0 Hcount. cbn. lia.
  - lia.
  - lia.
  - vm_compute. reflexivity.
  - exists calls. apply Hrun. cbn. lia.
Defined.

Lemma fwrite_never_returns_short_count_witness :
  exists n calls,
    fwrite nat complete_kernel 64 3 4096 2 3 5 0%nat = Done n calls /\ n = 3.
Proof.
  exists 3, 1%nat. split; [vm_compute; reflexivity |].
  apply (fwrite_never_returns_short_count
           nat complete_kernel 64 3%nat 4096 2 3 5 0%nat 3 1%nat).
  - intros fd buf count k0 Hcount. cbn. lia.
  - lia.
  - lia.
  - vm_compute. reflexivity.
  - vm_compute. reflexivity.
Defined.

Lemma fwrite_spins_when_nothing_is_written_witness :
  fwrite nat (scripted_kernel []) 64 1000 4096 2 3 5 0%nat = Out_of_fuel.
Proof.
  apply (fwrite_spins_when_nothing_is_written
           nat (scripted_kernel []) 64 1000%nat 4096 2 3 5 0%nat).
  - intros fd buf count k0. reflexivity.
  - lia.
  - lia.
  - vm_compute. reflexivity.
Defined.

Lemma fopen_supports_five_modes_witness :
  darwin_fopen 4096 (Some "w+"%string) 0%nat = Done 3 1%nat /\
  darwin_fopen 4096 (Some "rb"%string) 0%nat = Assertion_failed /\
  darwin_fopen 4096 (Some "a+"%string) 0%nat = Assertion_failed.
Proof.
  unfold darwin_fopen.
  destruct (fopen_supports_five_modes
              nat (scripted_kernel [3]) 64 0 1 2 1024 512 8 256 128
              4096 "w+"%string 0%nat) as (Hdone & _).
  destruct (fopen_supports_five_modes
              nat (scripted_kernel [3]) 64 0 1 2 1024 512 8 256 128
              4096 "rb"%string 0%nat) as (_ & Hbinary & _).
  destruct (fopen_supports_five_modes
              nat (scripted_kernel [3]) 64 0 1 2 1024 512 8 256 128
              4096 "a+"%string 0%nat) as (_ & Happend & _).
  split; [| split].
  - apply Hdone. split; [lia |].
    exists "w"%char, "+"%char, (Z.lor (Z.lor 2 1024) 512), 3.
    repeat split; try reflexivity. simpl. tauto.
  - apply (Hbinary "r"%char "b"%char); try reflexivity.
    intros flags Hin. simpl in Hin.
    repeat (destruct Hin as [Hin | Hin]; [discriminate |]). exact Hin.
  - apply (Happend "a"%char "+"%char); try reflexivity.
    intros flags Hin. simpl in Hin.
    repeat (destruct Hin as [Hin | Hin]; [discriminate |]). exact Hin.
Defined.
